(** * Resume-Parser (R1 agent): parser, feature extractor, evaluator, orchestrator

    A shallow embedding of the TypeScript sources

      - [parsers/ResumeParser.ts]        (module [ResumeParser])
      - [extractors/FeatureExtractor.js] (module [FeatureExtractor])
      - [evaluators/ResumeEvaluator.js]  (module [ResumeEvaluator])
      - [R1Agent.ts]                     (module [R1Agent])

    followed by the properties of the specification that were checked
    against them.

    Conventions of the embedding.

      - A JavaScript string is the list of its UTF-16 code units
        ([jsstring]); ASCII literals are written [js "..."].
      - The evaluator and the feature extractor work on the typed records
        of [types/index.ts].  The numbers these hold (months, years) are
        whole numbers and are modelled in [Z]; quotients are formed in [Q].
        The months of a work history are added without rounding, which is
        what the doubles of the code give as long as every duration and
        every running total is a safe integer; the properties of the sum
        are stated under that condition ([safeMonths]).  A division there
        has such an integer as numerator and a positive integer constant
        as denominator, and both [Math.round] and the comparison with
        [0.7] give on the correctly rounded double the answer they give on
        the exact quotient (the half-way points and [0.7 = 70/100] are the
        roundings of themselves).
      - The parser takes [string | any] and is modelled on untyped values
        ([JSValue]).
      - [String.prototype.toLowerCase] is Unicode dependent and is kept
        abstract ([StringOps]); so are the regular-expression engine, the
        number [parseInt] reads and the clock ([Host]).
      - Exceptions are explicit: a computation that can throw returns a
        [result]. *)

From Stdlib Require Import List ZArith QArith Qround NArith String Ascii Bool Lia.
From Stdlib Require Import DecimalString DecimalPos DecimalZ Permutation Sorted.
Import ListNotations.

Set Implicit Arguments.

(* ================================================================== *)
(** * Part I.  The program                                              *)
(* ================================================================== *)

(** ** JavaScript strings and arrays *)

Definition jsstring := list N.

Definition js (s : string) : jsstring :=
  map N_of_ascii (list_ascii_of_string s).

Definition jsstring_eqb (a b : jsstring) : bool :=
  if list_eq_dec N.eq_dec a b then true else false.

(** [s.length > 0], which is also the truthiness of a string. *)
Definition nonEmpty (s : jsstring) : bool :=
  match s with [] => false | _ :: _ => true end.

Fixpoint startsWith (s prefix : jsstring) {struct prefix} : bool :=
  match prefix, s with
  | [], _ => true
  | _ :: _, [] => false
  | a :: prefix', b :: s' => N.eqb a b && startsWith s' prefix'
  end.

(** [String.prototype.includes]: [needle] occurs in [s] as a substring. *)
Fixpoint String_includes (s needle : jsstring) : bool :=
  startsWith s needle ||
  match s with
  | [] => false
  | _ :: s' => String_includes s' needle
  end.

(** [Array.prototype.includes] on an array of strings. *)
Definition Array_includes (arr : list jsstring) (x : jsstring) : bool :=
  existsb (jsstring_eqb x) arr.

(** [Array.prototype.join]. *)
Fixpoint join (sep : jsstring) (arr : list jsstring) : jsstring :=
  match arr with
  | [] => []
  | [x] => x
  | x :: rest => x ++ sep ++ join sep rest
  end.

(** The code unit of U+2713 CHECK MARK, which opens every match reason. *)
Definition CHECK_MARK : N := 10003%N.

(** Template-literal rendering of a whole number (below 10^21 in
    magnitude, where JavaScript switches to exponent notation). *)
Definition Number_toString (z : Z) : jsstring :=
  js (NilZero.string_of_int (Z.to_int z)).

(** [Math.round]: nearest integer, halves towards plus infinity. *)
Definition Math_round (x : Q) : Z := Qfloor (x + (1 # 2)).

(** The part of the string library that stays abstract. *)
Class StringOps := MkStringOps {
  toLowerCase : jsstring -> jsstring
}.

(** An instance for runs on ASCII data, where it is what every engine
    computes. *)
Definition asciiLower (s : jsstring) : jsstring :=
  map (fun c => if ((65 <=? c) && (c <=? 90))%N then (c + 32)%N else c) s.

Definition asciiOps : StringOps := MkStringOps asciiLower.

(** ** Data model ([types/index.ts]) *)

Inductive DegreeLevel := high_school | associate | bachelor | master | phd.

Definition DegreeLevel_toString (d : DegreeLevel) : jsstring :=
  match d with
  | high_school => js "high_school"
  | associate => js "associate"
  | bachelor => js "bachelor"
  | master => js "master"
  | phd => js "phd"
  end.

Module Education.
Record t := mk {
  degree : jsstring;
  institution : jsstring;
  graduationYear : option Z;
  field : option jsstring;
  gpa : option Q
}.
End Education.

Module WorkExperience.
Record t := mk {
  title : jsstring;
  company : jsstring;
  startDate : jsstring;
  endDate : option jsstring;
  duration : Z;                       (* in months *)
  description : option jsstring;
  technologies : option (list jsstring)
}.
End WorkExperience.

Inductive SkillCategory := technical | soft | language | tool.
Inductive Proficiency := beginner | intermediate | advanced | expert.

Module Skill.
Record t := mk {
  name : jsstring;
  category : SkillCategory;
  proficiency : option Proficiency;
  yearsOfExperience : option Z
}.
End Skill.

Module Certification.
Record t := mk {
  name : jsstring;
  issuingOrganization : jsstring;
  issueDate : option jsstring;
  expiryDate : option jsstring;
  credentialId : option jsstring
}.
End Certification.

Record ParsedResume := mkParsedResume {
  fullName : jsstring;
  email : jsstring;
  phone : jsstring;
  education : list Education.t;
  workExperience : list WorkExperience.t;
  skills : list Skill.t;
  certifications : list Certification.t;
  rawText : option jsstring
}.

Record RequiredEducation := mkRequiredEducation {
  minimumDegree : DegreeLevel;
  preferredFields : option (list jsstring)
}.

Record JobRequirements := mkJobRequirements {
  minimumYearsOfExperience : Z;
  requiredSkills : list jsstring;
  preferredSkills : list jsstring;
  requiredEducation : RequiredEducation;
  requiredCertifications : option (list jsstring);
  softSkills : option (list jsstring)
}.

Inductive PassFail := pass_ | fail_.

Record ScreeningResult := mkScreeningResult {
  candidateProfile : ParsedResume;
  screeningResult : PassFail;
  matchReasons : list jsstring;
  confidenceScore : Q;                  (* 0-1 scale *)
  missingRequirements : option (list jsstring);
  errorMessages : option (list jsstring)
}.

Module ExtractedFeatures.
Record t := mk {
  hasRequiredSkills : bool;
  hasPreferredSkills : bool;
  meetsExperienceRequirement : bool;
  meetsEducationRequirement : bool;
  hasRequiredCertifications : bool;
  totalYearsExperience : Z;
  skillMatchPercentage : Z;
  educationLevel : DegreeLevel
}.
End ExtractedFeatures.

(** The object literal [{high_school: 1, ..., phd: 5}] that three
    functions repeat, and the [x || 0] that follows each lookup. *)
Definition levelHierarchy (d : DegreeLevel) : Z :=
  match d with
  | high_school => 1
  | associate => 2
  | bachelor => 3
  | master => 4
  | phd => 5
  end.

Definition orZero (x : Z) : Z := if (x =? 0)%Z then 0%Z else x.

(** ** FeatureExtractor ([extractors/FeatureExtractor.js]) *)

Module FeatureExtractor.
Section WithStringOps.
Context {ops : StringOps}.
Local Open Scope Z_scope.

Definition requiredSkillsList : list jsstring :=
  [js "JavaScript"; js "Python"; js "Java"; js "React"; js "Node.js"; js "SQL";
   js "Git"; js "HTML"; js "CSS"; js "TypeScript"; js "AWS"; js "Docker"].

Definition checkRequiredSkills (skills : list Skill.t) : bool :=
  let candidateSkillNames := map (fun skill => toLowerCase (Skill.name skill)) skills in
  existsb (fun skill => Array_includes candidateSkillNames (toLowerCase skill))
          requiredSkillsList.

Definition preferredSkillsList : list jsstring :=
  [js "Kubernetes"; js "MongoDB"; js "Redis"; js "GraphQL"; js "TypeScript";
   js "Docker"; js "AWS"; js "Azure"; js "GCP"; js "CI/CD"; js "Microservices"].

Definition checkPreferredSkills (skills : list Skill.t) : bool :=
  let candidateSkillNames := map (fun skill => toLowerCase (Skill.name skill)) skills in
  existsb (fun skill => Array_includes candidateSkillNames (toLowerCase skill))
          preferredSkillsList.

(** The months are whole numbers, added here without rounding.  The code
    adds them as doubles, which gives the same total as long as every
    duration and every total of the loop is a safe integer ([safeMonths]
    below); the properties of the total are stated for such histories. *)
Definition calculateTotalExperience (workExperience : list WorkExperience.t) : Z :=
  let totalMonths :=
    fold_left (fun total exp => total + WorkExperience.duration exp) workExperience 0 in
  Math_round (inject_Z totalMonths / 12).

Definition checkExperienceRequirement (workExperience : list WorkExperience.t) : bool :=
  let totalMonths := calculateTotalExperience workExperience in
  let minimumYears := 3 in
  totalMonths >=? minimumYears * 12.

Definition determineEducationLevel (education : list Education.t) : DegreeLevel :=
  if (List.length education =? 0)%nat then high_school
  else
    fst (fold_left
      (fun (st : DegreeLevel * Z) edu =>
         let '(highestLevel, highestLevelNum) := st in
         let degree := toLowerCase (Education.degree edu) in
         if String_includes degree (js "phd") || String_includes degree (js "doctorate") then
           if levelHierarchy phd >? highestLevelNum
           then (phd, levelHierarchy phd) else st
         else if String_includes degree (js "master") || String_includes degree (js "ms")
                 || String_includes degree (js "ma") then
           if levelHierarchy master >? highestLevelNum
           then (master, levelHierarchy master) else st
         else if String_includes degree (js "bachelor") || String_includes degree (js "bs")
                 || String_includes degree (js "ba") then
           if levelHierarchy bachelor >? highestLevelNum
           then (bachelor, levelHierarchy bachelor) else st
         else if String_includes degree (js "associate") || String_includes degree (js "aa")
                 || String_includes degree (js "as") then
           if levelHierarchy associate >? highestLevelNum
           then (associate, levelHierarchy associate) else st
         else st)
      education (high_school, 1)).

Definition checkEducationRequirement (education : list Education.t) : bool :=
  let educationLevel := determineEducationLevel education in
  let requiredLevel := bachelor in
  let candidateLevel := orZero (levelHierarchy educationLevel) in
  let requiredLevelNum := orZero (levelHierarchy requiredLevel) in
  candidateLevel >=? requiredLevelNum.

Definition requiredCerts : list jsstring :=
  [js "AWS Certified"; js "Microsoft Certified"; js "Google Certified";
   js "CISSP"; js "PMP"; js "Scrum Master"].

Definition checkCertificationRequirement (certifications : list Certification.t) : bool :=
  if (List.length certifications =? 0)%nat then true
  else
    let candidateCertNames :=
      map (fun cert => toLowerCase (Certification.name cert)) certifications in
    existsb (fun cert =>
               existsb (fun candidateCert => String_includes candidateCert (toLowerCase cert))
                       candidateCertNames)
            requiredCerts.

Definition allSkills : list jsstring :=
  [js "JavaScript"; js "Python"; js "Java"; js "C++"; js "React"; js "Angular"; js "Vue";
   js "Node.js"; js "SQL"; js "MongoDB"; js "AWS"; js "Azure"; js "Docker";
   js "Kubernetes"; js "Git"; js "Linux"; js "HTML"; js "CSS"; js "TypeScript"; js "PHP";
   js "Ruby"; js "Go"; js "Rust"; js "Swift"; js "Kotlin"; js "Kubernetes"; js "Redis";
   js "GraphQL"; js "CI/CD"; js "Microservices"; js "REST"; js "GraphQL"].

Definition calculateSkillMatch (skills : list Skill.t) : Z :=
  let candidateSkillNames := map (fun skill => toLowerCase (Skill.name skill)) skills in
  let matchedSkills :=
    filter (fun skill => Array_includes candidateSkillNames (toLowerCase skill)) allSkills in
  Math_round ((inject_Z (Z.of_nat (List.length matchedSkills))
               / inject_Z (Z.of_nat (List.length allSkills))) * 100).

Definition extractFeatures (parsedResume : ParsedResume) : ExtractedFeatures.t :=
  {| ExtractedFeatures.hasRequiredSkills := checkRequiredSkills (skills parsedResume);
     ExtractedFeatures.hasPreferredSkills := checkPreferredSkills (skills parsedResume);
     ExtractedFeatures.meetsExperienceRequirement :=
       checkExperienceRequirement (workExperience parsedResume);
     ExtractedFeatures.meetsEducationRequirement :=
       checkEducationRequirement (education parsedResume);
     ExtractedFeatures.hasRequiredCertifications :=
       checkCertificationRequirement (certifications parsedResume);
     ExtractedFeatures.totalYearsExperience :=
       calculateTotalExperience (workExperience parsedResume);
     ExtractedFeatures.skillMatchPercentage := calculateSkillMatch (skills parsedResume);
     ExtractedFeatures.educationLevel := determineEducationLevel (education parsedResume) |}.

Definition calculateCompleteness (parsedResume : ParsedResume) : Z :=
  let score := 0 in
  let maxScore := 100 in
  let score := if jsstring_eqb (fullName parsedResume) (js "Unknown")
               then score else score + 10 in
  let score := if nonEmpty (email parsedResume) then score + 5 else score in
  let score := if nonEmpty (phone parsedResume) then score + 5 else score in
  let score := if (0 <? List.length (workExperience parsedResume))%nat
               then score + 30 else score in
  let score := if (0 <? List.length (education parsedResume))%nat
               then score + 20 else score in
  let score := if (0 <? List.length (skills parsedResume))%nat then score + 20 else score in
  let score := if (0 <? List.length (certifications parsedResume))%nat
               then score + 10 else score in
  Z.min score maxScore.

End WithStringOps.
End FeatureExtractor.

(** ** ResumeEvaluator ([evaluators/ResumeEvaluator.js]) *)

Module ResumeEvaluator.

Record SkillMatch := mkSkillMatch {
  matched : list jsstring;
  percentage : Z
}.

(** What [extractEvaluationFeatures] returns. *)
Module Features.
Record t := mk {
  hasValidContact : bool;
  totalExperience : Z;
  hasRelevantExperience : bool;
  skillMatch : SkillMatch;
  hasRequiredSkills : bool;
  educationLevel : DegreeLevel;
  hasRelevantEducation : bool;
  hasCertifications : bool;
  resumeCompleteness : Z;
  candidateSkillNames : list jsstring
}.
End Features.

(** What each of the four [evaluate...] helpers returns. *)
Record CategoryScore := mkCategoryScore {
  pass : bool;
  score : Z
}.

(** What [performEvaluation] returns. *)
Record Evaluation := mkEvaluation {
  ev_pass : bool;
  confidence : Q;
  reasons : list jsstring;
  missing : list jsstring;
  errors : list jsstring
}.

(** What [generateDetailedReport] returns. *)
Module DetailedReport.
Record Candidate := mkCandidate {
  name : jsstring;
  email : jsstring;
  phone : jsstring;
  totalExperience : Z;
  educationLevel : DegreeLevel;
  skillCount : nat;
  certificationCount : nat
}.
Record EvaluationSummary := mkEvaluationSummary {
  result : jsstring;
  confidence : Z;
  reasons : list jsstring;
  missing : list jsstring;
  score : Z
}.
Record Requirements := mkRequirements {
  minimumExperience : Z;
  requiredSkills : list jsstring;
  preferredSkills : list jsstring;
  minimumEducation : DegreeLevel;
  requiredCertifications : list jsstring
}.
Record t := mk {
  candidate : Candidate;
  evaluation : EvaluationSummary;
  requirements : Requirements;
  features : Features.t
}.
End DetailedReport.

Section WithStringOps.
Context {ops : StringOps}.
Local Open Scope Z_scope.

Definition evaluateExperience (features : Features.t)
           (requirements : JobRequirements) : CategoryScore :=
  let hasMinimumExperience :=
    Features.totalExperience features >=? minimumYearsOfExperience requirements in
  let hasRelevantExperience := Features.hasRelevantExperience features in
  let score := 0 in
  let score := if hasMinimumExperience then score + 20 else score in
  let score := if hasRelevantExperience then score + 10 else score in
  {| pass := hasMinimumExperience; score := score |}.

Definition evaluateSkills (features : Features.t)
           (requirements : JobRequirements) : CategoryScore :=
  let hasRequiredSkills := Features.hasRequiredSkills features in
  let skillMatchPercentage := percentage (Features.skillMatch features) in
  let score := 0 in
  let score := if hasRequiredSkills then score + 25 else score in
  let score := if skillMatchPercentage >=? 50 then score + 15 else score in
  {| pass := hasRequiredSkills; score := score |}.

Definition evaluateEducation (features : Features.t)
           (requirements : JobRequirements) : CategoryScore :=
  let educationLevel := Features.educationLevel features in
  let hasRelevantEducation := Features.hasRelevantEducation features in
  let requiredLevel :=
    orZero (levelHierarchy (minimumDegree (requiredEducation requirements))) in
  let candidateLevel := orZero (levelHierarchy educationLevel) in
  let meetsLevel := candidateLevel >=? requiredLevel in
  let score := 0 in
  let score := if meetsLevel then score + 15 else score in
  let score := if hasRelevantEducation then score + 5 else score in
  {| pass := meetsLevel; score := score |}.

(** [!requirements.requiredCertifications ||
     requirements.requiredCertifications.length === 0] *)
Definition noCertificationsRequired (requirements : JobRequirements) : bool :=
  match requiredCertifications requirements with
  | None => true
  | Some l => (List.length l =? 0)%nat
  end.

Definition evaluateCertifications (features : Features.t)
           (requirements : JobRequirements) : CategoryScore :=
  let hasCertifications := Features.hasCertifications features in
  if noCertificationsRequired requirements then {| pass := true; score := 10 |}
  else {| pass := hasCertifications;
          score := if hasCertifications then 10 else 0 |}.

Definition REASON_EXPERIENCE (years : Z) : jsstring :=
  CHECK_MARK :: js " " ++ Number_toString years ++ js " years of experience".
Definition REASON_SKILLS : jsstring := CHECK_MARK :: js " Has required technical skills".
Definition REASON_EDUCATION : jsstring := CHECK_MARK :: js " Meets education requirements".
Definition REASON_CERTIFICATIONS : jsstring := CHECK_MARK :: js " Has relevant certifications".

Definition performEvaluation (features : Features.t)
           (requirements : JobRequirements) : Evaluation :=
  let reasons : list jsstring := [] in
  let missing : list jsstring := [] in
  let errors : list jsstring := [] in
  let passScore := 0 in
  let totalScore := 0 in
  (* Experience evaluation (30% weight) *)
  let experienceScore := evaluateExperience features requirements in
  let passScore := passScore + score experienceScore in
  let totalScore := totalScore + 30 in
  let '(reasons, missing) :=
    if pass experienceScore
    then (reasons ++ [REASON_EXPERIENCE (Features.totalExperience features)], missing)
    else (reasons,
          missing ++ [js "Requires "
                      ++ Number_toString (minimumYearsOfExperience requirements)
                      ++ js "+ years experience"]) in
  (* Skills evaluation (40% weight) *)
  let skillsScore := evaluateSkills features requirements in
  let passScore := passScore + score skillsScore in
  let totalScore := totalScore + 40 in
  let '(reasons, missing) :=
    if pass skillsScore
    then (reasons ++ [REASON_SKILLS], missing)
    else
      let missingSkills :=
        filter (fun skill =>
                  negb (Array_includes (Features.candidateSkillNames features) (toLowerCase skill)))
               (requiredSkills requirements) in
      (reasons, missing ++ [js "Missing required skills: " ++ join (js ", ") missingSkills]) in
  (* Education evaluation (20% weight) *)
  let educationScore := evaluateEducation features requirements in
  let passScore := passScore + score educationScore in
  let totalScore := totalScore + 20 in
  let '(reasons, missing) :=
    if pass educationScore
    then (reasons ++ [REASON_EDUCATION], missing)
    else (reasons,
          missing ++ [js "Requires "
                      ++ DegreeLevel_toString (minimumDegree (requiredEducation requirements))
                      ++ js " degree"]) in
  (* Certifications evaluation (10% weight) *)
  let certScore := evaluateCertifications features requirements in
  let passScore := passScore + score certScore in
  let totalScore := totalScore + 10 in
  let '(reasons, missing) :=
    if pass certScore
    then (reasons ++ [REASON_CERTIFICATIONS], missing)
    else if negb (noCertificationsRequired requirements)
    then (reasons, missing ++ [js "Missing required certifications"])
    else (reasons, missing) in
  (* Calculate confidence and final decision *)
  let confidence :=
    if totalScore >? 0 then (inject_Z passScore / inject_Z totalScore)%Q else 0%Q in
  let pass := Qle_bool (7 # 10) confidence in    (* 70% threshold *)
  {| ev_pass := pass;
     confidence := confidence;
     reasons := reasons;
     missing := missing;
     errors := errors |}.

Definition hasValidContact (candidateData : ParsedResume) : bool :=
  nonEmpty (email candidateData) && nonEmpty (phone candidateData).

(** As in the feature extractor: whole months added without rounding, which
    is what the doubles of the code give on safe integers ([safeMonths]). *)
Definition calculateTotalExperience (workExperience : list WorkExperience.t) : Z :=
  let totalMonths :=
    fold_left (fun total exp => total + WorkExperience.duration exp) workExperience 0 in
  Math_round (inject_Z totalMonths / 12).

Definition relevantKeywords : list jsstring :=
  [js "software"; js "developer"; js "engineer"; js "programmer"; js "coding";
   js "web"; js "application"; js "system"; js "database"; js "frontend"; js "backend"].

(** [exp.description?.toLowerCase() || ''] *)
Definition lowerOrEmpty (s : option jsstring) : jsstring :=
  match s with
  | None => []
  | Some d => toLowerCase d
  end.

Definition hasRelevantExperience (workExperience : list WorkExperience.t) : bool :=
  existsb (fun exp =>
             let title := toLowerCase (WorkExperience.title exp) in
             let description := lowerOrEmpty (WorkExperience.description exp) in
             existsb (fun keyword =>
                        String_includes title keyword || String_includes description keyword)
                     relevantKeywords)
          workExperience.

Definition allSkills : list jsstring :=
  [js "JavaScript"; js "Python"; js "Java"; js "C++"; js "React"; js "Angular"; js "Vue";
   js "Node.js"; js "SQL"; js "MongoDB"; js "AWS"; js "Azure"; js "Docker";
   js "Kubernetes"; js "Git"; js "Linux"; js "HTML"; js "CSS"; js "TypeScript"; js "PHP";
   js "Ruby"; js "Go"; js "Rust"; js "Swift"; js "Kotlin"].

Definition analyzeSkillMatch (skills : list Skill.t) : SkillMatch :=
  let candidateSkillNames := map (fun skill => toLowerCase (Skill.name skill)) skills in
  let matchedSkills :=
    filter (fun skill => Array_includes candidateSkillNames (toLowerCase skill)) allSkills in
  {| matched := matchedSkills;
     percentage := Math_round ((inject_Z (Z.of_nat (List.length matchedSkills))
                                / inject_Z (Z.of_nat (List.length allSkills))) * 100) |}.

Definition requiredSkillsList : list jsstring :=
  [js "JavaScript"; js "Python"; js "Java"; js "React"; js "Node.js"; js "SQL";
   js "Git"; js "HTML"; js "CSS"; js "TypeScript"; js "AWS"; js "Docker"].

Definition hasRequiredSkills (skills : list Skill.t) : bool :=
  let candidateSkillNames := map (fun skill => toLowerCase (Skill.name skill)) skills in
  existsb (fun skill => Array_includes candidateSkillNames (toLowerCase skill))
          requiredSkillsList.

Definition determineEducationLevel (education : list Education.t) : DegreeLevel :=
  if (List.length education =? 0)%nat then high_school
  else
    fst (fold_left
      (fun (st : DegreeLevel * Z) edu =>
         let '(highestLevel, highestLevelNum) := st in
         let degree := toLowerCase (Education.degree edu) in
         if String_includes degree (js "phd") || String_includes degree (js "doctorate") then
           if levelHierarchy phd >? highestLevelNum
           then (phd, levelHierarchy phd) else st
         else if String_includes degree (js "master") || String_includes degree (js "ms")
                 || String_includes degree (js "ma") then
           if levelHierarchy master >? highestLevelNum
           then (master, levelHierarchy master) else st
         else if String_includes degree (js "bachelor") || String_includes degree (js "bs")
                 || String_includes degree (js "ba") then
           if levelHierarchy bachelor >? highestLevelNum
           then (bachelor, levelHierarchy bachelor) else st
         else if String_includes degree (js "associate") || String_includes degree (js "aa")
                 || String_includes degree (js "as") then
           if levelHierarchy associate >? highestLevelNum
           then (associate, levelHierarchy associate) else st
         else st)
      education (high_school, 1)).

Definition relevantFields : list jsstring :=
  [js "computer science"; js "software engineering"; js "information technology";
   js "data science"; js "engineering"; js "mathematics"; js "physics"].

Definition hasRelevantEducation (education : list Education.t) : bool :=
  existsb (fun edu =>
             let field := lowerOrEmpty (Education.field edu) in
             existsb (fun relevant => String_includes field relevant) relevantFields)
          education.

Definition calculateCompleteness (candidateData : ParsedResume) : Z :=
  let score := 0 in
  let maxScore := 100 in
  let score := if jsstring_eqb (fullName candidateData) (js "Unknown")
               then score else score + 10 in
  let score := if nonEmpty (email candidateData) then score + 5 else score in
  let score := if nonEmpty (phone candidateData) then score + 5 else score in
  let score := if (0 <? List.length (workExperience candidateData))%nat
               then score + 30 else score in
  let score := if (0 <? List.length (education candidateData))%nat
               then score + 20 else score in
  let score := if (0 <? List.length (skills candidateData))%nat then score + 20 else score in
  let score := if (0 <? List.length (certifications candidateData))%nat
               then score + 10 else score in
  Z.min score maxScore.

Definition extractEvaluationFeatures (candidateData : ParsedResume) : Features.t :=
  {| Features.hasValidContact := hasValidContact candidateData;
     Features.totalExperience := calculateTotalExperience (workExperience candidateData);
     Features.hasRelevantExperience := hasRelevantExperience (workExperience candidateData);
     Features.skillMatch := analyzeSkillMatch (skills candidateData);
     Features.hasRequiredSkills := hasRequiredSkills (skills candidateData);
     Features.educationLevel := determineEducationLevel (education candidateData);
     Features.hasRelevantEducation := hasRelevantEducation (education candidateData);
     Features.hasCertifications := (0 <? List.length (certifications candidateData))%nat;
     Features.resumeCompleteness := calculateCompleteness candidateData;
     Features.candidateSkillNames :=
       map (fun skill => toLowerCase (Skill.name skill)) (skills candidateData) |}.

Definition evaluateAgainstCriteria (candidateData : ParsedResume)
           (jobRequirements : JobRequirements) : ScreeningResult :=
  let features := extractEvaluationFeatures candidateData in
  let evaluation := performEvaluation features jobRequirements in
  {| candidateProfile := candidateData;
     screeningResult := if ev_pass evaluation then pass_ else fail_;
     matchReasons := reasons evaluation;
     confidenceScore := confidence evaluation;
     missingRequirements := Some (missing evaluation);
     errorMessages := Some (errors evaluation) |}.

Definition generateDetailedReport (candidateData : ParsedResume)
           (jobRequirements : JobRequirements) : DetailedReport.t :=
  let features := extractEvaluationFeatures candidateData in
  let evaluation := performEvaluation features jobRequirements in
  {| DetailedReport.candidate :=
       {| DetailedReport.name := fullName candidateData;
          DetailedReport.email := email candidateData;
          DetailedReport.phone := phone candidateData;
          DetailedReport.totalExperience := Features.totalExperience features;
          DetailedReport.educationLevel := Features.educationLevel features;
          DetailedReport.skillCount := List.length (skills candidateData);
          DetailedReport.certificationCount := List.length (certifications candidateData) |};
     DetailedReport.evaluation :=
       {| DetailedReport.result := if ev_pass evaluation then js "PASS" else js "FAIL";
          DetailedReport.confidence := Math_round (confidence evaluation * 100);
          DetailedReport.reasons := reasons evaluation;
          DetailedReport.missing := missing evaluation;
          DetailedReport.score := Math_round (confidence evaluation * 100) |};
     DetailedReport.requirements :=
       {| DetailedReport.minimumExperience := minimumYearsOfExperience jobRequirements;
          DetailedReport.requiredSkills := requiredSkills jobRequirements;
          DetailedReport.preferredSkills := preferredSkills jobRequirements;
          DetailedReport.minimumEducation :=
            minimumDegree (requiredEducation jobRequirements);
          DetailedReport.requiredCertifications :=
            match requiredCertifications jobRequirements with
            | Some certs => certs
            | None => []
            end |};
     DetailedReport.features := features |}.

End WithStringOps.
End ResumeEvaluator.

(** ** JavaScript values and exceptions

    The parser takes [string | any]: its input and everything it builds
    from it are untyped values.  Functions, symbols, accessors, proxies and
    arrays with holes are outside this universe; finite numbers are exact
    rationals. *)

Inductive JSNumber := NaN | Fin (q : Q).

#[warnings="-register-all"]
Inductive JSValue :=
| VUndefined
| VNull
| VBool (b : bool)
| VNum (n : JSNumber)
| VStr (s : jsstring)
| VArr (elems : list JSValue)
| VObj (props : list (string * JSValue)).

Inductive TypeOf := T_undefined | T_object | T_boolean | T_number | T_string.

Definition typeof (v : JSValue) : TypeOf :=
  match v with
  | VUndefined => T_undefined
  | VNull => T_object
  | VBool _ => T_boolean
  | VNum _ => T_number
  | VStr _ => T_string
  | VArr _ | VObj _ => T_object
  end.

Definition isNull (v : JSValue) : bool :=
  match v with VNull => true | _ => false end.

Definition nullish (v : JSValue) : bool :=
  match v with VUndefined | VNull => true | _ => false end.

Definition truthy (v : JSValue) : bool :=
  match v with
  | VUndefined | VNull => false
  | VBool b => b
  | VNum NaN => false
  | VNum (Fin q) => negb (Qeq_bool q 0)
  | VStr s => nonEmpty s
  | VArr _ | VObj _ => true
  end.

(** [a || b] *)
Definition jsOr (a b : JSValue) : JSValue := if truthy a then a else b.
Notation "a '|||' b" := (jsOr a b) (at level 50, left associativity).

Fixpoint lookup (k : string) (props : list (string * JSValue)) : JSValue :=
  match props with
  | [] => VUndefined
  | (k', v) :: rest => if String.eqb k k' then v else lookup k rest
  end.

(** [v.k] for a [v] that is neither [null] nor [undefined], and a [k] that
    no prototype defines (every property name the parser reads is one). *)
Definition prop (v : JSValue) (k : string) : JSValue :=
  match v with
  | VObj props => lookup k props
  | _ => VUndefined
  end.

Definition Number_sub (a b : JSNumber) : JSNumber :=
  match a, b with
  | Fin x, Fin y => Fin (x - y)
  | _, _ => NaN
  end.

Definition Number_mul (a b : JSNumber) : JSNumber :=
  match a, b with
  | Fin x, Fin y => Fin (x * y)
  | _, _ => NaN
  end.

(** What a [throw] carries: an object that is [instanceof Error] (with its
    [name] and [message]), or any other value. *)
Inductive thrown :=
| ErrorObject (name : string) (message : jsstring)
| NonError.

Inductive result (A : Type) :=
| Ok (a : A)
| Throw (e : thrown).
Arguments Ok {A} a.
Arguments Throw {A} e.

Definition bind {A B : Type} (c : result A) (k : A -> result B) : result B :=
  match c with
  | Ok a => k a
  | Throw e => Throw e
  end.

Notation "x <- c ;; k" := (bind c (fun x => k))
  (at level 61, c at next level, right associativity).

(** [arr.map(f)] for a callback that can throw: elements in order, the
    first exception ends the loop. *)
Fixpoint mapM {A B : Type} (f : A -> result B) (l : list A) : result (list B) :=
  match l with
  | [] => Ok []
  | x :: rest =>
      y <- f x ;;
      ys <- mapM f rest ;;
      Ok (y :: ys)
  end.

(** The host's wording of the two [TypeError]s the parser can run into
    (V8's). *)
Definition cannotReadProperties (v : JSValue) (k : string) : thrown :=
  ErrorObject "TypeError"
    (js "Cannot read properties of "
     ++ (if isNull v then js "null" else js "undefined")
     ++ js " (reading '" ++ js k ++ js "')").

Definition notAFunction (callee : string) : thrown :=
  ErrorObject "TypeError" (js callee ++ js " is not a function").

(** [v.map(f)] where [v] is the parameter called [param]. *)
Definition Array_map (param : string) (v : JSValue)
           (f : JSValue -> result JSValue) : result JSValue :=
  match v with
  | VArr elems => ys <- mapM f elems ;; Ok (VArr ys)
  | VUndefined | VNull => Throw (cannotReadProperties v "map")
  | _ => Throw (notAFunction (param ++ ".map"))
  end.

(** ** Regular expressions, [parseInt] and the clock: the host *)

Record RegExp := mkRegExp {
  source : jsstring;
  flags : jsstring
}.

(** One match: the matched text and its capture groups ([None] for a group
    that took no part). *)
Record Match := mkMatch {
  whole : jsstring;
  groups : list (option jsstring)
}.

Class Host := MkHost {
  (** [new RegExp(source, flags)]: [Some message] when it throws a
      [SyntaxError]. *)
  RegExp_syntaxError : jsstring -> jsstring -> option jsstring;
  (** The successive matches of a pattern in a string, from its start. *)
  matches : RegExp -> jsstring -> list Match;
  (** The number [parseInt(v)] reads off the string [v] converts to. *)
  parseInt_value : JSValue -> JSNumber;
  (** [new Date().getFullYear()] *)
  currentYear : Z
}.

Definition optionToJS (s : option jsstring) : JSValue :=
  match s with
  | Some s => VStr s
  | None => VUndefined
  end.

(** The array [String.prototype.match] returns: never empty, a string at
    index 0. *)
Record MatchArray := mkMatchArray {
  first : jsstring;
  rest : list JSValue
}.

Definition idx (m : MatchArray) (i : nat) : JSValue :=
  match i with
  | O => VStr (first m)
  | S i' => nth i' (rest m) VUndefined
  end.

Definition isGlobal (re : RegExp) : bool := String_includes (flags re) (js "g").

Fixpoint hasOwnProperty (k : string) (props : list (string * JSValue)) : bool :=
  match props with
  | [] => false
  | (k', _) :: rest => String.eqb k k' || hasOwnProperty k rest
  end.

(** [ToString(v)] throws: an object that shadows [toString] with a
    property of its own (which, in this universe, is no function) has no
    primitive value; an array converts its elements other than [null] and
    [undefined]; everything else converts. *)
Fixpoint toStringThrows (v : JSValue) : bool :=
  match v with
  | VObj props => hasOwnProperty "toString" props
  | VArr elems => existsb toStringThrows elems
  | _ => false
  end.

(** [parseInt(v)]: [v] is converted to a string first. *)
Definition parseInt {host : Host} (v : JSValue) : result JSNumber :=
  if toStringThrows v
  then Throw (ErrorObject "TypeError" (js "Cannot convert object to primitive value"))
  else Ok (parseInt_value v).

(** ** ResumeParser ([parsers/ResumeParser.ts]) *)

Module ResumeParser.
Section WithHost.
Context {ops : StringOps} {host : Host}.
Local Open Scope string_scope.
Local Open Scope list_scope.

(** [s.match(re)]: with the [g] flag every matched text, without it the
    first match and its groups; [null] when nothing matches. *)
Definition String_match (s : jsstring) (re : RegExp) : option MatchArray :=
  match matches re s with
  | [] => None
  | m :: more =>
      if isGlobal re
      then Some (mkMatchArray (whole m) (map (fun m' => VStr (whole m')) more))
      else Some (mkMatchArray (whole m) (map optionToJS (groups m)))
  end.

(** [s.matchAll(re)], for a pattern that has the [g] flag. *)
Definition String_matchAll (s : jsstring) (re : RegExp) : list Match := matches re s.

Definition new_RegExp (source flags : jsstring) : result RegExp :=
  match RegExp_syntaxError source flags with
  | Some message => Throw (ErrorObject "SyntaxError" message)
  | None => Ok (mkRegExp source flags)
  end.

(** *** Whitespace *)

Definition SPACE : N := 32%N.
Definition NEWLINE : N := 10%N.

(** The class [\s], which is also what [trim] removes: WhiteSpace and
    LineTerminator. *)
Definition isWhiteSpace (c : N) : bool :=
  ((9 <=? c) && (c <=? 13) || (c =? 32) || (c =? 160) || (c =? 5760)
   || (8192 <=? c) && (c <=? 8202) || (c =? 8232) || (c =? 8233) || (c =? 8239)
   || (c =? 8287) || (c =? 12288) || (c =? 65279))%N.

Definition isNewline (c : N) : bool := (c =? NEWLINE)%N.

(** [s.replace(/C+/g, by_)] for a character class [C]: every maximal run
    of [C] becomes one [by_]. *)
Fixpoint replaceRunsFrom (C : N -> bool) (by_ : N) (inRun : bool) (s : jsstring) : jsstring :=
  match s with
  | [] => []
  | c :: s' =>
      if C c
      then if inRun then replaceRunsFrom C by_ true s'
           else by_ :: replaceRunsFrom C by_ true s'
      else c :: replaceRunsFrom C by_ false s'
  end.

Definition replaceRuns (C : N -> bool) (by_ : N) (s : jsstring) : jsstring :=
  replaceRunsFrom C by_ false s.

Fixpoint trimStart (s : jsstring) : jsstring :=
  match s with
  | [] => []
  | c :: s' => if isWhiteSpace c then trimStart s' else s
  end.

Definition trimEnd (s : jsstring) : jsstring := rev (trimStart (rev s)).

Definition trim (s : jsstring) : jsstring := trimEnd (trimStart s).

Definition normalizeText (text : jsstring) : jsstring :=
  trim (replaceRuns isNewline NEWLINE (replaceRuns isWhiteSpace SPACE text)).

(** [s.split(sep)] for a one-character separator. *)
Fixpoint split (sep : N) (s : jsstring) : list jsstring :=
  match s with
  | [] => [[]]
  | c :: s' =>
      if (c =? sep)%N then [] :: split sep s'
      else match split sep s' with
           | [] => [[c]]
           | piece :: pieces => (c :: piece) :: pieces
           end
  end.

(** *** Sections *)

(** The loop of [extractSection]: [inSection] and [sectionContent] are its
    two variables; it returns [sectionContent] as the loop leaves it. *)
Fixpoint scanLines (keywords : list jsstring) (lines : list jsstring)
         (inSection : bool) (sectionContent : list jsstring) : list jsstring :=
  match lines with
  | [] => sectionContent
  | line :: lines' =>
      let lowerLine := toLowerCase line in
      if existsb (fun keyword => String_includes lowerLine keyword) keywords
      then scanLines keywords lines' true sectionContent            (* continue *)
      else if inSection
              && (String_includes lowerLine (js "experience")
                  || String_includes lowerLine (js "education")
                  || String_includes lowerLine (js "skills")
                  || String_includes lowerLine (js "certifications"))
      then sectionContent                                           (* break *)
      else if inSection
      then scanLines keywords lines' inSection (sectionContent ++ [line])
      else scanLines keywords lines' inSection sectionContent
  end.

Definition extractSection (text : jsstring) (keywords : list jsstring) : option jsstring :=
  let lines := split NEWLINE text in
  let sectionContent := scanLines keywords lines false [] in
  if (0 <? List.length sectionContent)%nat
  then Some (join [NEWLINE] sectionContent)
  else None.

(** [!section] for a [string | null]. *)
Definition noSection (section : option jsstring) : bool :=
  match section with
  | None => true
  | Some s => negb (nonEmpty s)
  end.

(** *** Contact details *)

Definition namePatterns : list RegExp :=
  [mkRegExp (js "^([A-Z][a-z]+(?:\s+[A-Z][a-z]+){1,3})") (js "m");
   mkRegExp (js "Name[:\s]+([A-Z][a-z]+(?:\s+[A-Z][a-z]+){1,3})") (js "i");
   mkRegExp (js "([A-Z][a-z]+(?:\s+[A-Z][a-z]+){1,3})\s+Resume") (js "i")].

Fixpoint extractFullName_from (text : jsstring) (patterns : list RegExp) : JSValue :=
  match patterns with
  | [] => VStr (js "Unknown")
  | pattern :: patterns' =>
      match String_match text pattern with
      | Some m => idx m 1 ||| idx m 0
      | None => extractFullName_from text patterns'
      end
  end.

Definition extractFullName (text : jsstring) : JSValue :=
  extractFullName_from text namePatterns.

Definition emailPattern : RegExp :=
  mkRegExp (js "\b[A-Za-z0-9._%+-]+@[A-Za-z0-9.-]+\.[A-Z|a-z]{2,}\b") (js "").

Definition extractEmail (text : jsstring) : JSValue :=
  match String_match text emailPattern with
  | Some m => idx m 0
  | None => VStr (js "")
  end.

Definition phonePatterns : list RegExp :=
  [mkRegExp (js "(\+?1[-.\s]?)?\(?([0-9]{3})\)?[-.\s]?([0-9]{3})[-.\s]?([0-9]{4})") (js "");
   mkRegExp (js "(\+?[0-9]{1,3}[-.\s]?)?([0-9]{3,4})[-.\s]?([0-9]{3,4})[-.\s]?([0-9]{3,4})")
            (js "")].

(** [s.replace(/[-.\s]/g, '')] *)
Definition stripSeparators (s : jsstring) : jsstring :=
  filter (fun c => negb ((c =? 45) || (c =? 46) || isWhiteSpace c)%N) s.

Fixpoint extractPhone_from (text : jsstring) (patterns : list RegExp) : JSValue :=
  match patterns with
  | [] => VStr (js "")
  | pattern :: patterns' =>
      match String_match text pattern with
      | Some m => VStr (stripSeparators (first m))
      | None => extractPhone_from text patterns'
      end
  end.

Definition extractPhone (text : jsstring) : JSValue :=
  extractPhone_from text phonePatterns.

(** *** Helper functions for extraction *)

Fixpoint findInstitution (text : jsstring) (patterns : list RegExp) : JSValue :=
  match patterns with
  | [] => VNull
  | pattern :: patterns' =>
      match String_match text pattern with
      | Some m => idx m 1 ||| idx m 0
      | None => findInstitution text patterns'
      end
  end.

Definition extractYear (text : jsstring) (pattern : RegExp) : result JSValue :=
  match String_match text pattern with
  | Some m => year <- parseInt (idx m 0) ;; Ok (VNum year)
  | None => Ok VUndefined
  end.

Definition fieldPattern : RegExp := mkRegExp (js "(?:in|of)\s+([A-Z][a-z\s]+)") (js "i").

Definition extractField (degree : jsstring) : JSValue :=
  match String_match degree fieldPattern with
  | Some m => idx m 1
  | None => VUndefined
  end.

Definition findCompany (text : jsstring) (pattern : RegExp) : JSValue :=
  match String_match text pattern with
  | Some m => idx m 1
  | None => VNull
  end.

(** [{start: dates[0], end: dates[1]}] *)
Definition extractDates (text : jsstring) (pattern : RegExp) : JSValue * JSValue :=
  let dates := map (fun m => VStr (whole m)) (String_matchAll text pattern) in
  (nth 0 dates VUndefined, nth 1 dates VUndefined).

Definition calculateDuration (start end_ : JSValue) : result JSNumber :=
  if negb (truthy start) then Ok (Fin 0)
  else
    startYear <- parseInt start ;;
    endYear <- (if truthy end_ then parseInt end_ else Ok (Fin (inject_Z currentYear))) ;;
    Ok (Number_mul (Number_sub endYear startYear) (Fin 12)).    (* Convert to months *)

(** *** The four list extractors of the raw-text path *)

Definition degreePatterns : list RegExp :=
  [mkRegExp (js "(Bachelor|Master|PhD|Associate|High School|Diploma)[\s\w]*?(?:of|in|Science|Arts|Engineering|Technology|Computer|Business)")
            (js "gi");
   mkRegExp (js "([A-Z][a-z]+)\s+(?:Degree|Diploma|Certificate)") (js "gi")].

Definition institutionPatterns : list RegExp :=
  [mkRegExp (js "(?:University|College|Institute|School)\s+of\s+([A-Z][a-z\s]+)") (js "gi");
   mkRegExp (js "([A-Z][a-z\s]+)\s+(?:University|College|Institute)") (js "gi")].

Definition yearPattern : RegExp := mkRegExp (js "(?:20\d{2}|19\d{2})") (js "g").

Definition extractEducation (text : jsstring) : result JSValue :=
  let educationSection := extractSection text [js "education"; js "academic"; js "degree"] in
  match educationSection with
  | None => Ok (VArr [])
  | Some section =>
      if noSection educationSection then Ok (VArr [])
      else
        (* for each pattern, for each of its matches *)
        education <-
          mapM (fun m =>
                  let degree := whole m in
                  let institution := findInstitution section institutionPatterns in
                  year <- extractYear section yearPattern ;;
                  Ok (VObj [("degree", VStr (trim degree));
                            ("institution", institution ||| VStr (js "Unknown Institution"));
                            ("graduationYear", year);
                            ("field", extractField degree)]))
               (flat_map (fun pattern => String_matchAll section pattern) degreePatterns) ;;
        Ok (VArr education)
  end.

Definition jobTitles : list jsstring :=
  [js "Engineer"; js "Developer"; js "Manager"; js "Analyst"; js "Specialist";
   js "Coordinator"; js "Director"; js "Lead"; js "Senior"; js "Junior"; js "Principal";
   js "Architect"; js "Consultant"].

Definition companyPattern : RegExp :=
  mkRegExp (js "(?:at|with|for)\s+([A-Z][a-z\s&]+(?:Inc|LLC|Corp|Company|Ltd))") (js "gi").

Definition datePattern : RegExp := mkRegExp (js "(?:20\d{2}|19\d{2})") (js "g").

Definition extractWorkExperience (text : jsstring) : result JSValue :=
  let experienceSection := extractSection text [js "experience"; js "work"; js "employment"] in
  match experienceSection with
  | None => Ok (VArr [])
  | Some section =>
      if noSection experienceSection then Ok (VArr [])
      else
        titlePattern <- new_RegExp (js "(" ++ join (js "|") jobTitles ++ js ")") (js "gi") ;;
        experience <-
          mapM (fun m =>
                  let title := whole m in
                  let company := findCompany section companyPattern in
                  let dates := extractDates section datePattern in
                  duration <- calculateDuration (fst dates) (snd dates) ;;
                  Ok (VObj [("title", VStr (trim title));
                            ("company", company ||| VStr (js "Unknown Company"));
                            ("startDate", fst dates ||| VStr (js ""));
                            ("endDate", snd dates);
                            ("duration", VNum duration);
                            ("description", VStr (js ""));
                            ("technologies", VArr [])]))
               (String_matchAll section titlePattern) ;;
        Ok (VArr experience)
  end.

Definition technicalSkills : list jsstring :=
  [js "JavaScript"; js "Python"; js "Java"; js "C++"; js "React"; js "Angular"; js "Vue";
   js "Node.js"; js "SQL"; js "MongoDB"; js "AWS"; js "Azure"; js "Docker";
   js "Kubernetes"; js "Git"; js "Linux"; js "HTML"; js "CSS"; js "TypeScript"; js "PHP";
   js "Ruby"; js "Go"; js "Rust"; js "Swift"; js "Kotlin"].

Definition extractSkills (text : jsstring) : result JSValue :=
  let skillsSection :=
    extractSection text [js "skills"; js "technical skills"; js "competencies"] in
  match skillsSection with
  | None => Ok (VArr [])
  | Some section =>
      if noSection skillsSection then Ok (VArr [])
      else
        skillPattern <- new_RegExp (js "(" ++ join (js "|") technicalSkills ++ js ")")
                                   (js "gi") ;;
        Ok (VArr (map (fun m =>
                         VObj [("name", VStr (whole m));
                               ("category", VStr (js "technical"));
                               ("proficiency", VStr (js "intermediate"))])
                      (String_matchAll section skillPattern)))
  end.

Definition certPattern : RegExp :=
  mkRegExp (js "([A-Z][a-z\s]+(?:Certification|Certificate|Certified))") (js "gi").

Definition extractCertifications (text : jsstring) : JSValue :=
  let certSection :=
    extractSection text [js "certifications"; js "certificates"; js "credentials"] in
  match certSection with
  | None => VArr []
  | Some section =>
      if noSection certSection then VArr []
      else
        VArr (map (fun m =>
                     VObj [("name", VStr (whole m));
                           ("issuingOrganization", VStr (js "Unknown"));
                           ("issueDate", VUndefined);
                           ("expiryDate", VUndefined);
                           ("credentialId", VUndefined)])
                  (String_matchAll section certPattern))
  end.

(** *** The two paths and their dispatch *)

Definition parseRawResume (rawText : jsstring) : result JSValue :=
  let normalizedText := normalizeText rawText in
  let fullName := extractFullName normalizedText in
  let email := extractEmail normalizedText in
  let phone := extractPhone normalizedText in
  education <- extractEducation normalizedText ;;
  workExperience <- extractWorkExperience normalizedText ;;
  skills <- extractSkills normalizedText ;;
  let certifications := extractCertifications normalizedText in
  Ok (VObj [("fullName", fullName);
            ("email", email);
            ("phone", phone);
            ("education", education);
            ("workExperience", workExperience);
            ("skills", skills);
            ("certifications", certifications);
            ("rawText", VStr rawText)]).

(** The callbacks of the four [normalize...] functions.  Each reads a
    property of its argument first, which throws on [null] and
    [undefined]; of the later steps only [calculateDuration] can throw. *)
Definition normalizeEducation_entry (edu : JSValue) : result JSValue :=
  if nullish edu then Throw (cannotReadProperties edu "degree")
  else
    Ok (VObj [("degree", prop edu "degree" ||| prop edu "name" ||| VStr (js "Unknown"));
              ("institution", prop edu "institution" ||| prop edu "school"
                              ||| prop edu "university" ||| VStr (js "Unknown"));
              ("graduationYear", prop edu "graduationYear" ||| prop edu "year"
                                 ||| prop edu "graduationDate");
              ("field", prop edu "field" ||| prop edu "major" ||| prop edu "study");
              ("gpa", prop edu "gpa")]).

Definition normalizeEducation (education : JSValue) : result JSValue :=
  Array_map "education" education normalizeEducation_entry.

Definition normalizeWorkExperience_entry (exp : JSValue) : result JSValue :=
  if nullish exp then Throw (cannotReadProperties exp "title")
  else
    (* exp.duration || calculateDuration(exp.startDate, exp.endDate): the one
       property of the literal that can throw; those written before it
       have no effect *)
    duration <- (if truthy (prop exp "duration") then Ok (prop exp "duration")
                 else months <- calculateDuration (prop exp "startDate")
                                                  (prop exp "endDate") ;;
                      Ok (VNum months)) ;;
    Ok (VObj [("title", prop exp "title" ||| prop exp "jobTitle" ||| prop exp "position"
                        ||| VStr (js "Unknown"));
              ("company", prop exp "company" ||| prop exp "employer"
                          ||| prop exp "organization" ||| VStr (js "Unknown"));
              ("startDate", prop exp "startDate" ||| prop exp "start" ||| prop exp "from"
                            ||| VStr (js ""));
              ("endDate", prop exp "endDate" ||| prop exp "end" ||| prop exp "to");
              ("duration", duration);
              ("description", prop exp "description" ||| prop exp "summary"
                              ||| VStr (js ""));
              ("technologies", prop exp "technologies" ||| prop exp "tech"
                               ||| prop exp "skills" ||| VArr [])]).

Definition normalizeWorkExperience (experience : JSValue) : result JSValue :=
  Array_map "experience" experience normalizeWorkExperience_entry.

Definition normalizeSkills_entry (skill : JSValue) : result JSValue :=
  match typeof skill with
  | T_string =>
      Ok (VObj [("name", skill);
                ("category", VStr (js "technical"));
                ("proficiency", VStr (js "intermediate"))])
  | _ =>
      if nullish skill then Throw (cannotReadProperties skill "name")
      else
        Ok (VObj [("name", prop skill "name" ||| prop skill "skill" ||| VStr (js "Unknown"));
                  ("category", prop skill "category" ||| VStr (js "technical"));
                  ("proficiency", prop skill "proficiency" ||| VStr (js "intermediate"));
                  ("yearsOfExperience", prop skill "yearsOfExperience"
                                        ||| prop skill "years")])
  end.

Definition normalizeSkills (skills : JSValue) : result JSValue :=
  Array_map "skills" skills normalizeSkills_entry.

Definition normalizeCertifications_entry (cert : JSValue) : result JSValue :=
  if nullish cert then Throw (cannotReadProperties cert "name")
  else
    Ok (VObj [("name", prop cert "name" ||| prop cert "certification"
                       ||| VStr (js "Unknown"));
              ("issuingOrganization", prop cert "issuingOrganization" ||| prop cert "issuer"
                                      ||| prop cert "organization" ||| VStr (js "Unknown"));
              ("issueDate", prop cert "issueDate" ||| prop cert "issued" ||| prop cert "date");
              ("expiryDate", prop cert "expiryDate" ||| prop cert "expires"
                             ||| prop cert "expiration");
              ("credentialId", prop cert "credentialId" ||| prop cert "id"
                               ||| prop cert "credential")]).

Definition normalizeCertifications (certifications : JSValue) : result JSValue :=
  Array_map "certifications" certifications normalizeCertifications_entry.

Definition parseStructuredResume (data : JSValue) : result JSValue :=
  let fullName := prop data "name" ||| prop data "fullName" ||| VStr (js "Unknown") in
  let email := prop data "email" ||| VStr (js "") in
  let phone := prop data "phone" ||| prop data "phoneNumber" ||| VStr (js "") in
  education <- normalizeEducation (prop data "education" ||| VArr []) ;;
  workExperience <- normalizeWorkExperience
                      (prop data "experience" ||| prop data "workExperience" ||| VArr []) ;;
  skills <- normalizeSkills (prop data "skills" ||| VArr []) ;;
  certifications <- normalizeCertifications (prop data "certifications" ||| VArr []) ;;
  Ok (VObj [("fullName", fullName);
            ("email", email);
            ("phone", phone);
            ("education", education);
            ("workExperience", workExperience);
            ("skills", skills);
            ("certifications", certifications)]).

Definition INVALID_INPUT_FORMAT : thrown :=
  ErrorObject "Error" (js "Invalid input format. Expected string or object.").

Definition parseResume (input : JSValue) : result JSValue :=
  match typeof input with
  | T_string =>
      match input with
      | VStr s => parseRawResume s
      | _ => Throw INVALID_INPUT_FORMAT
      end
  | T_object =>
      if negb (isNull input) then parseStructuredResume input
      else Throw INVALID_INPUT_FORMAT
  | _ => Throw INVALID_INPUT_FORMAT
  end.

End WithHost.
End ResumeParser.

(** ** R1Agent ([R1Agent.ts]) *)

Module ProcessingError.
Inductive ErrorType := parsing | extraction | evaluation.
Record t := mk {
  type : ErrorType;
  message : jsstring;
  timestamp : Z                         (* new Date() *)
}.
End ProcessingError.

Module ResumeInput.
Inductive InputType := raw | structured.
Record t := mk {
  type : InputType;
  content : JSValue
}.
End ResumeInput.

Module R1Agent.

(** The agent object: its three collaborators, each a call that returns or
    throws, and its error log.  (Output to the console is not modelled.) *)
Record t := mk {
  parser : JSValue -> result ParsedResume;
  featureExtractor_extractFeatures : ParsedResume -> result ExtractedFeatures.t;
  evaluator_evaluateAgainstCriteria : ParsedResume -> JobRequirements -> result ScreeningResult;
  errors : list ProcessingError.t
}.

Definition set_errors (this : t) (errors' : list ProcessingError.t) : t :=
  {| parser := parser this;
     featureExtractor_extractFeatures := featureExtractor_extractFeatures this;
     evaluator_evaluateAgainstCriteria := evaluator_evaluateAgainstCriteria this;
     errors := errors' |}.

(** A method of the agent: it runs on [this], returns or throws, and
    leaves [this] updated either way. *)
Definition method (A : Type) : Type := t -> result A * t.

Definition ret {A : Type} (a : A) : method A := fun this => (Ok a, this).

Definition throw {A : Type} (e : thrown) : method A := fun this => (Throw e, this).

Definition andThen {A B : Type} (c : method A) (k : A -> method B) : method B :=
  fun this =>
    match c this with
    | (Ok a, this') => k a this'
    | (Throw e, this') => (Throw e, this')
    end.

Definition tryCatch {A : Type} (body : method A) (handler : thrown -> method A) : method A :=
  fun this =>
    match body this with
    | (Ok a, this') => (Ok a, this')
    | (Throw e, this') => handler e this'
    end.

Notation "x <~ c ;; k" := (andThen c (fun x => k))
  (at level 61, c at next level, right associativity).

(** [error instanceof Error ? error.message : fallback] *)
Definition messageOr (error : thrown) (fallback : jsstring) : jsstring :=
  match error with
  | ErrorObject _ message => message
  | NonError => fallback
  end.

Section WithClock.
(** The instant [new Date()] reads. *)
Variable now : Z.

Definition logError (type : ProcessingError.ErrorType) (message : jsstring) : method unit :=
  fun this =>
    let error := ProcessingError.mk type message now in
    (Ok tt, set_errors this (errors this ++ [error])).

Definition parseResume (resumeInput : ResumeInput.t) : method ParsedResume :=
  tryCatch
    (fun this =>
       match ResumeInput.type resumeInput with
       | ResumeInput.raw => (parser this (ResumeInput.content resumeInput), this)
       | ResumeInput.structured => (parser this (ResumeInput.content resumeInput), this)
       end)
    (fun error =>
       let errorMessage :=
         js "Failed to parse resume: " ++ messageOr error (js "Unknown parsing error") in
       _ <~ logError ProcessingError.parsing errorMessage ;;
       throw (ErrorObject "Error" errorMessage)).

Definition extractFeatures (parsedResume : ParsedResume) : method ExtractedFeatures.t :=
  tryCatch
    (fun this => (featureExtractor_extractFeatures this parsedResume, this))
    (fun error =>
       let errorMessage :=
         js "Failed to extract features: "
         ++ messageOr error (js "Unknown extraction error") in
       _ <~ logError ProcessingError.extraction errorMessage ;;
       throw (ErrorObject "Error" errorMessage)).

Definition evaluateAgainstCriteria (parsedResume : ParsedResume)
           (jobRequirements : JobRequirements) : method ScreeningResult :=
  tryCatch
    (fun this => (evaluator_evaluateAgainstCriteria this parsedResume jobRequirements, this))
    (fun error =>
       let errorMessage :=
         js "Failed to evaluate candidate: "
         ++ messageOr error (js "Unknown evaluation error") in
       _ <~ logError ProcessingError.evaluation errorMessage ;;
       throw (ErrorObject "Error" errorMessage)).

(** Builds a log entry and prints it; the agent is left as it was. *)
Definition logScreeningActivity (parsedResume : ParsedResume)
           (result : ScreeningResult) : method unit :=
  ret tt.

Definition createErrorResult (errorMessage : jsstring) : ScreeningResult :=
  {| candidateProfile :=
       {| fullName := js "Unknown";
          email := js "";
          phone := js "";
          education := [];
          workExperience := [];
          skills := [];
          certifications := [];
          rawText := None |};
     screeningResult := fail_;
     matchReasons := [js "Processing error occurred"];
     confidenceScore := 0;
     missingRequirements := Some [];
     errorMessages := Some [errorMessage] |}.

(** The promise [runR1] returns settles with what this method returns
    ([Ok]) or throws ([Throw]). *)
Definition runR1 (resumeInput : ResumeInput.t)
           (jobRequirements : JobRequirements) : method ScreeningResult :=
  tryCatch
    (fun this =>
       (* Reset errors for new screening session *)
       let this := set_errors this [] in
       (parsedResume <~ parseResume resumeInput ;;
        extractedFeatures <~ extractFeatures parsedResume ;;
        screeningResult <~ evaluateAgainstCriteria parsedResume jobRequirements ;;
        _ <~ logScreeningActivity parsedResume screeningResult ;;
        ret screeningResult) this)
    (fun error =>
       let errorMessage := messageOr error (js "Unknown error occurred") in
       _ <~ logError ProcessingError.evaluation (js "R1 screening failed: " ++ errorMessage) ;;
       ret (createErrorResult errorMessage)).

Definition getErrors : method (list ProcessingError.t) :=
  fun this => (Ok (errors this), this).

Definition clearErrors : method unit :=
  fun this => (Ok tt, set_errors this []).

(** What [generateDetailedReport] returns.  [processingErrors] is the log
    as it stands when the report is built. *)
Record Report (DetailedFeatures : Type) := mkReport {
  report_screeningResult : ScreeningResult;
  detailedReport : ResumeEvaluator.DetailedReport.t;
  extractedFeatures : DetailedFeatures;
  processingErrors : list ProcessingError.t
}.
Arguments mkReport {DetailedFeatures}.
Arguments report_screeningResult {DetailedFeatures}.
Arguments detailedReport {DetailedFeatures}.
Arguments extractedFeatures {DetailedFeatures}.
Arguments processingErrors {DetailedFeatures}.

(** The two collaborator calls that only this method makes,
    [this.evaluator.generateDetailedReport] and
    [this.featureExtractor.extractDetailedFeatures], are its first two
    arguments. *)
Definition generateDetailedReport {DetailedFeatures : Type}
           (evaluator_generateDetailedReport :
              ParsedResume -> JobRequirements -> result ResumeEvaluator.DetailedReport.t)
           (featureExtractor_extractDetailedFeatures :
              ParsedResume -> result DetailedFeatures)
           (resumeInput : ResumeInput.t) (jobRequirements : JobRequirements)
  : method (Report DetailedFeatures) :=
  tryCatch
    (parsedResume <~ parseResume resumeInput ;;
     extractedFeatures <~ extractFeatures parsedResume ;;
     screeningResult <~ evaluateAgainstCriteria parsedResume jobRequirements ;;
     detailedReport <~ (fun this =>
                          (evaluator_generateDetailedReport parsedResume jobRequirements,
                           this)) ;;
     detailedFeatures <~ (fun this =>
                            (featureExtractor_extractDetailedFeatures parsedResume, this)) ;;
     (fun this =>
        (Ok {| report_screeningResult := screeningResult;
               detailedReport := detailedReport;
               extractedFeatures := detailedFeatures;
               processingErrors := errors this |}, this)))
    (fun error =>
       let errorMessage := messageOr error (js "Unknown error") in
       _ <~ logError ProcessingError.evaluation
              (js "Detailed report generation failed: " ++ errorMessage) ;;
       throw error).

(** The job requirements are typed here, so [requiredSkills],
    [requiredEducation] and [minimumDegree] are present; what is left of
    [!x] on them is the test of the degree's name for emptiness. *)
Definition validateJobRequirements (requirements : JobRequirements) : bool :=
  let errors : list jsstring := [] in
  let errors :=
    if (minimumYearsOfExperience requirements =? 0)%Z
       || (minimumYearsOfExperience requirements <? 0)%Z
    then errors ++ [js "Invalid minimum years of experience"] else errors in
  let errors :=
    if (List.length (requiredSkills requirements) =? 0)%nat
    then errors ++ [js "No required skills specified"] else errors in
  let errors :=
    if negb (nonEmpty (DegreeLevel_toString
                         (minimumDegree (requiredEducation requirements))))
    then errors ++ [js "No education requirements specified"] else errors in
  if (0 <? List.length errors)%nat then false else true.

Record AgentStatus := mkAgentStatus {
  agent : jsstring;
  version : jsstring;
  status : jsstring;
  errorCount : nat;
  lastError : option ProcessingError.t;
  status_timestamp : Z
}.

Definition getAgentStatus : method AgentStatus :=
  fun this =>
    (Ok {| agent := js "R1 - Resume Screening Agent";
           version := js "1.0.0";
           status := js "active";
           errorCount := List.length (errors this);
           lastError := if (0 <? List.length (errors this))%nat
                        then nth_error (errors this) (List.length (errors this) - 1)
                        else None;
           status_timestamp := now |}, this).


End WithClock.

(** [new R1Agent()] *)
Definition new (ops : StringOps) (parser : JSValue -> result ParsedResume) : t :=
  {| parser := parser;
     featureExtractor_extractFeatures :=
       fun parsedResume => Ok (FeatureExtractor.extractFeatures parsedResume);
     evaluator_evaluateAgainstCriteria :=
       fun parsedResume jobRequirements =>
         Ok (ResumeEvaluator.evaluateAgainstCriteria parsedResume jobRequirements);
     errors := [] |}.

End R1Agent.

(** ** FeatureExtractor, the detailed features
    ([extractors/FeatureExtractor.js], [extractDetailedFeatures]) *)

Module DetailedFeatures.

Record ExperienceBreakdown := mkExperienceBreakdown {
  totalMonths : Z;
  averageDuration : Q;
  jobCount : nat;
  hasRecentExperience_ : bool;
  careerProgression : jsstring
}.

Record EducationBreakdown := mkEducationBreakdown {
  degreeCount : nat;
  highestDegree : DegreeLevel;
  hasRelevantField_ : bool;
  graduationYears : list Z
}.

Record t := mk {
  hasValidEmail : bool;
  hasValidPhone : bool;
  experienceBreakdown : ExperienceBreakdown;
  technicalSkills : list jsstring;
  softSkills : list jsstring;
  educationBreakdown : EducationBreakdown;
  certificationCount : nat;
  completenessScore : Z
}.

Section WithHost.
Context {ops : StringOps} {host : Host}.
Local Open Scope Z_scope.

Definition emailPattern : RegExp := mkRegExp (js "^[^\s@]+@[^\s@]+\.[^\s@]+$") (js "").









Definition relevantFields : list jsstring :=
  [js "computer science"; js "software engineering"; js "information technology";
   js "data science"; js "engineering"; js "mathematics"; js "physics"].





End WithHost.
End DetailedFeatures.


(** ** ExcelProcessor ([processors/ExcelProcessor.ts]) *)

Module ExcelJobDescription.
Record t := mk {
  id : jsstring;
  title : jsstring;
  company : jsstring;
  department : option jsstring;
  location : option jsstring;
  description : jsstring;
  requirements : jsstring;
  minimumExperience : option Z;
  requiredSkills : option (list jsstring);
  preferredSkills : option (list jsstring);
  education : option jsstring;
  salary : option jsstring;
  employmentType : option jsstring
}.
End ExcelJobDescription.

Module ExcelProcessingResult.
Record t := mk {
  jobDescriptions : list ExcelJobDescription.t;
  errors : list jsstring;
  totalRows : nat;
  processedRows : nat
}.
End ExcelProcessingResult.

(** What [XLSX.read] and [XLSX.utils.sheet_to_json(worksheet, {header: 1})]
    make of a file: they throw, or the first sheet is missing, or there is
    an array of rows, of which the code takes [jsonData[0] as string[]]
    ([None] when the array is empty) and [jsonData.slice(1)].  The
    annotation [as string[]] checks nothing: a header cell holds what the
    sheet holds, a string, a number, a boolean or a date, and an empty cell
    is left out of the array ([None], a hole with an index of its own). *)
Inductive Workbook :=
| ReadThrows (error : thrown)
| NoWorksheet
| Worksheet (headers : option (list (option JSValue))) (dataRows : list (list JSValue)).

(** [String(v)] of a value other than a string, where it does not throw. *)
Class Conversions := MkConversions {
  String_value : JSValue -> jsstring
}.

Module ExcelProcessor.
Section WithStringOps.
Context {ops : StringOps} {conversions : Conversions}.
Local Open Scope string_scope.
Local Open Scope list_scope.

(** [String(v)] *)
Definition String_ (v : JSValue) : result jsstring :=
  if toStringThrows v
  then Throw (ErrorObject "TypeError" (js "Cannot convert object to primitive value"))
  else Ok (match v with
           | VStr s => s
           | _ => String_value v
           end).

(** [Record<string, number>], the latest assignment first. *)
Definition ColumnMap : Type := list (string * nat).

Fixpoint column (columnMap : ColumnMap) (field : string) : option nat :=
  match columnMap with
  | [] => None
  | (field', index) :: columnMap' =>
      if String.eqb field field' then Some index else column columnMap' field
  end.

(** The chain of tests of [createColumnMap] on one header. *)
Definition fieldOfHeader (header : jsstring) : option string :=
  let normalizedHeader := ResumeParser.trim (toLowerCase header) in
  let includes := fun word => String_includes normalizedHeader (js word) in
  if includes "title" || includes "position" || includes "role" then Some "title"
  else if includes "company" || includes "organization" then Some "company"
  else if includes "department" || includes "team" then Some "department"
  else if includes "location" || includes "city" || includes "address" then Some "location"
  else if includes "description" || includes "summary" then Some "description"
  else if includes "requirement" || includes "qualification" then Some "requirements"
  else if includes "experience" || includes "years" then Some "minimumExperience"
  else if includes "skill" && includes "required" then Some "requiredSkills"
  else if includes "skill" && includes "preferred" then Some "preferredSkills"
  else if includes "education" || includes "degree" then Some "education"
  else if includes "salary" || includes "compensation" then Some "salary"
  else if includes "type" || includes "employment" then Some "employmentType"
  else None.

(** [header.toLowerCase().trim()] and the tests, on a header cell: a cell
    that is no string has no method [toLowerCase]. *)
Definition headerField (header : JSValue) : result (option string) :=
  match header with
  | VStr header => Ok (fieldOfHeader header)
  | VUndefined | VNull => Throw (cannotReadProperties header "toLowerCase")
  | _ => Throw (notAFunction "header.toLowerCase")
  end.

(** [headers.forEach((header, index) => ...)] from [index] on; [forEach]
    passes over an empty cell. *)
Fixpoint createColumnMap_from (headers : list (option JSValue)) (index : nat)
         (columnMap : ColumnMap) : result ColumnMap :=
  match headers with
  | [] => Ok columnMap
  | None :: headers' => createColumnMap_from headers' (S index) columnMap
  | Some header :: headers' =>
      field <- headerField header ;;
      createColumnMap_from headers' (S index)
        (match field with
         | Some field => (field, index) :: columnMap
         | None => columnMap
         end)
  end.

Definition createColumnMap (headers : option (list (option JSValue))) : result ColumnMap :=
  match headers with
  | None => Throw (cannotReadProperties VUndefined "forEach")
  | Some headers => createColumnMap_from headers 0 []
  end.

Definition getCellValue (row : list JSValue) (index : option nat) : result jsstring :=
  match index with
  | None => Ok (js "")
  | Some index =>
      if (List.length row <=? index)%nat then Ok (js "")
      else
        let value := nth index row VUndefined in
        if truthy value
        then text <- String_ value ;; Ok (ResumeParser.trim text)
        else Ok (js "")
  end.

Definition isDigit (c : N) : bool := ((48 <=? c) && (c <=? 57))%N.

Fixpoint takeDigits (s : jsstring) : jsstring :=
  match s with
  | [] => []
  | c :: s' => if isDigit c then c :: takeDigits s' else []
  end.

(** [value.match(/(\d+)/)]: the first run of digits. *)
Fixpoint firstDigits (s : jsstring) : option jsstring :=
  match s with
  | [] => None
  | c :: s' => if isDigit c then Some (takeDigits s) else firstDigits s'
  end.

(** [parseInt(digits, 10)] of a run of digits (exact below 2^53). *)
Definition parseInt10 (digits : jsstring) : Z :=
  fold_left (fun value c => (10 * value + (Z.of_N c - 48))%Z) digits 0%Z.

Definition parseExperience (row : list JSValue) (index : option nat) : result (option Z) :=
  match index with
  | None => Ok None
  | Some _ =>
      value <- getCellValue row index ;;
      if negb (nonEmpty value) then Ok None
      else match firstDigits value with
           | Some digits => Ok (Some (parseInt10 digits))
           | None => Ok None
           end
  end.

(** [s.split(/[,;]/)] *)
Definition isSeparator (c : N) : bool := ((c =? 44) || (c =? 59))%N.

Fixpoint splitOn (isSep : N -> bool) (s : jsstring) : list jsstring :=
  match s with
  | [] => [[]]
  | c :: s' =>
      if isSep c then [] :: splitOn isSep s'
      else match splitOn isSep s' with
           | [] => [[c]]
           | piece :: pieces => (c :: piece) :: pieces
           end
  end.

Definition parseSkills (row : list JSValue) (index : option nat)
  : result (option (list jsstring)) :=
  match index with
  | None => Ok None
  | Some _ =>
      value <- getCellValue row index ;;
      if negb (nonEmpty value) then Ok None
      else Ok (Some (filter (fun skill => (0 <? List.length skill)%nat)
                            (map (fun skill => ResumeParser.trim skill)
                                 (splitOn isSeparator value))))
  end.

(** [s.replace(/[^a-zA-Z0-9]/g, '')] *)
Definition isAlphaNumeric (c : N) : bool :=
  ((97 <=? c) && (c <=? 122) || (65 <=? c) && (c <=? 90) || (48 <=? c) && (c <=? 57))%N.

Definition sanitize (s : jsstring) : jsstring := toLowerCase (filter isAlphaNumeric s).

Definition generateJobId (title company : jsstring) (rowNumber : nat) : jsstring :=
  let sanitizedTitle := sanitize title in
  let sanitizedCompany := sanitize company in
  sanitizedCompany ++ js "-" ++ sanitizedTitle ++ js "-"
  ++ Number_toString (Z.of_nat rowNumber).


(** [!columnMap[field]]: no column, or column 0. *)
Definition noColumn (index : option nat) : bool :=
  match index with
  | None => true
  | Some O => true
  | Some (S _) => false
  end.

Definition ROW (rowNumber : nat) : jsstring :=
  js "Row " ++ Number_toString (Z.of_nat rowNumber) ++ js ": ".

(** A method that pushes on [this.errors]: from the array before to what
    it returns or throws and the array after. *)
Definition parseJobDescriptionRow (row : list JSValue) (columnMap : ColumnMap)
           (rowNumber : nat) (errors : list jsstring)
  : result (option ExcelJobDescription.t) * list jsstring :=
  (* Validate required fields *)
  if noColumn (column columnMap "title") || noColumn (column columnMap "company")
     || noColumn (column columnMap "description")
  then (Ok None,
        errors ++ [ROW rowNumber
                   ++ js "Missing required fields (title, company, or description)"])
  else
    match (title <- getCellValue row (column columnMap "title") ;;
           company <- getCellValue row (column columnMap "company") ;;
           description <- getCellValue row (column columnMap "description") ;;
           Ok (title, company, description)) with
    | Throw error => (Throw error, errors)
    | Ok (title, company, description) =>
        if negb (nonEmpty title) || negb (nonEmpty company) || negb (nonEmpty description)
        then (Ok None, errors ++ [ROW rowNumber ++ js "Missing required field values"])
        else
          (requirements <- getCellValue row (column columnMap "requirements") ;;
           department <- getCellValue row (column columnMap "department") ;;
           location <- getCellValue row (column columnMap "location") ;;
           education <- getCellValue row (column columnMap "education") ;;
           salary <- getCellValue row (column columnMap "salary") ;;
           employmentType <- getCellValue row (column columnMap "employmentType") ;;
           minimumExperience <- parseExperience row (column columnMap "minimumExperience") ;;
           requiredSkills <- parseSkills row (column columnMap "requiredSkills") ;;
           preferredSkills <- parseSkills row (column columnMap "preferredSkills") ;;
           Ok (Some {| ExcelJobDescription.id := generateJobId title company rowNumber;
                       ExcelJobDescription.title := ResumeParser.trim title;
                       ExcelJobDescription.company := ResumeParser.trim company;
                       ExcelJobDescription.description := ResumeParser.trim description;
                       ExcelJobDescription.requirements :=
                         if nonEmpty requirements then requirements else js "";
                       ExcelJobDescription.department := Some department;
                       ExcelJobDescription.location := Some location;
                       ExcelJobDescription.education := Some education;
                       ExcelJobDescription.salary := Some salary;
                       ExcelJobDescription.employmentType := Some employmentType;
                       ExcelJobDescription.minimumExperience := minimumExperience;
                       ExcelJobDescription.requiredSkills := requiredSkills;
                       ExcelJobDescription.preferredSkills := preferredSkills |}),
           errors)
    end.

(** The loop of [parseJobDescriptions] from row [i] on; [jobDescriptions]
    and [errors] are the two arrays it pushes on. *)
Fixpoint parseRows (columnMap : ColumnMap) (dataRows : list (list JSValue)) (i : nat)
         (jobDescriptions : list ExcelJobDescription.t) (errors : list jsstring)
  : list ExcelJobDescription.t * list jsstring :=
  match dataRows with
  | [] => (jobDescriptions, errors)
  | row :: dataRows' =>
      let rowNumber := (i + 2)%nat in    (* +2 because we start from row 2 *)
      match parseJobDescriptionRow row columnMap rowNumber errors with
      | (Ok (Some jobDescription), errors) =>
          parseRows columnMap dataRows' (S i) (jobDescriptions ++ [jobDescription]) errors
      | (Ok None, errors) => parseRows columnMap dataRows' (S i) jobDescriptions errors
      | (Throw error, errors) =>
          parseRows columnMap dataRows' (S i) jobDescriptions
                    (errors ++ [ROW rowNumber
                                ++ R1Agent.messageOr error (js "Failed to parse row")])
      end
  end.

Definition parseJobDescriptions (headers : option (list (option JSValue)))
           (dataRows : list (list JSValue)) (errors : list jsstring)
  : result (list ExcelJobDescription.t) * list jsstring :=
  match createColumnMap headers with
  | Throw error => (Throw error, errors)
  | Ok columnMap =>
      let '(jobDescriptions, errors) := parseRows columnMap dataRows 0 [] errors in
      (Ok jobDescriptions, errors)
  end.

(** Returns the result; [this.errors] is then the [errors] of the result. *)
Definition processExcelFile (workbook : Workbook) : ExcelProcessingResult.t :=
  let errors : list jsstring := [] in
  let failed error errors :=
    {| ExcelProcessingResult.jobDescriptions := [];
       ExcelProcessingResult.errors :=
         errors ++ [js "Failed to process Excel file: "
                    ++ R1Agent.messageOr error (js "Unknown error")];
       ExcelProcessingResult.totalRows := 0;
       ExcelProcessingResult.processedRows := 0 |} in
  match workbook with
  | ReadThrows error => failed error errors
  | NoWorksheet =>
      failed (ErrorObject "Error" (js "No worksheet found in Excel file")) errors
  | Worksheet headers dataRows =>
      match parseJobDescriptions headers dataRows errors with
      | (Throw error, errors) => failed error errors
      | (Ok jobDescriptions, errors) =>
          {| ExcelProcessingResult.jobDescriptions := jobDescriptions;
             ExcelProcessingResult.errors := errors;
             ExcelProcessingResult.totalRows := List.length dataRows;
             ExcelProcessingResult.processedRows := List.length jobDescriptions |}
      end
  end.

Record Validation := mkValidation {
  isValid : bool;
  validation_errors : list jsstring
}.

Definition requiredColumns : list string := ["title"; "company"; "description"].

Definition validateExcelStructure (workbook : Workbook) : Validation :=
  let failed error :=
    {| isValid := false;
       validation_errors :=
         [js "Failed to validate Excel file: "
          ++ R1Agent.messageOr error (js "Unknown error")] |} in
  match workbook with
  | ReadThrows error => failed error
  | NoWorksheet =>
      {| isValid := false;
         validation_errors := [js "No worksheet found in Excel file"] |}
  | Worksheet headers dataRows =>
      match headers with
      | None =>
          {| isValid := false; validation_errors := [js "No headers found in Excel file"] |}
      | Some headerList =>
          if (List.length headerList =? 0)%nat
          then {| isValid := false;
                  validation_errors := [js "No headers found in Excel file"] |}
          else
            match createColumnMap headers with
            | Throw error => failed error
            | Ok columnMap =>
                let missingColumns :=
                  filter (fun col => match column columnMap col with
                                     | None => true
                                     | Some _ => false
                                     end) requiredColumns in
                if (0 <? List.length missingColumns)%nat
                then {| isValid := false;
                        validation_errors :=
                          [js "Missing required columns: "
                           ++ join (js ", ") (map js missingColumns)] |}
                else {| isValid := true; validation_errors := [] |}
            end
      end
  end.

End WithStringOps.
End ExcelProcessor.


(** ** The typed reading of a profile object

    The parser builds untyped objects; the extractor and the evaluator are
    modelled on the records of [types/index.ts].  [ParsedResume_of] reads
    an object as the record its TypeScript annotation says it is, and is
    [None] for an object that does not have that shape. *)

Module Typed.

Definition asString (v : JSValue) : option jsstring :=
  match v with VStr s => Some s | _ => None end.

Definition optional {A : Type} (read : JSValue -> option A) (v : JSValue)
  : option (option A) :=
  match v with
  | VUndefined => Some None
  | _ => option_map Some (read v)
  end.

Definition asNumber (v : JSValue) : option Q :=
  match v with VNum (Fin q) => Some q | _ => None end.

Definition asInteger (v : JSValue) : option Z :=
  match v with
  | VNum (Fin q) => if (Qden q =? 1)%positive then Some (Qnum q) else None
  | _ => None
  end.

Fixpoint traverse {A B : Type} (read : A -> option B) (l : list A) : option (list B) :=
  match l with
  | [] => Some []
  | x :: rest =>
      match read x, traverse read rest with
      | Some y, Some ys => Some (y :: ys)
      | _, _ => None
      end
  end.

Definition asArray {A : Type} (read : JSValue -> option A) (v : JSValue)
  : option (list A) :=
  match v with VArr elems => traverse read elems | _ => None end.

Definition asCategory (v : JSValue) : option SkillCategory :=
  match v with
  | VStr s =>
      if jsstring_eqb s (js "technical") then Some technical
      else if jsstring_eqb s (js "soft") then Some soft
      else if jsstring_eqb s (js "language") then Some language
      else if jsstring_eqb s (js "tool") then Some tool
      else None
  | _ => None
  end.

Definition asProficiency (v : JSValue) : option Proficiency :=
  match v with
  | VStr s =>
      if jsstring_eqb s (js "beginner") then Some beginner
      else if jsstring_eqb s (js "intermediate") then Some intermediate
      else if jsstring_eqb s (js "advanced") then Some advanced
      else if jsstring_eqb s (js "expert") then Some expert
      else None
  | _ => None
  end.

Definition Education_of (v : JSValue) : option Education.t :=
  match asString (prop v "degree"), asString (prop v "institution"),
        optional asInteger (prop v "graduationYear"), optional asString (prop v "field"),
        optional asNumber (prop v "gpa") with
  | Some degree, Some institution, Some graduationYear, Some field, Some gpa =>
      Some (Education.mk degree institution graduationYear field gpa)
  | _, _, _, _, _ => None
  end.

Definition WorkExperience_of (v : JSValue) : option WorkExperience.t :=
  match asString (prop v "title"), asString (prop v "company"),
        asString (prop v "startDate"), optional asString (prop v "endDate"),
        asInteger (prop v "duration"), optional asString (prop v "description"),
        optional (asArray asString) (prop v "technologies") with
  | Some title, Some company, Some startDate, Some endDate, Some duration,
    Some description, Some technologies =>
      Some (WorkExperience.mk title company startDate endDate duration description
                              technologies)
  | _, _, _, _, _, _, _ => None
  end.

Definition Skill_of (v : JSValue) : option Skill.t :=
  match asString (prop v "name"), asCategory (prop v "category"),
        optional asProficiency (prop v "proficiency"),
        optional asInteger (prop v "yearsOfExperience") with
  | Some name, Some category, Some proficiency, Some yearsOfExperience =>
      Some (Skill.mk name category proficiency yearsOfExperience)
  | _, _, _, _ => None
  end.

Definition Certification_of (v : JSValue) : option Certification.t :=
  match asString (prop v "name"), asString (prop v "issuingOrganization"),
        optional asString (prop v "issueDate"), optional asString (prop v "expiryDate"),
        optional asString (prop v "credentialId") with
  | Some name, Some issuingOrganization, Some issueDate, Some expiryDate,
    Some credentialId =>
      Some (Certification.mk name issuingOrganization issueDate expiryDate credentialId)
  | _, _, _, _, _ => None
  end.

Definition ParsedResume_of (v : JSValue) : option ParsedResume :=
  match asString (prop v "fullName"), asString (prop v "email"), asString (prop v "phone"),
        asArray Education_of (prop v "education"),
        asArray WorkExperience_of (prop v "workExperience"),
        asArray Skill_of (prop v "skills"),
        asArray Certification_of (prop v "certifications"),
        optional asString (prop v "rawText") with
  | Some fullName, Some email, Some phone, Some education, Some workExperience,
    Some skills, Some certifications, Some rawText =>
      Some (mkParsedResume fullName email phone education workExperience skills
                           certifications rawText)
  | _, _, _, _, _, _, _, _ => None
  end.

End Typed.


(** ** R1AgentEnhanced ([R1AgentEnhanced.ts]) *)

Module R1AgentEnhanced.

Module Screened.
Record t := mk {
  jobDescription : ExcelJobDescription.t;
  result : ScreeningResult
}.
End Screened.

Module BestMatch.
Record t := mk {
  job : ExcelJobDescription.t;
  score : Q;
  reasons : list jsstring
}.
End BestMatch.

Module Summary.
Record t := mk {
  totalJobs : nat;
  passedJobs : nat;
  failedJobs : nat;
  bestMatches : list BestMatch.t
}.
End Summary.

Module Screening.
Record t := mk {
  candidateProfile : ParsedResume;
  screeningResults : list Screened.t;
  summary : Summary.t
}.
End Screening.

(** [Map<string, ScreeningResult>], in insertion order. *)
Definition History : Type := list (jsstring * ScreeningResult).

Fixpoint Map_set (key : jsstring) (value : ScreeningResult) (map : History) : History :=
  match map with
  | [] => [(key, value)]
  | (k, v) :: map' =>
      if jsstring_eqb k key then (k, value) :: map' else (k, v) :: Map_set key value map'
  end.

Fixpoint Map_get (key : jsstring) (map : History) : option ScreeningResult :=
  match map with
  | [] => None
  | (k, v) :: map' => if jsstring_eqb k key then Some v else Map_get key map'
  end.

(** The object a [ResumeInput] is: [{type, content}]. *)
Definition ResumeInput_object (resumeInput : ResumeInput.t) : JSValue :=
  VObj [("type"%string,
         VStr (match ResumeInput.type resumeInput with
               | ResumeInput.raw => js "raw"
               | ResumeInput.structured => js "structured"
               end));
        ("content"%string, ResumeInput.content resumeInput)].

Definition isPass (result : ScreeningResult) : bool :=
  match screeningResult result with pass_ => true | fail_ => false end.

Definition isFail (result : ScreeningResult) : bool :=
  match screeningResult result with pass_ => false | fail_ => true end.

(** [.sort((a, b) => b.result.confidenceScore - a.result.confidenceScore)]:
    by falling confidence, equal ones in their order (the sort is
    stable). *)
Fixpoint insertByConfidence (r : Screened.t) (sorted : list Screened.t) : list Screened.t :=
  match sorted with
  | [] => [r]
  | r' :: sorted' =>
      if Qle_bool (confidenceScore (Screened.result r')) (confidenceScore (Screened.result r))
      then r :: sorted
      else r' :: insertByConfidence r sorted'
  end.

Definition sortByConfidence (results : list Screened.t) : list Screened.t :=
  fold_right insertByConfidence [] results.

Section WithHost.
Context {ops : StringOps} {host : Host} {conversions : Conversions}.

Definition processExcelFile (workbook : Workbook) : ExcelProcessingResult.t :=
  (* Validate Excel structure first *)
  let validation := ExcelProcessor.validateExcelStructure workbook in
  if negb (ExcelProcessor.isValid validation)
  then {| ExcelProcessingResult.jobDescriptions := [];
          ExcelProcessingResult.errors := ExcelProcessor.validation_errors validation;
          ExcelProcessingResult.totalRows := 0;
          ExcelProcessingResult.processedRows := 0 |}
  else ExcelProcessor.processExcelFile workbook.

Definition parseEducationLevel (education : jsstring) : DegreeLevel :=
  let lowerEducation := toLowerCase education in
  if String_includes lowerEducation (js "phd")
     || String_includes lowerEducation (js "doctorate") then phd
  else if String_includes lowerEducation (js "master") then master
  else if String_includes lowerEducation (js "bachelor")
          || String_includes lowerEducation (js "bs")
          || String_includes lowerEducation (js "ba") then bachelor
  else if String_includes lowerEducation (js "associate")
          || String_includes lowerEducation (js "aa") then associate
  else high_school.

Definition convertExcelJobToRequirements (jobDescription : ExcelJobDescription.t)
  : JobRequirements :=
  {| minimumYearsOfExperience :=
       match ExcelJobDescription.minimumExperience jobDescription with
       | Some years => years
       | None => 0%Z
       end;
     requiredSkills :=
       match ExcelJobDescription.requiredSkills jobDescription with
       | Some skills => skills
       | None => []
       end;
     preferredSkills :=
       match ExcelJobDescription.preferredSkills jobDescription with
       | Some skills => skills
       | None => []
       end;
     requiredEducation :=
       {| minimumDegree :=
            parseEducationLevel
              (match ExcelJobDescription.education jobDescription with
               | Some education => education
               | None => js ""
               end);
          preferredFields := Some [] |};
     requiredCertifications := Some [];
     softSkills := Some [] |}.

Definition generateResultId (candidateName jobId : jsstring) : jsstring :=
  let sanitizedName := toLowerCase (filter ExcelProcessor.isAlphaNumeric candidateName) in
  sanitizedName ++ js "-" ++ jobId.

(** One turn of the loop over the job descriptions; nothing in it throws
    on typed data. *)
Definition screenOne (candidateProfile : ParsedResume)
           (st : list Screened.t * History) (jobDescription : ExcelJobDescription.t)
  : list Screened.t * History :=
  let '(screeningResults, screeningHistory) := st in
  let jobRequirements := convertExcelJobToRequirements jobDescription in
  let features := FeatureExtractor.extractFeatures candidateProfile in
  let result := ResumeEvaluator.evaluateAgainstCriteria candidateProfile jobRequirements in
  let resultId := generateResultId (fullName candidateProfile)
                                   (ExcelJobDescription.id jobDescription) in
  (screeningResults ++ [Screened.mk jobDescription result],
   Map_set resultId result screeningHistory).

Definition summarize (jobDescriptions : list ExcelJobDescription.t)
           (screeningResults : list Screened.t) : Summary.t :=
  let passedJobs := filter (fun r => isPass (Screened.result r)) screeningResults in
  let failedJobs := filter (fun r => isFail (Screened.result r)) screeningResults in
  let bestMatches :=
    map (fun r => {| BestMatch.job := Screened.jobDescription r;
                     BestMatch.score := confidenceScore (Screened.result r);
                     BestMatch.reasons := matchReasons (Screened.result r) |})
        (firstn 3 (sortByConfidence
                     (filter (fun r => isPass (Screened.result r)) screeningResults))) in
  {| Summary.totalJobs := List.length jobDescriptions;
     Summary.passedJobs := List.length passedJobs;
     Summary.failedJobs := List.length failedJobs;
     Summary.bestMatches := bestMatches |}.

(** The method on [this.screeningHistory].  It throws what [parseResume]
    throws; [Ok None] stands for a profile object that is not a
    [ParsedResume], on which the typed evaluator says nothing. *)
Definition screenResumeAgainstMultipleJobs (resumeInput : ResumeInput.t)
           (jobDescriptions : list ExcelJobDescription.t) (screeningHistory : History)
  : result (option Screening.t) * History :=
  (* Parse the resume once *)
  match ResumeParser.parseResume (ResumeInput_object resumeInput) with
  | Throw error => (Throw error, screeningHistory)
  | Ok profileObject =>
      match Typed.ParsedResume_of profileObject with
      | None => (Ok None, screeningHistory)
      | Some candidateProfile =>
          let '(screeningResults, screeningHistory) :=
            fold_left (screenOne candidateProfile) jobDescriptions ([], screeningHistory) in
          (Ok (Some {| Screening.candidateProfile := candidateProfile;
                       Screening.screeningResults := screeningResults;
                       Screening.summary := summarize jobDescriptions screeningResults |}),
           screeningHistory)
      end
  end.

Definition getScreeningResult (candidateName jobId : jsstring) (screeningHistory : History)
  : option ScreeningResult :=
  let resultId := generateResultId candidateName jobId in
  Map_get resultId screeningHistory.

End WithHost.
End R1AgentEnhanced.


(** ** ChatbotService ([chatbot/ChatbotService.ts])

    Sessions are made by [createSession] only, which sets the profile, the
    job and the result: they are present in every session.  The prompt,
    which [mockLLMResponse] does not read, and the one-second delay are
    not modelled; message ids and the clock come from the host. *)

Module ChatbotService.

Inductive Role := user | assistant.

Definition Role_toString (role : Role) : jsstring :=
  match role with
  | user => js "user"
  | assistant => js "assistant"
  end.

Module ChatMessage.
Record t := mk {
  id : jsstring;
  role : Role;
  content : jsstring;
  timestamp : Z;
  candidateId : jsstring;
  jobId : jsstring;
  screeningResult : ScreeningResult
}.
End ChatMessage.

Module ChatSession.
Record t := mk {
  id : jsstring;
  messages : list ChatMessage.t;
  candidateProfile : ParsedResume;
  jobDescription : ExcelJobDescription.t;
  screeningResult : ScreeningResult;
  createdAt : Z;
  updatedAt : Z
}.
End ChatSession.

Module ChatbotResponse.
Record t := mk {
  message : jsstring;
  confidence : Q;
  reasoning : jsstring;
  suggestedQuestions : list jsstring
}.
End ChatbotResponse.

Module LLMContext.
Record t := mk {
  candidateProfile : ParsedResume;
  jobDescription : ExcelJobDescription.t;
  screeningResult : ScreeningResult;
  chatHistory : list ChatMessage.t
}.
End LLMContext.

(** [Map<string, ChatSession>], in insertion order. *)
Definition Sessions : Type := list (jsstring * ChatSession.t).

Fixpoint Map_set (key : jsstring) (value : ChatSession.t) (map : Sessions) : Sessions :=
  match map with
  | [] => [(key, value)]
  | (k, v) :: map' =>
      if jsstring_eqb k key then (k, value) :: map' else (k, v) :: Map_set key value map'
  end.

Fixpoint Map_get (key : jsstring) (map : Sessions) : option ChatSession.t :=
  match map with
  | [] => None
  | (k, v) :: map' => if jsstring_eqb k key then Some v else Map_get key map'
  end.

Fixpoint Map_delete (key : jsstring) (map : Sessions) : bool * Sessions :=
  match map with
  | [] => (false, [])
  | (k, v) :: map' =>
      if jsstring_eqb k key then (true, map')
      else let '(found, rest) := Map_delete key map' in (found, (k, v) :: rest)
  end.

Definition SkillCategory_toString (category : SkillCategory) : jsstring :=
  match category with
  | technical => js "technical"
  | soft => js "soft"
  | language => js "language"
  | tool => js "tool"
  end.

(** [`${x}`] for a value that may be [undefined]. *)
Definition orUndefined (text : option jsstring) : jsstring :=
  match text with
  | Some text => text
  | None => js "undefined"
  end.

Definition PassFail_toUpperCase (result : PassFail) : jsstring :=
  match result with
  | pass_ => js "PASS"
  | fail_ => js "FAIL"
  end.

Section WithStringOps.
Context {ops : StringOps}.

Definition buildLLMContext (session : ChatSession.t) : LLMContext.t :=
  {| LLMContext.candidateProfile := ChatSession.candidateProfile session;
     LLMContext.jobDescription := ChatSession.jobDescription session;
     LLMContext.screeningResult := ChatSession.screeningResult session;
     LLMContext.chatHistory := ChatSession.messages session |}.


Definition mockLLMResponse (context : LLMContext.t) : ChatbotResponse.t :=
  let userMessage :=
    match last (map Some (LLMContext.chatHistory context)) None with
    | Some message => toLowerCase (ChatMessage.content message)
    | None => js ""
    end in
  let result := LLMContext.screeningResult context in
  let candidate := LLMContext.candidateProfile context in
  let job := LLMContext.jobDescription context in
  let positions := Number_toString (Z.of_nat (List.length (workExperience candidate))) in
  let first := nth_error (workExperience candidate) 0 in
  let second := nth_error (workExperience candidate) 1 in
  let title_of := fun exp => orUndefined (option_map WorkExperience.title exp) in
  let company_of := fun exp => orUndefined (option_map WorkExperience.company exp) in
  let duration_of := fun exp =>
    orUndefined (option_map (fun e => Number_toString (WorkExperience.duration e)) exp) in
  if String_includes userMessage (js "why") && String_includes userMessage (js "pass") then
    {| ChatbotResponse.message :=
         js "The candidate was screened as PASS because they meet the key requirements for the "
         ++ ExcelJobDescription.title job
         ++ js " position. They have " ++ positions
         ++ js " years of relevant experience and possess the required skills: "
         ++ join (js ", ") (map Skill.name (firstn 3 (skills candidate)))
         ++ js ". Their education background in "
         ++ match education candidate with
            | edu :: _ =>
                match Education.field edu with
                | Some field => if nonEmpty field then field else js "Computer Science"
                | None => js "Computer Science"
                end
            | [] => js "Computer Science"
            end
         ++ js " aligns well with the role requirements.";
       ChatbotResponse.confidence := 85 # 100;
       ChatbotResponse.reasoning :=
         js "Candidate meets minimum requirements and has relevant skills";
       ChatbotResponse.suggestedQuestions :=
         [js "What specific skills does the candidate have?";
          js "How does their experience match the job requirements?";
          js "What are their strongest qualifications?"] |}
  else if String_includes userMessage (js "why") && String_includes userMessage (js "fail")
  then
    {| ChatbotResponse.message :=
         js "The candidate was screened as FAIL because they don't meet some critical requirements for the "
         ++ ExcelJobDescription.title job
         ++ js " position. Specifically, they are missing "
         ++ match missingRequirements result with
            | Some missing => Number_toString (Z.of_nat (List.length missing))
            | None => js "0"
            end
         ++ js " key requirements: "
         ++ orUndefined (option_map (join (js ", ")) (missingRequirements result))
         ++ js ". While they have good experience in "
         ++ join (js ", ") (map Skill.name (firstn 2 (skills candidate)))
         ++ js ", the role requires additional qualifications that the candidate doesn't currently possess.";
       ChatbotResponse.confidence := 80 # 100;
       ChatbotResponse.reasoning :=
         js "Candidate lacks required qualifications or experience";
       ChatbotResponse.suggestedQuestions :=
         [js "What specific requirements are missing?";
          js "What skills does the candidate have?";
          js "Could this candidate be considered for a different role?"] |}
  else if String_includes userMessage (js "skill") then
    {| ChatbotResponse.message :=
         js "The candidate has the following skills: "
         ++ join (js ", ")
              (map (fun skill => Skill.name skill ++ js " ("
                                 ++ SkillCategory_toString (Skill.category skill) ++ js ")")
                   (skills candidate))
         ++ js ". They have " ++ positions
         ++ js " years of professional experience, with their most recent role as "
         ++ title_of first ++ js " at " ++ company_of first ++ js ".";
       ChatbotResponse.confidence := 90 # 100;
       ChatbotResponse.reasoning := js "Skills extracted from resume and work experience";
       ChatbotResponse.suggestedQuestions :=
         [js "How do these skills match the job requirements?";
          js "What is the candidate's experience level?";
          js "What are their strongest technical skills?"] |}
  else if String_includes userMessage (js "experience") then
    {| ChatbotResponse.message :=
         js "The candidate has " ++ positions
         ++ js " positions in their work history. Their most recent experience is as "
         ++ title_of first ++ js " at " ++ company_of first ++ js " for "
         ++ duration_of first ++ js " months. They also worked as "
         ++ title_of second ++ js " at " ++ company_of second ++ js " for "
         ++ duration_of second ++ js " months.";
       ChatbotResponse.confidence := 88 # 100;
       ChatbotResponse.reasoning := js "Work experience extracted from resume";
       ChatbotResponse.suggestedQuestions :=
         [js "How does this experience match the job requirements?";
          js "What technologies did they use in these roles?";
          js "What is their total years of experience?"] |}
  else
    {| ChatbotResponse.message :=
         js "I can help you understand the screening decision for "
         ++ fullName candidate ++ js " for the " ++ ExcelJobDescription.title job
         ++ js " position at " ++ ExcelJobDescription.company job
         ++ js ". The candidate was screened as "
         ++ PassFail_toUpperCase (screeningResult result)
         ++ js " with " ++ Number_toString (Math_round (confidenceScore result * 100))
         ++ js "% confidence. "
         ++ match screeningResult result with
            | pass_ => js "They meet the key requirements for this role."
            | fail_ => js "They don't meet some critical requirements."
            end;
       ChatbotResponse.confidence := 75 # 100;
       ChatbotResponse.reasoning := js "General screening decision explanation";
       ChatbotResponse.suggestedQuestions :=
         [js "Why did the candidate pass/fail?";
          js "What skills does the candidate have?";
          js "What are the missing requirements?";
          js "How does their experience match the job?"] |}.

(** Nothing in [mockLLMResponse] throws on a session of [createSession],
    so the [catch] of [generateResponse] is not entered. *)
Definition generateResponse (session : ChatSession.t) (userMessage : jsstring)
  : ChatbotResponse.t :=
  let context := buildLLMContext session in
  mockLLMResponse context.

Definition generateSessionId (candidateName jobId : jsstring) (timestamp : Z) : jsstring :=
  let sanitizedName := toLowerCase (filter ExcelProcessor.isAlphaNumeric candidateName) in
  sanitizedName ++ js "-" ++ jobId ++ js "-" ++ Number_toString timestamp.

(** [timestamp] is [Date.now()], [createdAt] and [updatedAt] the two
    [new Date()] that follow. *)
Definition createSession (timestamp createdAt updatedAt : Z)
           (candidateProfile : ParsedResume) (jobDescription : ExcelJobDescription.t)
           (screeningResult : ScreeningResult) (sessions : Sessions)
  : jsstring * Sessions :=
  let sessionId := generateSessionId (fullName candidateProfile)
                                     (ExcelJobDescription.id jobDescription) timestamp in
  let session :=
    {| ChatSession.id := sessionId;
       ChatSession.messages := [];
       ChatSession.candidateProfile := candidateProfile;
       ChatSession.jobDescription := jobDescription;
       ChatSession.screeningResult := screeningResult;
       ChatSession.createdAt := createdAt;
       ChatSession.updatedAt := updatedAt |} in
  (sessionId, Map_set sessionId session sessions).

(** What the host supplies in one [sendMessage]: two message ids and
    three readings of the clock. *)
Record Readings := mkReadings {
  userMessageId : jsstring;
  userTimestamp : Z;
  aiMessageId : jsstring;
  aiTimestamp : Z;
  updatedTimestamp : Z
}.

Definition with_messages (session : ChatSession.t) (messages : list ChatMessage.t)
           (updatedAt : Z) : ChatSession.t :=
  {| ChatSession.id := ChatSession.id session;
     ChatSession.messages := messages;
     ChatSession.candidateProfile := ChatSession.candidateProfile session;
     ChatSession.jobDescription := ChatSession.jobDescription session;
     ChatSession.screeningResult := ChatSession.screeningResult session;
     ChatSession.createdAt := ChatSession.createdAt session;
     ChatSession.updatedAt := updatedAt |}.

Definition sendMessage (host : Readings) (sessionId userMessage : jsstring)
           (sessions : Sessions) : result ChatbotResponse.t * Sessions :=
  match Map_get sessionId sessions with
  | None => (Throw (ErrorObject "Error" (js "Chat session not found")), sessions)
  | Some session =>
      (* Add user message to session *)
      let userMsg :=
        {| ChatMessage.id := userMessageId host;
           ChatMessage.role := user;
           ChatMessage.content := userMessage;
           ChatMessage.timestamp := userTimestamp host;
           ChatMessage.candidateId := fullName (ChatSession.candidateProfile session);
           ChatMessage.jobId := ExcelJobDescription.id (ChatSession.jobDescription session);
           ChatMessage.screeningResult := ChatSession.screeningResult session |} in
      let session := with_messages session (ChatSession.messages session ++ [userMsg])
                                   (ChatSession.updatedAt session) in
      (* Generate AI response *)
      let aiResponse := generateResponse session userMessage in
      (* Add AI response to session *)
      let aiMsg :=
        {| ChatMessage.id := aiMessageId host;
           ChatMessage.role := assistant;
           ChatMessage.content := ChatbotResponse.message aiResponse;
           ChatMessage.timestamp := aiTimestamp host;
           ChatMessage.candidateId := fullName (ChatSession.candidateProfile session);
           ChatMessage.jobId := ExcelJobDescription.id (ChatSession.jobDescription session);
           ChatMessage.screeningResult := ChatSession.screeningResult session |} in
      let session := with_messages session (ChatSession.messages session ++ [aiMsg])
                                   (updatedTimestamp host) in
      (Ok aiResponse, Map_set sessionId session sessions)
  end.

Definition getSession (sessionId : jsstring) (sessions : Sessions) : option ChatSession.t :=
  Map_get sessionId sessions.

Definition getAllSessions (sessions : Sessions) : list ChatSession.t := map snd sessions.

Definition deleteSession (sessionId : jsstring) (sessions : Sessions) : bool * Sessions :=
  Map_delete sessionId sessions.

Definition getSuggestedQuestions (sessionId : jsstring) (sessions : Sessions)
  : list jsstring :=
  match Map_get sessionId sessions with
  | None => []
  | Some session =>
      let result := ChatSession.screeningResult session in
      let candidate := ChatSession.candidateProfile session in
      let baseQuestions :=
        [js "Why was this candidate screened as pass/fail?";
         js "What skills does the candidate have?";
         js "How does their experience match the job requirements?"] in
      let baseQuestions :=
        if match screeningResult result with fail_ => true | pass_ => false end
           && match missingRequirements result with
              | Some missing => (0 <? List.length missing)%nat
              | None => false
              end
        then baseQuestions
             ++ [js "What specific requirements are missing?"]
             ++ [js "Could this candidate be considered for a different role?"]
        else baseQuestions in
      let baseQuestions :=
        if (0 <? List.length (skills candidate))%nat
        then baseQuestions ++ [js "What are the candidate's strongest technical skills?"]
        else baseQuestions in
      let baseQuestions :=
        if (0 <? List.length (workExperience candidate))%nat
        then baseQuestions
             ++ [js "What technologies did they use in their previous roles?"]
        else baseQuestions in
      baseQuestions
  end.

End WithStringOps.
End ChatbotService.


(** ** Vocabulary of the statements, and sample data *)

(** [needle] occurs in [s]. *)
Definition isSubstring (s needle : jsstring) : Prop :=
  exists before after, s = before ++ needle ++ after.

(** The months of a work history, added up. *)
Definition sumDurations (workExperience : list WorkExperience.t) : Z :=
  fold_right (fun exp total => (WorkExperience.duration exp + total)%Z) 0%Z workExperience.

(** The points a profile earns in the four categories. *)
Definition earnedPoints {ops : StringOps} (candidateData : ParsedResume)
           (jobRequirements : JobRequirements) : Z :=
  let features := ResumeEvaluator.extractEvaluationFeatures candidateData in
  (ResumeEvaluator.score (ResumeEvaluator.evaluateExperience features jobRequirements)
   + ResumeEvaluator.score (ResumeEvaluator.evaluateSkills features jobRequirements)
   + ResumeEvaluator.score (ResumeEvaluator.evaluateEducation features jobRequirements)
   + ResumeEvaluator.score (ResumeEvaluator.evaluateCertifications features jobRequirements))%Z.

Definition sampleSkill (name : string) : Skill.t :=
  Skill.mk (js name) technical (Some intermediate) None.

(** The candidate of the evaluator's unit test. *)
Definition sampleCandidate : ParsedResume :=
  {| fullName := js "Test Candidate";
     email := js "test@email.com";
     phone := js "5551234567";
     education :=
       [Education.mk (js "Bachelor of Science in Computer Science") (js "Test University")
                     (Some 2020%Z) (Some (js "Computer Science")) None];
     workExperience :=
       [WorkExperience.mk (js "Software Engineer") (js "Test Company") (js "2020")
                          (Some (js "2023")) 36 (Some (js "Developed web applications"))
                          (Some [js "JavaScript"; js "React"; js "Node.js"])];
     skills := [sampleSkill "JavaScript"; sampleSkill "React"; sampleSkill "Node.js"];
     certifications := [];
     rawText := None |}.

(** A designer: no skill of the evaluator's list, one year in a job whose
    title has a relevance keyword. *)
Definition sampleDesigner : ParsedResume :=
  {| fullName := js "Designer";
     email := js "designer@email.com";
     phone := js "5553334444";
     education := [];
     workExperience :=
       [WorkExperience.mk (js "Web Designer") (js "Design Corp") (js "2022")
                          (Some (js "2023")) 12 None None];
     skills := [sampleSkill "Photoshop"; sampleSkill "Illustrator"];
     certifications := [];
     rawText := None |}.

(** The requirements of the unit tests, without and with the optional
    [requiredCertifications]. *)
Definition sampleRequirements : JobRequirements :=
  {| minimumYearsOfExperience := 3;
     requiredSkills := [js "JavaScript"; js "React"; js "Node.js"];
     preferredSkills := [js "TypeScript"; js "AWS"];
     requiredEducation := mkRequiredEducation bachelor (Some [js "Computer Science"]);
     requiredCertifications := None;
     softSkills := Some [js "Communication"] |}.

Definition sampleRequirementsNoCerts : JobRequirements :=
  {| minimumYearsOfExperience := 3;
     requiredSkills := [js "JavaScript"; js "React"; js "Node.js"];
     preferredSkills := [js "TypeScript"; js "AWS"];
     requiredEducation := mkRequiredEducation bachelor (Some [js "Computer Science"]);
     requiredCertifications := Some [];
     softSkills := Some [js "Communication"] |}.

Definition isOk {A : Type} (r : result A) : bool :=
  match r with
  | Ok _ => true
  | Throw _ => false
  end.

(** An array all of whose elements are [ok]. *)
Definition arrayAll (ok : JSValue -> bool) (v : JSValue) : bool :=
  match v with
  | VArr elems => forallb ok elems
  | _ => false
  end.

(** Neither [null] nor [undefined]. *)
Definition objectCoercible (v : JSValue) : bool := negb (nullish v).

(** An entry of the work history the structured path can normalize: not
    [null] or [undefined], and, when its [duration] is falsy, with a
    [startDate] and (when that is truthy) an [endDate] that [parseInt] can
    convert to a string. *)
Definition experienceEntryOk (exp : JSValue) : bool :=
  objectCoercible exp
  && (truthy (prop exp "duration")
      || negb (toStringThrows (prop exp "startDate"))
         && (negb (truthy (prop exp "startDate"))
             || negb (toStringThrows (prop exp "endDate")))).

(** The shape the structured path relies on: each list-valued property it
    maps over ([education]; [experience], or [workExperience] when that is
    falsy; [skills]; [certifications]) is falsy, or an array whose elements
    can be normalized. *)
Definition structuredListsOk (data : JSValue) : bool :=
  arrayAll objectCoercible (prop data "education" ||| VArr [])
  && arrayAll experienceEntryOk (prop data "experience" ||| prop data "workExperience"
                                 ||| VArr [])
  && arrayAll objectCoercible (prop data "skills" ||| VArr [])
  && arrayAll objectCoercible (prop data "certifications" ||| VArr []).

(** A structured input of the shape the tests use, and one whose [skills]
    is a string instead of an array of strings. *)
Definition sampleStructuredInput : JSValue :=
  VObj [("name"%string, VStr (js "Jane Smith"));
        ("email"%string, VStr (js "jane.smith@email.com"));
        ("skills"%string, VArr [VStr (js "JavaScript"); VStr (js "React")])].

Definition malformedStructuredInput : JSValue :=
  VObj [("name"%string, VStr (js "Jane Smith"));
        ("skills"%string, VStr (js "JavaScript, React"))].

(** Two lines of a resume, as raw text. *)
Definition sampleRawText : jsstring :=
  js "EDUCATION" ++ [10%N] ++ js "Bachelor of Science".

(** An agent whose parser rejects every input the way [parseResume]
    rejects a number. *)
Definition sampleFailingAgent : R1Agent.t :=
  R1Agent.new asciiOps (fun _ => Throw ResumeParser.INVALID_INPUT_FORMAT).

Definition sampleResumeInput : ResumeInput.t :=
  ResumeInput.mk ResumeInput.structured (VNum (Fin 5)).

(** The placeholder profile of an error result. *)
Definition unknownProfile : ParsedResume :=
  {| fullName := js "Unknown";
     email := js "";
     phone := js "";
     education := [];
     workExperience := [];
     skills := [];
     certifications := [];
     rawText := None |}.

(** [result] is the sentinel the orchestrator substitutes when a stage
    threw [error]: 'fail', confidence 0, the placeholder profile, and one
    error message, which ends with the message of [error] when that is an
    [Error] and starts with the stage's annotation. *)
Definition isErrorResult (result : ScreeningResult) (annotation : jsstring)
           (error : thrown) : Prop :=
  screeningResult result = fail_
  /\ confidenceScore result = 0%Q
  /\ candidateProfile result = unknownProfile
  /\ exists reported,
       errorMessages result = Some [reported]
       /\ forall name message,
            error = ErrorObject name message ->
            reported = annotation ++ message /\ isSubstring reported message.

(** The level one degree title stands for: the first of the keyword tests
    of [determineEducationLevel] that its lower-cased text passes, and
    [high_school] when it passes none. *)
Definition classifyDegree {ops : StringOps} (degree : jsstring) : DegreeLevel :=
  let degree := toLowerCase degree in
  if String_includes degree (js "phd") || String_includes degree (js "doctorate")
  then phd
  else if String_includes degree (js "master") || String_includes degree (js "ms")
          || String_includes degree (js "ma")
  then master
  else if String_includes degree (js "bachelor") || String_includes degree (js "bs")
          || String_includes degree (js "ba")
  then bachelor
  else if String_includes degree (js "associate") || String_includes degree (js "aa")
          || String_includes degree (js "as")
  then associate
  else high_school.

(** The highest rank among the degrees of an education list, and 1 (the
    rank of [high_school]) for the empty list. *)
Definition highestRank {ops : StringOps} (education : list Education.t) : Z :=
  fold_right (fun edu best => Z.max (levelHierarchy (classifyDegree (Education.degree edu))) best)
             1%Z education.

(** One turn of the loop of [determineEducationLevel] on its two
    variables, [highestLevel] and [highestLevelNum]. *)
Definition educationStep {ops : StringOps} (st : DegreeLevel * Z) (edu : Education.t)
  : DegreeLevel * Z :=
  let '(highestLevel, highestLevelNum) := st in
  let degree := toLowerCase (Education.degree edu) in
  if String_includes degree (js "phd") || String_includes degree (js "doctorate") then
    if (levelHierarchy phd >? highestLevelNum)%Z
    then (phd, levelHierarchy phd) else st
  else if String_includes degree (js "master") || String_includes degree (js "ms")
          || String_includes degree (js "ma") then
    if (levelHierarchy master >? highestLevelNum)%Z
    then (master, levelHierarchy master) else st
  else if String_includes degree (js "bachelor") || String_includes degree (js "bs")
          || String_includes degree (js "ba") then
    if (levelHierarchy bachelor >? highestLevelNum)%Z
    then (bachelor, levelHierarchy bachelor) else st
  else if String_includes degree (js "associate") || String_includes degree (js "aa")
          || String_includes degree (js "as") then
    if (levelHierarchy associate >? highestLevelNum)%Z
    then (associate, levelHierarchy associate) else st
  else st.

(** A text in which white space occurs only as single spaces:
    [spacedFrom afterSpace s] reads [s] knowing whether a space came just
    before; [singleSpacedFrom] asks in addition that the text does not end
    in a space; [singleSpaced] asks for neither a first nor a last space. *)
Fixpoint spacedFrom (afterSpace : bool) (s : jsstring) : bool :=
  match s with
  | [] => true
  | c :: s' =>
      if (c =? ResumeParser.SPACE)%N
      then negb afterSpace && spacedFrom true s'
      else negb (ResumeParser.isWhiteSpace c) && spacedFrom false s'
  end.

Fixpoint singleSpacedFrom (afterSpace : bool) (s : jsstring) : bool :=
  match s with
  | [] => negb afterSpace
  | c :: s' =>
      if (c =? ResumeParser.SPACE)%N
      then negb afterSpace && singleSpacedFrom true s'
      else negb (ResumeParser.isWhiteSpace c) && singleSpacedFrom false s'
  end.

Definition singleSpaced (s : jsstring) : bool :=
  match s with
  | [] => true
  | _ :: _ => singleSpacedFrom true s
  end.

(** The characters of a text that are not white space, in order. *)
Definition inkOf (s : jsstring) : jsstring :=
  filter (fun c => negb (ResumeParser.isWhiteSpace c)) s.


(** Every header cell is a string, or empty. *)
Definition headersAreStrings (headers : list (option JSValue)) : bool :=
  forallb (fun cell => match cell with
                       | None | Some (VStr _) => true
                       | Some _ => false
                       end) headers.

(** The index of the last header, among the cells that are strings, that
    [createColumnMap] files under [field], if there is one. *)
Fixpoint lastHeaderFor {ops : StringOps} (field : string)
         (headers : list (option JSValue)) : option nat :=
  match headers with
  | [] => None
  | cell :: headers' =>
      match lastHeaderFor field headers' with
      | Some index => Some (S index)
      | None =>
          match cell with
          | Some (VStr header) =>
              match ExcelProcessor.fieldOfHeader header with
              | Some field' => if String.eqb field field' then Some O else None
              | None => None
              end
          | _ => None
          end
      end
  end.

(** The message a row gets when a required column is not found. *)
Definition missingRequiredFields (rowNumber : nat) : jsstring :=
  ExcelProcessor.ROW rowNumber
  ++ js "Missing required fields (title, company, or description)".

(** A sheet whose three required columns come first, with one filled row. *)
Definition sampleHeaders : list (option JSValue) :=
  [Some (VStr (js "Job Title")); Some (VStr (js "Company"));
   Some (VStr (js "Description")); Some (VStr (js "Required Skills"))].

Definition sampleRow : list JSValue :=
  [VStr (js "Engineer"); VStr (js "Acme"); VStr (js "Builds things");
   VStr (js "Go, Rust")].

Definition sampleConversions : Conversions := MkConversions (fun _ => js "").


(** The same sheet behind a reference column, with the years asked for. *)
Definition sampleHeadersWithRef : list (option JSValue) :=
  Some (VStr (js "Ref")) :: sampleHeaders ++ [Some (VStr (js "Experience"))].

(** The column map of that sheet, the latest assignment first. *)
Definition sampleColumnMap : ExcelProcessor.ColumnMap :=
  [("minimumExperience", 5); ("requiredSkills", 4); ("description", 3); ("company", 2);
   ("title", 1)]%string%nat.

(** The same sheet again with a column headed by the number 2024. *)
Definition sampleHeadersWithYear : list (option JSValue) :=
  sampleHeadersWithRef ++ [Some (VNum (Fin 2024))].

Definition sampleRowWithRef : list JSValue :=
  VStr (js "7") :: sampleRow ++ [VStr (js "3+ years")].


(** The object [parseStructuredResume] builds when it finds none of the
    properties it reads. *)
Definition unknownProfileObject : JSValue :=
  VObj [("fullName"%string, VStr (js "Unknown"));
        ("email"%string, VStr (js ""));
        ("phone"%string, VStr (js ""));
        ("education"%string, VArr []);
        ("workExperience"%string, VArr []);
        ("skills"%string, VArr []);
        ("certifications"%string, VArr [])].


(** The job description the sample row gives. *)
Definition sampleJob : ExcelJobDescription.t :=
  {| ExcelJobDescription.id := js "acme-engineer-2";
     ExcelJobDescription.title := js "Engineer";
     ExcelJobDescription.company := js "Acme";
     ExcelJobDescription.department := Some (js "");
     ExcelJobDescription.location := Some (js "");
     ExcelJobDescription.description := js "Builds things";
     ExcelJobDescription.requirements := js "";
     ExcelJobDescription.minimumExperience := Some 3%Z;
     ExcelJobDescription.requiredSkills := Some [js "Go"; js "Rust"];
     ExcelJobDescription.preferredSkills := None;
     ExcelJobDescription.education := Some (js "");
     ExcelJobDescription.salary := Some (js "");
     ExcelJobDescription.employmentType := Some (js "") |}.


(** The lower-cased [line] contains one of [words]. *)
Definition mentions {ops : StringOps} (words : list jsstring) (line : jsstring) : bool :=
  existsb (fun word => String_includes (toLowerCase line) word) words.

(** The four words that end a section. *)
Definition sectionHeadings : list jsstring :=
  [js "experience"; js "education"; js "skills"; js "certifications"].

Definition sampleSkillsText : jsstring :=
  js "SKILLS" ++ [10%N] ++ js "Go" ++ [10%N] ++ js "Rust" ++ [10%N] ++ js "EDUCATION"
  ++ [10%N] ++ js "BSc".


(** Every element of the array [v] has a truthy value under each of
    [keys]. *)
Definition entriesHave (keys : list string) (v : JSValue) : Prop :=
  exists elems,
    v = VArr elems
    /\ forall entry key, In entry elems -> In key keys -> truthy (prop entry key) = true.

(** The number of elements of an array, and 0 for what is not one. *)
Definition arrayLength (v : JSValue) : nat :=
  match v with
  | VArr elems => List.length elems
  | _ => O
  end.


(** What the user asked last, lower-cased, as [mockLLMResponse] reads it. *)
Definition lastQuestion {ops : StringOps} (context : ChatbotService.LLMContext.t) : jsstring :=
  match last (map Some (ChatbotService.LLMContext.chatHistory context)) None with
  | Some message => toLowerCase (ChatbotService.ChatMessage.content message)
  | None => js ""
  end.

(** A question about a candidate who failed. *)
Definition sampleFailedResult : ScreeningResult :=
  @ResumeEvaluator.evaluateAgainstCriteria asciiOps sampleDesigner sampleRequirements.

Definition sampleQuestion : ChatbotService.ChatMessage.t :=
  ChatbotService.ChatMessage.mk (js "msg-1") ChatbotService.user
    (js "Why did the candidate not pass?") 0 (js "Designer") (js "acme-engineer-2")
    sampleFailedResult.

Definition sampleContext : ChatbotService.LLMContext.t :=
  ChatbotService.LLMContext.mk sampleDesigner sampleJob sampleFailedResult [sampleQuestion].


(** The relevance keywords, as the specification lists them. *)
Definition relevanceKeywords : list jsstring :=
  [js "software"; js "developer"; js "engineer"; js "programmer"; js "coding"; js "web";
   js "application"; js "system"; js "database"; js "frontend"; js "backend"].

(** The title of [exp], or its description when it has one, contains a
    relevance keyword (the code compares lower-cased text). *)
Definition mentionsRelevance {ops : StringOps} (exp : WorkExperience.t) : Prop :=
  exists keyword,
    In keyword relevanceKeywords
    /\ (isSubstring (toLowerCase (WorkExperience.title exp)) keyword
        \/ exists description,
             WorkExperience.description exp = Some description
             /\ isSubstring (toLowerCase description) keyword).

(** [Number.MAX_SAFE_INTEGER].  JavaScript adds numbers as doubles; the sum
    of two whole numbers is exact when it does not exceed this bound. *)
Definition MAX_SAFE_INTEGER : Z := (2 ^ 53 - 1)%Z.

(** Every duration of the work history, and every total the loop of
    [calculateTotalExperience] reaches from [total] on, is a safe integer:
    there the doubles of the code and the whole numbers of the model agree. *)
Fixpoint safeMonthsFrom (total : Z) (workExperience : list WorkExperience.t) : bool :=
  match workExperience with
  | [] => true
  | exp :: rest =>
      (Z.abs (WorkExperience.duration exp) <=? MAX_SAFE_INTEGER)%Z
      && (Z.abs (total + WorkExperience.duration exp) <=? MAX_SAFE_INTEGER)%Z
      && safeMonthsFrom (total + WorkExperience.duration exp) rest
  end.

Definition safeMonths (workExperience : list WorkExperience.t) : bool :=
  safeMonthsFrom 0 workExperience.

(** A candidate whose only mention of a keyword is in a description, with
    one year of experience; and a work history of 30 and 12 months. *)
Definition sampleIllustrator : ParsedResume :=
  {| fullName := js "Illustrator";
     email := js "illustrator@email.com";
     phone := js "5556667777";
     education := [];
     workExperience :=
       [WorkExperience.mk (js "Illustrator") (js "Studio") (js "2022") (Some (js "2023")) 12
                          (Some (js "Drew icons for a Web shop")) None];
     skills := [];
     certifications := [];
     rawText := None |}.



(** An agent whose parser reads every input as the unit test's candidate. *)
Definition sampleAgent : R1Agent.t :=
  R1Agent.new asciiOps (fun _ => Ok sampleCandidate).

(** The chat session that [createSession] opens at time 0 on the failed
    screening of the designer, the map that holds it, and the readings of
    the host in one [sendMessage]. *)
Definition sampleSession : ChatbotService.ChatSession.t :=
  {| ChatbotService.ChatSession.id := js "designer-acme-engineer-2-0";
     ChatbotService.ChatSession.messages := [];
     ChatbotService.ChatSession.candidateProfile := sampleDesigner;
     ChatbotService.ChatSession.jobDescription := sampleJob;
     ChatbotService.ChatSession.screeningResult := sampleFailedResult;
     ChatbotService.ChatSession.createdAt := 0;
     ChatbotService.ChatSession.updatedAt := 0 |}.

Definition sampleSessions : ChatbotService.Sessions :=
  [(js "designer-acme-engineer-2-0", sampleSession)].

Definition sampleReadings : ChatbotService.Readings :=
  ChatbotService.mkReadings (js "msg-1") 1 (js "msg-2") 2 3.


(* ================================================================== *)
(** * Part II.  Properties                                              *)
(* ================================================================== *)

(** ** Strings *)

Lemma jsstring_eqb_eq (a b : jsstring) : jsstring_eqb a b = true <-> a = b.
Proof.
  unfold jsstring_eqb. destruct (list_eq_dec N.eq_dec a b); split; congruence.
Qed.

Lemma startsWith_spec (s prefix : jsstring) :
  startsWith s prefix = true <-> exists after, s = prefix ++ after.
Proof.
  revert s. induction prefix as [|a prefix IH]; intros s; simpl.
  - split; [intros _; exists s; reflexivity | reflexivity].
  - destruct s as [|b s].
    + split; [discriminate | intros [after H]; discriminate].
    + rewrite andb_true_iff, N.eqb_eq, IH. split.
      * intros [-> [after ->]]. exists after. reflexivity.
      * intros [after H]. injection H as -> ->. split; [reflexivity | exists after; reflexivity].
Qed.

Lemma String_includes_spec (s needle : jsstring) :
  String_includes s needle = true <-> isSubstring s needle.
Proof.
  unfold isSubstring. induction s as [|c s IH].
  - simpl. rewrite orb_false_r, startsWith_spec. split.
    + intros [after H]. exists [], after. exact H.
    + intros [before [after H]]. destruct before; [exists after; exact H | discriminate].
  - cbn [String_includes]. rewrite orb_true_iff, startsWith_spec, IH. split.
    + intros [[after H] | [before [after H]]].
      * exists [], after. exact H.
      * exists (c :: before), after. rewrite H. reflexivity.
    + intros [before [after H]]. destruct before as [|b before].
      * left. exists after. exact H.
      * right. injection H as -> ->. exists before, after. reflexivity.
Qed.

Lemma Array_includes_spec (arr : list jsstring) (x : jsstring) :
  Array_includes arr x = true <-> In x arr.
Proof.
  unfold Array_includes. rewrite existsb_exists. split.
  - intros [y [Hy Heq]]. apply jsstring_eqb_eq in Heq. subst. exact Hy.
  - intros H. exists x. split; [exact H | apply jsstring_eqb_eq; reflexivity].
Qed.

(** ** Rounding *)

Lemma Math_round_div (m d : Z) :
  (0 < d)%Z -> Math_round (inject_Z m / inject_Z d) = ((2 * m + d) / (2 * d))%Z.
Proof.
  intros Hd. unfold Math_round, Qfloor, Qdiv, Qmult, Qplus, Qinv, inject_Z.
  destruct d as [|d|d]; try lia. simpl Qnum. simpl Qden.
  f_equal; lia.
Qed.

(** ** The evaluator *)

Section EvaluatorProperties.
Context {ops : StringOps}.
Import ResumeEvaluator.
Local Open Scope Z_scope.

Lemma fold_left_durations (ws : list WorkExperience.t) (acc : Z) :
  fold_left (fun total exp => total + WorkExperience.duration exp) ws acc
  = acc + sumDurations ws.
Proof.
  revert acc. induction ws as [|w ws IH]; intros acc; simpl.
  - lia.
  - rewrite IH. lia.
Qed.

Lemma sumDurations_nonneg (ws : list WorkExperience.t) :
  (forall exp, In exp ws -> 0 <= WorkExperience.duration exp) -> 0 <= sumDurations ws.
Proof.
  induction ws as [|w ws IH]; intros H; simpl.
  - lia.
  - assert (0 <= WorkExperience.duration w) by (apply H; left; reflexivity).
    assert (0 <= sumDurations ws) by (apply IH; intros e He; apply H; right; exact He).
    lia.
Qed.

Lemma calculateTotalExperience_div (ws : list WorkExperience.t) :
  calculateTotalExperience ws = (2 * sumDurations ws + 12) / 24.
Proof.
  unfold calculateTotalExperience. rewrite fold_left_durations.
  change 12%Q with (inject_Z 12). rewrite Math_round_div by lia.
  f_equal; lia.
Qed.

(** The reasons and the missing requirements [performEvaluation] collects,
    category by category. *)
Lemma performEvaluation_reasons (f : Features.t) (r : JobRequirements) :
  reasons (performEvaluation f r)
  = (if pass (evaluateExperience f r)
     then [REASON_EXPERIENCE (Features.totalExperience f)] else [])
    ++ (if pass (evaluateSkills f r) then [REASON_SKILLS] else [])
    ++ (if pass (evaluateEducation f r) then [REASON_EDUCATION] else [])
    ++ (if pass (evaluateCertifications f r) then [REASON_CERTIFICATIONS] else []).
Proof.
  unfold performEvaluation.
  destruct (pass (evaluateExperience f r)), (pass (evaluateSkills f r)),
    (pass (evaluateEducation f r)), (pass (evaluateCertifications f r));
    try reflexivity;
    destruct (negb (noCertificationsRequired r)); reflexivity.
Qed.

Lemma performEvaluation_missing (f : Features.t) (r : JobRequirements) :
  missing (performEvaluation f r)
  = (if pass (evaluateExperience f r) then []
     else [js "Requires " ++ Number_toString (minimumYearsOfExperience r)
           ++ js "+ years experience"])
    ++ (if pass (evaluateSkills f r) then []
        else [js "Missing required skills: "
              ++ join (js ", ")
                   (filter (fun skill =>
                              negb (Array_includes (Features.candidateSkillNames f)
                                                   (toLowerCase skill)))
                           (requiredSkills r))])
    ++ (if pass (evaluateEducation f r) then []
        else [js "Requires " ++ DegreeLevel_toString (minimumDegree (requiredEducation r))
              ++ js " degree"])
    ++ (if pass (evaluateCertifications f r) then []
        else if negb (noCertificationsRequired r)
             then [js "Missing required certifications"] else []).
Proof.
  unfold performEvaluation.
  destruct (pass (evaluateExperience f r)), (pass (evaluateSkills f r)),
    (pass (evaluateEducation f r)), (pass (evaluateCertifications f r));
    try reflexivity;
    destruct (negb (noCertificationsRequired r)); reflexivity.
Qed.

Lemma performEvaluation_confidence (f : Features.t) (r : JobRequirements) :
  confidence (performEvaluation f r)
  = (inject_Z (score (evaluateExperience f r) + score (evaluateSkills f r)
               + score (evaluateEducation f r) + score (evaluateCertifications f r))
     / inject_Z 100)%Q.
Proof.
  unfold performEvaluation.
  destruct (pass (evaluateExperience f r)), (pass (evaluateSkills f r)),
    (pass (evaluateEducation f r)), (pass (evaluateCertifications f r));
    try reflexivity;
    destruct (negb (noCertificationsRequired r)); reflexivity.
Qed.

Lemma performEvaluation_pass (f : Features.t) (r : JobRequirements) :
  ev_pass (performEvaluation f r) = Qle_bool (7 # 10) (confidence (performEvaluation f r)).
Proof.
  unfold performEvaluation.
  destruct (pass (evaluateExperience f r)), (pass (evaluateSkills f r)),
    (pass (evaluateEducation f r)), (pass (evaluateCertifications f r));
    try reflexivity;
    destruct (negb (noCertificationsRequired r)); reflexivity.
Qed.

Lemma evaluateExperience_range (f : Features.t) (r : JobRequirements) :
  0 <= score (evaluateExperience f r) <= 30.
Proof.
  unfold evaluateExperience; simpl.
  destruct (Features.totalExperience f >=? minimumYearsOfExperience r),
    (Features.hasRelevantExperience f); simpl; lia.
Qed.

Lemma evaluateSkills_range (f : Features.t) (r : JobRequirements) :
  0 <= score (evaluateSkills f r) <= 40.
Proof.
  unfold evaluateSkills; simpl.
  destruct (Features.hasRequiredSkills f),
    (percentage (Features.skillMatch f) >=? 50); simpl; lia.
Qed.

Lemma evaluateEducation_range (f : Features.t) (r : JobRequirements) :
  0 <= score (evaluateEducation f r) <= 20.
Proof.
  unfold evaluateEducation; simpl.
  destruct (orZero (levelHierarchy (Features.educationLevel f))
            >=? orZero (levelHierarchy (minimumDegree (requiredEducation r)))),
    (Features.hasRelevantEducation f); simpl; lia.
Qed.

Lemma evaluateCertifications_range (f : Features.t) (r : JobRequirements) :
  0 <= score (evaluateCertifications f r) <= 10.
Proof.
  unfold evaluateCertifications.
  destruct (noCertificationsRequired r), (Features.hasCertifications f); simpl; lia.
Qed.

Lemma earnedPoints_range (p : ParsedResume) (r : JobRequirements) :
  0 <= earnedPoints p r <= 100.
Proof.
  unfold earnedPoints.
  pose proof (evaluateExperience_range (extractEvaluationFeatures p) r).
  pose proof (evaluateSkills_range (extractEvaluationFeatures p) r).
  pose proof (evaluateEducation_range (extractEvaluationFeatures p) r).
  pose proof (evaluateCertifications_range (extractEvaluationFeatures p) r).
  lia.
Qed.

(** C1.  The confidence score is the sum of the points earned in the four
    categories divided by 100; it lies between 0 and 1; the result is
    'pass' exactly when the confidence is at least 0.70, that is, exactly
    when the earned points reach 70, whichever categories failed. *)
Theorem confidence_is_points_over_100 (candidateData : ParsedResume)
        (jobRequirements : JobRequirements) :
  let result := evaluateAgainstCriteria candidateData jobRequirements in
  let points := earnedPoints candidateData jobRequirements in
  (confidenceScore result == inject_Z points / 100)%Q
  /\ (0 <= confidenceScore result <= 1)%Q
  /\ (screeningResult result = pass_ <-> (7 # 10 <= confidenceScore result)%Q)
  /\ (screeningResult result = pass_ <-> 70 <= points).
Proof.
  intros result points.
  assert (Hc : confidenceScore result = (inject_Z points / inject_Z 100)%Q)
    by apply performEvaluation_confidence.
  assert (Hp : screeningResult result = pass_
               <-> Qle_bool (7 # 10) (confidenceScore result) = true).
  { unfold result, evaluateAgainstCriteria. cbn [screeningResult confidenceScore].
    rewrite performEvaluation_pass.
    destruct (Qle_bool (7 # 10) (confidence _)); split; congruence. }
  pose proof (earnedPoints_range candidateData jobRequirements) as Hr.
  fold points in Hr.
  repeat split.
  - rewrite Hc. reflexivity.
  - rewrite Hc. unfold Qle, Qdiv, Qmult, Qinv, inject_Z. simpl. lia.
  - rewrite Hc. unfold Qle, Qdiv, Qmult, Qinv, inject_Z. simpl. lia.
  - intros H. apply Hp in H. apply Qle_bool_iff in H. exact H.
  - intros H. apply Hp. apply Qle_bool_iff. exact H.
  - intros H. apply Hp in H. apply Qle_bool_iff in H. rewrite Hc in H.
    unfold Qle, Qdiv, Qmult, Qinv, inject_Z in H. simpl in H. lia.
  - intros H. apply Hp. apply Qle_bool_iff. rewrite Hc.
    unfold Qle, Qdiv, Qmult, Qinv, inject_Z. simpl. lia.
Qed.

(** A work history is relevant when the lower-cased title or description
    of one of its entries contains one of the relevance keywords. *)
Lemma hasRelevantExperience_spec (ws : list WorkExperience.t) :
  hasRelevantExperience ws = true
  <-> exists exp keyword,
        In exp ws /\ In keyword relevantKeywords
        /\ (isSubstring (toLowerCase (WorkExperience.title exp)) keyword
            \/ isSubstring (lowerOrEmpty (WorkExperience.description exp)) keyword).
Proof.
  unfold hasRelevantExperience. rewrite existsb_exists. split.
  - intros [exp [Hexp H]]. apply existsb_exists in H. destruct H as [keyword [Hk H]].
    exists exp, keyword. rewrite orb_true_iff, !String_includes_spec in H. auto.
  - intros [exp [keyword [Hexp [Hk H]]]]. exists exp. split; [exact Hexp|].
    apply existsb_exists. exists keyword. split; [exact Hk|].
    rewrite orb_true_iff, !String_includes_spec. exact H.
Qed.

Lemma relevanceKeywords_nonempty (keyword : jsstring) :
  In keyword relevanceKeywords -> keyword <> [].
Proof.
  intros H E. subst keyword. unfold relevanceKeywords in H. cbn [In] in H.
  repeat (destruct H as [H | H]; [discriminate H|]). exact H.
Qed.

(** The code's test, read against the list of the specification. *)
Lemma hasRelevantExperience_mentions (ws : list WorkExperience.t) :
  hasRelevantExperience ws = true <-> exists exp, In exp ws /\ mentionsRelevance exp.
Proof.
  rewrite hasRelevantExperience_spec. unfold mentionsRelevance.
  change relevantKeywords with relevanceKeywords. split.
  - intros [exp [keyword [Hexp [Hk [H | H]]]]]; exists exp; (split; [exact Hexp|]);
      exists keyword; (split; [exact Hk|]); [left; exact H|].
    right. destruct (WorkExperience.description exp) as [description|].
    + exists description. split; [reflexivity | exact H].
    + exfalso. cbn [lowerOrEmpty] in H. destruct H as [before [after H]].
      apply (relevanceKeywords_nonempty Hk).
      destruct before; [|discriminate]. destruct keyword; [reflexivity | discriminate].
  - intros [exp [Hexp [keyword [Hk [H | [description [Hd H]]]]]]];
      exists exp, keyword; (split; [exact Hexp|]); (split; [exact Hk|]);
      [left; exact H|].
    right. rewrite Hd. exact H.
Qed.

(** C4.  The experience category earns 20 points exactly when the total
    years reach the required minimum, plus 10 points exactly when the
    (lower-cased) title or description of some work experience contains one
    of the eleven relevance keywords; the category passes on the first
    condition alone, and the 10 points are earned also when it fails. *)
Theorem experience_points (candidateData : ParsedResume) (jobRequirements : JobRequirements) :
  let features := extractEvaluationFeatures candidateData in
  let category := evaluateExperience features jobRequirements in
  let years := Features.totalExperience features in
  let minimum := minimumYearsOfExperience jobRequirements in
  let relevant :=
    exists exp, In exp (workExperience candidateData) /\ mentionsRelevance exp in
  (exists base bonus,
      score category = base + bonus
      /\ (base = 20 /\ minimum <= years \/ base = 0 /\ years < minimum)
      /\ (bonus = 10 /\ relevant \/ bonus = 0 /\ ~ relevant))
  /\ (pass category = true <-> minimum <= years)
  /\ (years < minimum -> relevant -> pass category = false /\ score category = 10)
  /\ (years < minimum -> ~ relevant -> score category = 0)
  /\ (minimum <= years -> relevant -> score category = 30).
Proof.
  intros features category years minimum relevant.
  assert (Hrel : hasRelevantExperience (workExperience candidateData) = true <-> relevant)
    by apply hasRelevantExperience_mentions.
  unfold category, evaluateExperience. unfold years, features, extractEvaluationFeatures.
  cbn [Features.totalExperience Features.hasRelevantExperience pass score].
  set (total := calculateTotalExperience (workExperience candidateData)).
  fold minimum.
  destruct (Z.geb_spec total minimum) as [Hge | Hlt];
    destruct (hasRelevantExperience (workExperience candidateData)) eqn:Hb;
    (split; [|split; [|split; [|split]]]).
  all: try (intros H1 H2; try lia; try (split; reflexivity); try reflexivity;
            try (apply Hrel in H2; discriminate);
            try (exfalso; apply H2; now apply Hrel)).
  - exists 20, 10.
    split; [reflexivity | split; [left; lia | left; split; [reflexivity | now apply Hrel]]].
  - split; [lia | reflexivity].
  - exists 20, 0.
    split; [reflexivity | split; [left; lia | right; split; [reflexivity|]]].
    intros H. apply Hrel in H. discriminate.
  - split; [lia | reflexivity].
  - exists 0, 10.
    split; [reflexivity | split; [right; lia | left; split; [reflexivity | now apply Hrel]]].
  - split; [discriminate | lia].
  - exists 0, 0.
    split; [reflexivity | split; [right; lia | right; split; [reflexivity|]]].
    intros H. apply Hrel in H. discriminate.
  - split; [discriminate | lia].
Qed.


(** The skills category passes when the candidate has a skill whose
    lower-cased name is the lower-cased name of an entry of the evaluator's
    own list. *)
Lemma hasRequiredSkills_spec (skills : list Skill.t) :
  hasRequiredSkills skills = true
  <-> exists skill common,
        In skill skills /\ In common requiredSkillsList
        /\ toLowerCase (Skill.name skill) = toLowerCase common.
Proof.
  unfold hasRequiredSkills. rewrite existsb_exists. split.
  - intros [common [Hc H]]. apply Array_includes_spec in H. apply in_map_iff in H.
    destruct H as [skill [Heq Hs]]. exists skill, common. auto.
  - intros [skill [common [Hs [Hc Heq]]]]. exists common. split; [exact Hc|].
    apply Array_includes_spec. apply in_map_iff. exists skill. auto.
Qed.

(** C6.  The skills category passes exactly when the candidate has a skill
    whose lower-cased name is in the evaluator's own list of common skills,
    whatever the job requires; when it fails, the missing requirements
    contain "Missing required skills: " followed by the required skills
    whose lower-cased names the candidate lacks, separated by ", "; for the
    requirements JavaScript, React, Node.js these are all three. *)
Theorem skills_pass_and_missing (candidateData : ParsedResume)
        (jobRequirements : JobRequirements) :
  let features := extractEvaluationFeatures candidateData in
  let category := evaluateSkills features jobRequirements in
  let result := evaluateAgainstCriteria candidateData jobRequirements in
  let candidateNames :=
    map (fun skill => toLowerCase (Skill.name skill)) (skills candidateData) in
  (pass category = true
   <-> exists skill common,
         In skill (skills candidateData) /\ In common requiredSkillsList
         /\ toLowerCase (Skill.name skill) = toLowerCase common)
  /\ (pass category = false ->
      exists missingSkills listed,
        (forall skill, In skill missingSkills
                       <-> In skill (requiredSkills jobRequirements)
                           /\ ~ In (toLowerCase skill) candidateNames)
        /\ missingRequirements result = Some listed
        /\ In (js "Missing required skills: " ++ join (js ", ") missingSkills) listed)
  /\ (pass category = false ->
      requiredSkills jobRequirements = [js "JavaScript"; js "React"; js "Node.js"] ->
      exists listed,
        missingRequirements result = Some listed
        /\ In (js "Missing required skills: JavaScript, React, Node.js") listed).
Proof.
  intros features category result candidateNames.
  assert (Hpass : pass category = hasRequiredSkills (skills candidateData)) by reflexivity.
  assert (Hmissing :
            pass category = false ->
            In (js "Missing required skills: "
                ++ join (js ", ")
                     (filter (fun skill =>
                                negb (Array_includes candidateNames (toLowerCase skill)))
                             (requiredSkills jobRequirements)))
               (missing (performEvaluation features jobRequirements))).
  { intros Hf. rewrite performEvaluation_missing. fold category. rewrite Hf.
    apply in_or_app. right. apply in_or_app. left. left. reflexivity. }
  split; [|split].
  - rewrite Hpass. apply hasRequiredSkills_spec.
  - intros Hf.
    exists (filter (fun skill => negb (Array_includes candidateNames (toLowerCase skill)))
                   (requiredSkills jobRequirements)),
           (missing (performEvaluation features jobRequirements)).
    split; [|split; [reflexivity | exact (Hmissing Hf)]].
    intros skill. rewrite filter_In, negb_true_iff. split.
    + intros [Hin Hn]. split; [exact Hin|]. intros Hc.
      apply Array_includes_spec in Hc. congruence.
    + intros [Hin Hn]. split; [exact Hin|].
      destruct (Array_includes candidateNames (toLowerCase skill)) eqn:E; [|reflexivity].
      apply Array_includes_spec in E. contradiction.
  - intros Hf Hreq.
    exists (missing (performEvaluation features jobRequirements)).
    split; [reflexivity|].
    specialize (Hmissing Hf). rewrite Hreq in Hmissing.
    assert (Hnone : forall common, In common requiredSkillsList ->
                                   Array_includes candidateNames (toLowerCase common) = false).
    { intros common Hc.
      destruct (Array_includes candidateNames (toLowerCase common)) eqn:E; [|reflexivity].
      rewrite Hpass in Hf. unfold hasRequiredSkills in Hf. fold candidateNames in Hf.
      assert (Ht : existsb (fun skill => Array_includes candidateNames (toLowerCase skill))
                           requiredSkillsList = true)
        by (apply existsb_exists; exists common; auto).
      congruence. }
    cbn [filter] in Hmissing.
    rewrite !Hnone in Hmissing by (cbn; tauto).
    exact Hmissing.
Qed.

(** C5, as the code has it.  When the job requires no certifications
    ([requiredCertifications] absent or empty) the certifications category
    passes with the full 10 points for every candidate, and the reason
    [REASON_CERTIFICATIONS] (check mark, " Has relevant certifications") is
    among the match reasons. *)
Theorem certifications_not_required (candidateData : ParsedResume)
        (jobRequirements : JobRequirements) :
  requiredCertifications jobRequirements = None
  \/ requiredCertifications jobRequirements = Some [] ->
  let features := extractEvaluationFeatures candidateData in
  let category := evaluateCertifications features jobRequirements in
  pass category = true
  /\ score category = 10
  /\ In REASON_CERTIFICATIONS
        (matchReasons (evaluateAgainstCriteria candidateData jobRequirements)).
Proof.
  intros Hnone features category.
  assert (Hn : noCertificationsRequired jobRequirements = true)
    by (unfold noCertificationsRequired; destruct Hnone as [-> | ->]; reflexivity).
  assert (Hc : category = {| pass := true; score := 10 |})
    by (unfold category, evaluateCertifications; rewrite Hn; reflexivity).
  split; [rewrite Hc; reflexivity | split; [rewrite Hc; reflexivity|]].
  unfold evaluateAgainstCriteria. cbn [matchReasons].
  rewrite performEvaluation_reasons. fold features. fold category. rewrite Hc.
  cbn [pass]. rewrite !app_assoc. apply in_or_app. right. left. reflexivity.
Qed.

End EvaluatorProperties.

(** The illustrator has one year against three required, and only the
    description of the job mentions a keyword ('web'): the category fails
    and still earns the 10 points. *)
Lemma experience_points_witness :
  map (fun exp => (WorkExperience.title exp, WorkExperience.description exp))
      (workExperience sampleIllustrator)
  = [(js "Illustrator", Some (js "Drew icons for a Web shop"))]
  /\ ResumeEvaluator.pass
       (ResumeEvaluator.evaluateExperience
          (@ResumeEvaluator.extractEvaluationFeatures asciiOps sampleIllustrator)
          sampleRequirements) = false
  /\ ResumeEvaluator.score
       (ResumeEvaluator.evaluateExperience
          (@ResumeEvaluator.extractEvaluationFeatures asciiOps sampleIllustrator)
          sampleRequirements) = 10%Z.
Proof.
  split.
  - reflexivity.
  - apply (proj1 (proj2 (proj2 (@experience_points asciiOps sampleIllustrator
                                  sampleRequirements)))).
    + vm_compute. reflexivity.
    + eexists. split; [left; reflexivity|]. exists (js "web").
      split; [right; right; right; right; right; left; reflexivity|].
      right. exists (js "Drew icons for a Web shop"). split; [reflexivity|].
      exists (js "drew icons for a "), (js " shop"). reflexivity.
Defined.


(** The designer has none of the evaluator's common skills; against the
    requirements JavaScript, React, Node.js all three are reported. *)
Lemma skills_pass_and_missing_witness :
  exists listed,
    missingRequirements (@ResumeEvaluator.evaluateAgainstCriteria asciiOps sampleDesigner
                                                                  sampleRequirements)
    = Some listed
    /\ In (js "Missing required skills: JavaScript, React, Node.js") listed.
Proof.
  apply (@skills_pass_and_missing asciiOps sampleDesigner sampleRequirements);
    reflexivity.
Defined.

(** C5, counterexample.  The job of the sample requirements asks for no
    certifications and the candidate of the unit test has none; the reason
    for the certifications category is the fourth of the match reasons. *)
Lemma certifications_reason_is_added :
  requiredCertifications sampleRequirements = None
  /\ certifications sampleCandidate = []
  /\ matchReasons (@ResumeEvaluator.evaluateAgainstCriteria asciiOps sampleCandidate
                                                            sampleRequirements)
     = [CHECK_MARK :: js " 3 years of experience";
        CHECK_MARK :: js " Has required technical skills";
        CHECK_MARK :: js " Meets education requirements";
        CHECK_MARK :: js " Has relevant certifications"]
  /\ In (CHECK_MARK :: js " Has relevant certifications")
        (matchReasons (@ResumeEvaluator.evaluateAgainstCriteria asciiOps sampleCandidate
                                                                sampleRequirements)).
Proof.
  split; [reflexivity | split; [reflexivity | split; [reflexivity|]]].
  right. right. right. left. reflexivity.
Qed.

(** The same with [requiredCertifications: []], as the unit tests write
    it: ten points, and the reason. *)
Lemma certifications_not_required_witness :
  ResumeEvaluator.pass
    (ResumeEvaluator.evaluateCertifications
       (@ResumeEvaluator.extractEvaluationFeatures asciiOps sampleDesigner)
       sampleRequirementsNoCerts) = true
  /\ ResumeEvaluator.score
       (ResumeEvaluator.evaluateCertifications
          (@ResumeEvaluator.extractEvaluationFeatures asciiOps sampleDesigner)
          sampleRequirementsNoCerts) = 10%Z
  /\ In ResumeEvaluator.REASON_CERTIFICATIONS
        (matchReasons (@ResumeEvaluator.evaluateAgainstCriteria asciiOps sampleDesigner
                                                                sampleRequirementsNoCerts)).
Proof.
  apply (@certifications_not_required asciiOps sampleDesigner sampleRequirementsNoCerts).
  right. reflexivity.
Defined.

(** ** The parser: whitespace and sections *)

Section ParserProperties.
Context {ops : StringOps} {host : Host}.
Import ResumeParser.

Lemma isWhiteSpace_NEWLINE : isWhiteSpace NEWLINE = true.
Proof. reflexivity. Qed.

(** After [replace(/\s+/g, ' ')] no line terminator is left. *)
Lemma replaceRuns_whitespace_no_newline (inRun : bool) (s : jsstring) :
  ~ In NEWLINE (replaceRunsFrom isWhiteSpace SPACE inRun s).
Proof.
  revert inRun. induction s as [|c s IH]; intros inRun; simpl.
  - tauto.
  - destruct (isWhiteSpace c) eqn:Hc.
    + destruct inRun; [apply IH|]. simpl. intros [H | H]; [discriminate | exact (IH _ H)].
    + simpl. intros [H | H]; [|exact (IH _ H)].
      subst c. rewrite isWhiteSpace_NEWLINE in Hc. discriminate.
Qed.

(** [replace(/\n+/g, '\n')] leaves a text without newlines as it is. *)
Lemma replaceRuns_newline_id (inRun : bool) (s : jsstring) :
  ~ In NEWLINE s -> replaceRunsFrom isNewline NEWLINE inRun s = s.
Proof.
  revert inRun. induction s as [|c s IH]; intros inRun Hn; simpl.
  - reflexivity.
  - unfold isNewline at 1. destruct (N.eqb_spec c NEWLINE) as [-> | Hc].
    + exfalso. apply Hn. left. reflexivity.
    + f_equal. apply IH. intros H. apply Hn. right. exact H.
Qed.

Lemma trimStart_incl (s : jsstring) (c : N) : In c (trimStart s) -> In c s.
Proof.
  induction s as [|d s IH]; simpl; [tauto|].
  destruct (isWhiteSpace d); [intros H; right; exact (IH H) | tauto].
Qed.

Lemma trim_incl (s : jsstring) (c : N) : In c (trim s) -> In c s.
Proof.
  unfold trim, trimEnd. intros H.
  apply in_rev in H. apply trimStart_incl in H. apply in_rev in H.
  apply trimStart_incl in H. exact H.
Qed.

Lemma normalizeText_no_newline (text : jsstring) : ~ In NEWLINE (normalizeText text).
Proof.
  unfold normalizeText, replaceRuns. intros H. apply trim_incl in H.
  rewrite replaceRuns_newline_id in H by apply replaceRuns_whitespace_no_newline.
  exact (replaceRuns_whitespace_no_newline _ _ H).
Qed.

Lemma split_no_separator (sep : N) (s : jsstring) : ~ In sep s -> split sep s = [s].
Proof.
  induction s as [|c s IH]; intros Hn; simpl.
  - reflexivity.
  - destruct (N.eqb_spec c sep) as [-> | Hc].
    + exfalso. apply Hn. left. reflexivity.
    + rewrite IH by (intros H; apply Hn; right; exact H). reflexivity.
Qed.

(** On a text of one line the loop of [extractSection] collects nothing:
    the line either opens the section and is skipped, or lies outside it. *)
Lemma scanLines_single_line (keywords : list jsstring) (line : jsstring) :
  scanLines keywords [line] false [] = [].
Proof.
  simpl. destruct (existsb _ keywords); reflexivity.
Qed.

Lemma extractSection_normalized (text : jsstring) (keywords : list jsstring) :
  extractSection (normalizeText text) keywords = None.
Proof.
  unfold extractSection.
  rewrite split_no_separator by apply normalizeText_no_newline.
  rewrite scanLines_single_line. reflexivity.
Qed.

Lemma parseRawResume_value (rawText : jsstring) :
  parseRawResume rawText
  = Ok (VObj [("fullName"%string, extractFullName (normalizeText rawText));
              ("email"%string, extractEmail (normalizeText rawText));
              ("phone"%string, extractPhone (normalizeText rawText));
              ("education"%string, VArr []);
              ("workExperience"%string, VArr []);
              ("skills"%string, VArr []);
              ("certifications"%string, VArr []);
              ("rawText"%string, VStr rawText)]).
Proof.
  unfold parseRawResume, extractEducation, extractWorkExperience, extractSkills,
    extractCertifications.
  rewrite !extractSection_normalized. reflexivity.
Qed.

(** C2.  For every raw-text input the profile [parseResume] returns has
    empty [education], [workExperience], [skills] and [certifications]:
    the normalized text holds no newline, so [extractSection] sees one
    line and returns [null] for every list of keywords. *)
Theorem raw_text_lists_are_empty (text : jsstring) :
  ~ In NEWLINE (normalizeText text)
  /\ split NEWLINE (normalizeText text) = [normalizeText text]
  /\ (forall keywords, extractSection (normalizeText text) keywords = None)
  /\ extractEducation (normalizeText text) = Ok (VArr [])
  /\ extractWorkExperience (normalizeText text) = Ok (VArr [])
  /\ extractSkills (normalizeText text) = Ok (VArr [])
  /\ extractCertifications (normalizeText text) = VArr []
  /\ exists profile,
       parseResume (VStr text) = Ok profile
       /\ prop profile "education" = VArr []
       /\ prop profile "workExperience" = VArr []
       /\ prop profile "skills" = VArr []
       /\ prop profile "certifications" = VArr [].
Proof.
  split; [apply normalizeText_no_newline|].
  split; [apply split_no_separator, normalizeText_no_newline|].
  split; [intros keywords; apply extractSection_normalized|].
  unfold extractEducation, extractWorkExperience, extractSkills, extractCertifications.
  rewrite !extractSection_normalized.
  repeat (split; [reflexivity|]).
  eexists. split.
  - cbn [parseResume typeof]. apply parseRawResume_value.
  - repeat split.
Qed.

(** ** The parser: the structured path and the dispatch *)

Lemma mapM_isOk {A B : Type} (f : A -> result B) (l : list A) :
  isOk (mapM f l) = forallb (fun x => isOk (f x)) l.
Proof.
  induction l as [|x l IH]; simpl; [reflexivity|].
  destruct (f x); simpl; [|reflexivity].
  rewrite <- IH. destruct (mapM f l); reflexivity.
Qed.

Lemma mapM_Throw {A B : Type} (f : A -> result B) (l : list A) (e : thrown) :
  mapM f l = Throw e -> exists x, In x l /\ f x = Throw e.
Proof.
  induction l as [|x l IH]; simpl; [discriminate|].
  destruct (f x) eqn:Hx; simpl.
  - destruct (mapM f l) eqn:Hl; simpl; [discriminate|].
    intros H. injection H as <-. destruct (IH eq_refl) as [y [Hy Hf]].
    exists y. auto.
  - intros H. injection H as <-. exists x. auto.
Qed.

Lemma forallb_pointwise {A : Type} (f g : A -> bool) (l : list A) :
  (forall x, f x = g x) -> forallb f l = forallb g l.
Proof.
  intros H. induction l as [|x l IH]; simpl; [reflexivity|]. rewrite H, IH. reflexivity.
Qed.

Lemma Array_map_isOk (param : string) (v : JSValue) (f : JSValue -> result JSValue)
      (ok : JSValue -> bool) :
  (forall e, isOk (f e) = ok e) ->
  isOk (Array_map param v f) = arrayAll ok v.
Proof.
  intros Hf. destruct v; try reflexivity. simpl.
  pose proof (mapM_isOk f elems) as H. destruct (mapM f elems); simpl in *.
  - rewrite H. apply forallb_pointwise. exact Hf.
  - rewrite H. apply forallb_pointwise. exact Hf.
Qed.

(** Whatever [v.map(f)] throws is a [TypeError] when [f] throws nothing
    else. *)
Lemma Array_map_Throw (param : string) (v : JSValue) (f : JSValue -> result JSValue)
      (e : thrown) :
  (forall x e', f x = Throw e' -> exists message, e' = ErrorObject "TypeError" message) ->
  Array_map param v f = Throw e -> exists message, e = ErrorObject "TypeError" message.
Proof.
  intros Hf. destruct v; simpl; try (intros H; injection H as <-; eexists; reflexivity).
  destruct (mapM f elems) eqn:Hm; simpl; [discriminate|].
  intros H. injection H as <-. apply mapM_Throw in Hm. destruct Hm as [x [_ Hx]].
  exact (Hf _ _ Hx).
Qed.

Lemma normalizeEducation_entry_isOk (edu : JSValue) :
  isOk (normalizeEducation_entry edu) = objectCoercible edu.
Proof.
  unfold normalizeEducation_entry, objectCoercible. destruct (nullish edu); reflexivity.
Qed.

(** Only objects and arrays can fail to convert, and they are truthy. *)
Lemma falsy_converts (v : JSValue) : truthy v = false -> toStringThrows v = false.
Proof. destruct v; simpl; congruence. Qed.

Lemma parseInt_isOk (v : JSValue) : isOk (parseInt v) = negb (toStringThrows v).
Proof. unfold parseInt. destruct (toStringThrows v); reflexivity. Qed.

Lemma parseInt_Throw (v : JSValue) (e : thrown) :
  parseInt v = Throw e -> exists message, e = ErrorObject "TypeError" message.
Proof.
  unfold parseInt. destruct (toStringThrows v); [|discriminate].
  intros H. injection H as <-. eexists. reflexivity.
Qed.

Lemma calculateDuration_isOk (start end_ : JSValue) :
  isOk (calculateDuration start end_)
  = negb (toStringThrows start) && (negb (truthy start) || negb (toStringThrows end_)).
Proof.
  unfold calculateDuration.
  destruct (truthy start) eqn:Hs; simpl.
  - rewrite <- (parseInt_isOk start). destruct (parseInt start); simpl; [|reflexivity].
    destruct (truthy end_) eqn:He; simpl.
    + rewrite <- (parseInt_isOk end_). destruct (parseInt end_); reflexivity.
    + rewrite (falsy_converts _ He). reflexivity.
  - rewrite (falsy_converts _ Hs). reflexivity.
Qed.

Lemma calculateDuration_Throw (start end_ : JSValue) (e : thrown) :
  calculateDuration start end_ = Throw e -> exists message, e = ErrorObject "TypeError" message.
Proof.
  unfold calculateDuration. destruct (negb (truthy start)); [discriminate|].
  destruct (parseInt start) eqn:H1; simpl.
  - destruct (truthy end_); simpl; [|discriminate].
    destruct (parseInt end_) eqn:H2; simpl; [discriminate|].
    intros H. injection H as <-. exact (parseInt_Throw _ H2).
  - intros H. injection H as <-. exact (parseInt_Throw _ H1).
Qed.

Lemma normalizeWorkExperience_entry_isOk (exp : JSValue) :
  isOk (normalizeWorkExperience_entry exp) = experienceEntryOk exp.
Proof.
  unfold normalizeWorkExperience_entry, experienceEntryOk, objectCoercible.
  destruct (nullish exp); [reflexivity|]. simpl.
  destruct (truthy (prop exp "duration")); [reflexivity|]. simpl.
  rewrite <- calculateDuration_isOk.
  destruct (calculateDuration _ _); reflexivity.
Qed.

Lemma normalizeSkills_entry_isOk (skill : JSValue) :
  isOk (normalizeSkills_entry skill) = objectCoercible skill.
Proof. destruct skill; reflexivity. Qed.

Lemma normalizeCertifications_entry_isOk (cert : JSValue) :
  isOk (normalizeCertifications_entry cert) = objectCoercible cert.
Proof.
  unfold normalizeCertifications_entry, objectCoercible. destruct (nullish cert); reflexivity.
Qed.

Lemma normalize_entries_throw_TypeError (x : JSValue) (e : thrown) :
  normalizeEducation_entry x = Throw e \/ normalizeWorkExperience_entry x = Throw e
  \/ normalizeSkills_entry x = Throw e \/ normalizeCertifications_entry x = Throw e ->
  exists message, e = ErrorObject "TypeError" message.
Proof.
  unfold normalizeEducation_entry, normalizeWorkExperience_entry,
    normalizeCertifications_entry.
  intros [H | [H | [H | H]]].
  - destruct (nullish x); [|discriminate]. injection H as <-. eexists. reflexivity.
  - destruct (nullish x); [injection H as <-; eexists; reflexivity|].
    destruct (truthy (prop x "duration")); [discriminate|].
    destruct (calculateDuration _ _) eqn:Hd; [discriminate|].
    simpl in H. injection H as <-. exact (calculateDuration_Throw _ _ Hd).
  - destruct x; simpl in H; try discriminate; injection H as <-; eexists; reflexivity.
  - destruct (nullish x); [|discriminate]. injection H as <-. eexists. reflexivity.
Qed.

Lemma parseStructuredResume_isOk (data : JSValue) :
  isOk (parseStructuredResume data) = structuredListsOk data.
Proof.
  unfold parseStructuredResume, structuredListsOk, normalizeEducation,
    normalizeWorkExperience, normalizeSkills, normalizeCertifications.
  rewrite <- (@Array_map_isOk "education" _ _ _ normalizeEducation_entry_isOk).
  rewrite <- (@Array_map_isOk "experience" _ _ _ normalizeWorkExperience_entry_isOk).
  rewrite <- (@Array_map_isOk "skills" _ _ _ normalizeSkills_entry_isOk).
  rewrite <- (@Array_map_isOk "certifications" _ _ _ normalizeCertifications_entry_isOk).
  destruct (Array_map "education" _ _); simpl; [|reflexivity].
  destruct (Array_map "experience" _ _); simpl; [|reflexivity].
  destruct (Array_map "skills" _ _); simpl; [|reflexivity].
  destruct (Array_map "certifications" _ _); reflexivity.
Qed.

Lemma parseStructuredResume_Throw (data : JSValue) (e : thrown) :
  parseStructuredResume data = Throw e -> exists message, e = ErrorObject "TypeError" message.
Proof.
  unfold parseStructuredResume, normalizeEducation, normalizeWorkExperience,
    normalizeSkills, normalizeCertifications.
  destruct (Array_map "education" _ _) eqn:H1; simpl.
  2:{ intros H; injection H as <-. revert H1. apply Array_map_Throw.
      intros x e' Hx. apply (normalize_entries_throw_TypeError x). auto. }
  destruct (Array_map "experience" _ _) eqn:H2; simpl.
  2:{ intros H; injection H as <-. revert H2. apply Array_map_Throw.
      intros x e' Hx. apply (normalize_entries_throw_TypeError x). auto. }
  destruct (Array_map "skills" _ _) eqn:H3; simpl.
  2:{ intros H; injection H as <-. revert H3. apply Array_map_Throw.
      intros x e' Hx. apply (normalize_entries_throw_TypeError x). auto. }
  destruct (Array_map "certifications" _ _) eqn:H4; simpl; [discriminate|].
  intros H; injection H as <-. revert H4. apply Array_map_Throw.
  intros x e' Hx. apply (normalize_entries_throw_TypeError x). auto.
Qed.

(** C9, as the code has it.  [parseResume] throws its own error ("Invalid
    input format. Expected string or object.") exactly when the input is
    neither a string nor a non-null object; a string goes down the raw-text
    path, which always returns a profile; a non-null object goes down the
    structured path, which returns a profile exactly when each list-valued
    property it maps over is falsy or an array without [null] and
    [undefined] elements, whose work-experience entries have dates that
    [parseInt] can convert when it has to ([structuredListsOk]), and throws
    a [TypeError] otherwise. *)
Theorem parseResume_outcomes (input : JSValue) :
  (parseResume input = Throw INVALID_INPUT_FORMAT
   <-> typeof input <> T_string /\ (typeof input <> T_object \/ input = VNull))
  /\ (forall s, input = VStr s ->
                parseResume input = parseRawResume s
                /\ exists profile, parseResume input = Ok profile)
  /\ (typeof input = T_object -> input <> VNull ->
      parseResume input = parseStructuredResume input
      /\ ((exists profile, parseResume input = Ok profile) <-> structuredListsOk input = true)
      /\ (structuredListsOk input = false ->
          exists message, parseResume input = Throw (ErrorObject "TypeError" message))).
Proof.
  assert (Hobj : forall data, isOk (parseStructuredResume data) = false ->
                              exists message,
                                parseStructuredResume data
                                = Throw (ErrorObject "TypeError" message)).
  { intros data H. destruct (parseStructuredResume data) eqn:E; [discriminate|].
    destruct (parseStructuredResume_Throw _ E) as [message ->]. eauto. }
  assert (Hnot : forall data, parseStructuredResume data <> Throw INVALID_INPUT_FORMAT).
  { intros data H. destruct (parseStructuredResume_Throw _ H) as [message Hm].
    discriminate. }
  split; [|split].
  - destruct input; cbn [parseResume typeof isNull negb]; split;
      try (intros _; split; [discriminate | (left; discriminate) || (right; reflexivity)]);
      try reflexivity.
    + rewrite parseRawResume_value. discriminate.
    + intros [H _]. congruence.
    + intros H. exfalso. exact (Hnot _ H).
    + intros [_ [H | H]]; congruence.
    + intros H. exfalso. exact (Hnot _ H).
    + intros [_ [H | H]]; congruence.
  - intros s ->. cbn [parseResume typeof]. split; [reflexivity|].
    rewrite parseRawResume_value. eexists. reflexivity.
  - intros Ht Hn.
    assert (Hp : parseResume input = parseStructuredResume input)
      by (destruct input; try discriminate; try congruence; reflexivity).
    rewrite Hp, <- parseStructuredResume_isOk. split; [reflexivity|]. split.
    + split.
      * intros [profile ->]. reflexivity.
      * destruct (parseStructuredResume input); [eauto | discriminate].
    + apply Hobj.
Qed.

End ParserProperties.

(** C9, counterexample.  A non-null object whose [skills] is a string
    makes [parseResume] throw: strings have no [map]. *)
Lemma parseResume_throws_on_object :
  typeof malformedStructuredInput = T_object
  /\ malformedStructuredInput <> VNull
  /\ forall (ops : StringOps) (host : Host),
       ResumeParser.parseResume malformedStructuredInput
       = Throw (ErrorObject "TypeError" (js "skills.map is not a function")).
Proof.
  split; [reflexivity | split; [discriminate|]]. intros ops host. reflexivity.
Qed.

(** The structured input of the tests is well shaped, and is parsed. *)
Lemma parseResume_outcomes_witness :
  structuredListsOk sampleStructuredInput = true
  /\ forall (ops : StringOps) (host : Host),
       exists profile, ResumeParser.parseResume sampleStructuredInput = Ok profile.
Proof.
  split; [reflexivity|]. intros ops host.
  apply (@parseResume_outcomes ops host sampleStructuredInput);
    [reflexivity | discriminate | reflexivity].
Defined.

(** C7, at a failing input.  Two lines of a resume come out of
    [normalizeText] as one: the newline between them has become a space. *)
Lemma normalizeText_joins_lines :
  sampleRawText = js "EDUCATION" ++ [ResumeParser.NEWLINE] ++ js "Bachelor of Science"
  /\ ResumeParser.normalizeText sampleRawText = js "EDUCATION Bachelor of Science".
Proof.
  split; reflexivity.
Qed.

(** ** The orchestrator *)

Section OrchestratorProperties.
Import R1Agent.
Variable now : Z.

Lemma createErrorResult_isErrorResult (annotation : jsstring) (error : thrown)
      (fallback : jsstring) :
  isErrorResult (createErrorResult (annotation ++ messageOr error fallback)) annotation error.
Proof.
  unfold isErrorResult, createErrorResult; cbn.
  repeat (split; [reflexivity|]).
  eexists. split; [reflexivity|].
  intros name message ->. split; [reflexivity|].
  exists annotation, []. cbn [messageOr]. rewrite app_nil_r. reflexivity.
Qed.

(** C3.  [runR1] always returns a screening result and never throws.  When
    the parser, the feature extractor or the evaluator throws, what it
    returns is the error result: 'fail', confidence 0, the 'Unknown'
    placeholder profile, and an error message that carries the stage's
    annotation followed by the message of the error thrown.  When no stage
    throws, it returns the evaluator's result. *)
Theorem runR1_never_throws (this : R1Agent.t) (resumeInput : ResumeInput.t)
        (jobRequirements : JobRequirements) :
  exists result this',
    runR1 now resumeInput jobRequirements this = (Ok result, this')
    /\ (forall error,
          parser this (ResumeInput.content resumeInput) = Throw error ->
          isErrorResult result (js "Failed to parse resume: ") error)
    /\ (forall parsedResume error,
          parser this (ResumeInput.content resumeInput) = Ok parsedResume ->
          featureExtractor_extractFeatures this parsedResume = Throw error ->
          isErrorResult result (js "Failed to extract features: ") error)
    /\ (forall parsedResume extractedFeatures error,
          parser this (ResumeInput.content resumeInput) = Ok parsedResume ->
          featureExtractor_extractFeatures this parsedResume = Ok extractedFeatures ->
          evaluator_evaluateAgainstCriteria this parsedResume jobRequirements = Throw error ->
          isErrorResult result (js "Failed to evaluate candidate: ") error)
    /\ (forall parsedResume extractedFeatures screeningResult,
          parser this (ResumeInput.content resumeInput) = Ok parsedResume ->
          featureExtractor_extractFeatures this parsedResume = Ok extractedFeatures ->
          evaluator_evaluateAgainstCriteria this parsedResume jobRequirements
          = Ok screeningResult ->
          result = screeningResult).
Proof.
  unfold runR1, tryCatch, andThen, parseResume, extractFeatures, evaluateAgainstCriteria,
    tryCatch, andThen, logError, logScreeningActivity, throw, ret.
  cbn [parser featureExtractor_extractFeatures evaluator_evaluateAgainstCriteria
       set_errors errors].
  assert (Hp : (match ResumeInput.type resumeInput with
                | ResumeInput.raw =>
                    (parser this (ResumeInput.content resumeInput), set_errors this [])
                | ResumeInput.structured =>
                    (parser this (ResumeInput.content resumeInput), set_errors this [])
                end)
               = (parser this (ResumeInput.content resumeInput), set_errors this []))
    by (destruct (ResumeInput.type resumeInput); reflexivity).
  unfold set_errors in Hp |- *. cbn [parser] in Hp |- *. rewrite Hp. clear Hp.
  destruct (parser this (ResumeInput.content resumeInput)) as [parsedResume | e1] eqn:H1.
  - cbn [parser featureExtractor_extractFeatures evaluator_evaluateAgainstCriteria errors].
    destruct (featureExtractor_extractFeatures this parsedResume)
      as [extractedFeatures | e2] eqn:H2.
    + cbn [parser featureExtractor_extractFeatures evaluator_evaluateAgainstCriteria errors].
      destruct (evaluator_evaluateAgainstCriteria this parsedResume jobRequirements)
        as [screeningResult | e3] eqn:H3.
      * do 2 eexists. split; [reflexivity|].
        repeat split; intros; congruence.
      * do 2 eexists. split; [reflexivity|].
        split; [intros; congruence|]. split; [intros; congruence|].
        split; [|intros; congruence].
        intros p f error Hp Hf He.
        assert (error = e3) by congruence. subst error.
        apply createErrorResult_isErrorResult.
    + do 2 eexists. split; [reflexivity|].
      split; [intros; congruence|].
      split; [|split; intros; congruence].
      intros p error Hp He.
      assert (error = e2) by congruence. subst error.
      apply createErrorResult_isErrorResult.
  - do 2 eexists. split; [reflexivity|].
    split; [|repeat split; intros; congruence].
    intros error He. injection He as <-.
    apply createErrorResult_isErrorResult.
Qed.

End OrchestratorProperties.

(** An agent whose parser throws "Invalid input format. Expected string or
    object." returns the error result that reports it. *)
Lemma runR1_never_throws_witness :
  exists result this',
    R1Agent.runR1 0 sampleResumeInput sampleRequirements sampleFailingAgent
    = (Ok result, this')
    /\ isErrorResult result (js "Failed to parse resume: ")
                     ResumeParser.INVALID_INPUT_FORMAT.
Proof.
  destruct (runR1_never_throws 0 sampleFailingAgent sampleResumeInput sampleRequirements)
    as [result [this' [Hrun [Hparse _]]]].
  exists result, this'. split; [exact Hrun|]. apply Hparse. reflexivity.
Defined.

(** ** Further properties of the feature extractor and the evaluator *)

Lemma Math_round_percent (k d : Z) :
  (0 < d)%Z ->
  Math_round (inject_Z k / inject_Z d * 100) = ((200 * k + d) / (2 * d))%Z.
Proof.
  intros Hd. unfold Math_round, Qfloor, Qdiv, Qmult, Qplus, Qinv, inject_Z.
  destruct d as [|d|d]; try lia. simpl Qnum. simpl Qden.
  f_equal; lia.
Qed.

Lemma filter_length_bound {A : Type} (f : A -> bool) (l : list A) :
  (List.length (filter f l) <= List.length l)%nat.
Proof.
  induction l as [|x l IH]; simpl; [lia|]. destruct (f x); simpl; lia.
Qed.

(** The skill-match percentage of the feature extractor lies between 0 and
    100, and is 0 for a candidate without skills. *)
Theorem skillMatchPercentage_range {ops : StringOps} (skills : list Skill.t) :
  (0 <= FeatureExtractor.calculateSkillMatch skills <= 100)%Z
  /\ FeatureExtractor.calculateSkillMatch [] = 0%Z.
Proof.
  assert (Hgen : forall names : list jsstring,
             (0 <= Math_round
                     (inject_Z (Z.of_nat (List.length
                        (filter (fun skill => Array_includes names (toLowerCase skill))
                                FeatureExtractor.allSkills)))
                      / inject_Z (Z.of_nat (List.length FeatureExtractor.allSkills)) * 100)
              <= 100)%Z).
  { intros names.
    pose proof (filter_length_bound
                  (fun skill => Array_includes names (toLowerCase skill))
                  FeatureExtractor.allSkills) as Hle.
    change (List.length FeatureExtractor.allSkills) with 32%nat in *.
    rewrite Math_round_percent by lia.
    split.
    - apply Z.div_pos; lia.
    - match goal with
      | |- (?a / ?b <= 100)%Z =>
          assert (a / b < 101)%Z by (apply Z.div_lt_upper_bound; lia); lia
      end. }
  split.
  - apply Hgen.
  - clear Hgen. unfold FeatureExtractor.calculateSkillMatch. simpl map.
    assert (Hnone : forall l : list jsstring,
               filter (fun skill => Array_includes [] (toLowerCase skill)) l = [])
      by (induction l as [|x l IH]; [reflexivity | simpl; exact IH]).
    rewrite Hnone. reflexivity.
Qed.

(** The candidate of the evaluator's unit test passes with confidence
    0.85, and the reason for the skills category is among the reasons. *)
Theorem unit_test_candidate_passes :
  let result := @ResumeEvaluator.evaluateAgainstCriteria asciiOps sampleCandidate
                                                         sampleRequirementsNoCerts in
  screeningResult result = pass_
  /\ (confidenceScore result == 85 # 100)%Q
  /\ In ResumeEvaluator.REASON_SKILLS (matchReasons result)
  /\ missingRequirements result = Some [].
Proof.
  split; [reflexivity | split; [reflexivity | split; [|reflexivity]]].
  right. left. reflexivity.
Qed.

(** ** The evaluator: education levels *)

Section EducationProperties.
Context {ops : StringOps}.
Local Open Scope Z_scope.

Lemma determineEducationLevel_fold (education : list Education.t) :
  ResumeEvaluator.determineEducationLevel education
  = if (List.length education =? 0)%nat then high_school
    else fst (fold_left educationStep education (high_school, 1)).
Proof. reflexivity. Qed.

Lemma levelHierarchy_injective (a b : DegreeLevel) :
  levelHierarchy a = levelHierarchy b -> a = b.
Proof. destruct a, b; simpl; intros H; try reflexivity; discriminate. Qed.

Lemma levelHierarchy_range (a : DegreeLevel) : 1 <= levelHierarchy a <= 5.
Proof. destruct a; simpl; lia. Qed.

(** A turn of the loop keeps the level and its rank together and raises
    them to the rank of the degree read, if that is higher. *)
Lemma educationStep_rank (level : DegreeLevel) (edu : Education.t) :
  exists level',
    educationStep (level, levelHierarchy level) edu = (level', levelHierarchy level')
    /\ levelHierarchy level'
       = Z.max (levelHierarchy (classifyDegree (Education.degree edu)))
               (levelHierarchy level).
Proof.
  unfold educationStep, classifyDegree.
  pose proof (levelHierarchy_range level) as Hr.
  set (degree := toLowerCase (Education.degree edu)).
  destruct (String_includes degree (js "phd") || String_includes degree (js "doctorate")).
  { destruct (Z.gtb_spec (levelHierarchy phd) (levelHierarchy level));
      [exists phd | exists level]; split; try reflexivity; simpl in *; lia. }
  destruct (String_includes degree (js "master") || String_includes degree (js "ms")
            || String_includes degree (js "ma")).
  { destruct (Z.gtb_spec (levelHierarchy master) (levelHierarchy level));
      [exists master | exists level]; split; try reflexivity; simpl in *; lia. }
  destruct (String_includes degree (js "bachelor") || String_includes degree (js "bs")
            || String_includes degree (js "ba")).
  { destruct (Z.gtb_spec (levelHierarchy bachelor) (levelHierarchy level));
      [exists bachelor | exists level]; split; try reflexivity; simpl in *; lia. }
  destruct (String_includes degree (js "associate") || String_includes degree (js "aa")
            || String_includes degree (js "as")).
  { destruct (Z.gtb_spec (levelHierarchy associate) (levelHierarchy level));
      [exists associate | exists level]; split; try reflexivity; simpl in *; lia. }
  exists level. split; [reflexivity | simpl; lia].
Qed.

Lemma fold_educationStep_rank (education : list Education.t) (level : DegreeLevel) :
  exists level',
    fold_left educationStep education (level, levelHierarchy level)
    = (level', levelHierarchy level')
    /\ levelHierarchy level' = Z.max (levelHierarchy level) (highestRank education).
Proof.
  revert level. induction education as [|edu education IH]; intros level.
  - exists level. split; [reflexivity|]. pose proof (levelHierarchy_range level).
    unfold highestRank; simpl. lia.
  - destruct (educationStep_rank level edu) as [level1 [H1 R1]].
    destruct (IH level1) as [level2 [H2 R2]].
    exists level2. cbn [fold_left]. rewrite H1, H2. split; [reflexivity|].
    rewrite R2, R1. unfold highestRank; simpl. fold (highestRank education). lia.
Qed.

Lemma determineEducationLevel_rank (education : list Education.t) :
  levelHierarchy (ResumeEvaluator.determineEducationLevel education) = highestRank education.
Proof.
  rewrite determineEducationLevel_fold. destruct education as [|edu education].
  - reflexivity.
  - cbn [List.length Nat.eqb].
    destruct (fold_educationStep_rank (edu :: education) high_school) as [level' [H R]].
    change (high_school, 1) with (high_school, levelHierarchy high_school).
    rewrite H. cbn [fst]. rewrite R.
    assert (1 <= highestRank (edu :: education)).
    { unfold highestRank; simpl.
      pose proof (levelHierarchy_range (classifyDegree (Education.degree edu))). lia. }
    simpl levelHierarchy. lia.
Qed.

Lemma highestRank_cons (edu : Education.t) (l : list Education.t) :
  highestRank (edu :: l)
  = Z.max (levelHierarchy (classifyDegree (Education.degree edu))) (highestRank l).
Proof. reflexivity. Qed.

Lemma highestRank_least (l : list Education.t) : 1 <= highestRank l.
Proof.
  induction l as [|edu l IH]; [unfold highestRank; simpl; lia|].
  rewrite highestRank_cons. lia.
Qed.

Lemma highestRank_app (a b : list Education.t) :
  highestRank (a ++ b) = Z.max (highestRank a) (highestRank b).
Proof.
  induction a as [|edu a IH].
  - pose proof (highestRank_least b). change (highestRank []) with 1. simpl app. lia.
  - simpl app. rewrite !highestRank_cons, IH. lia.
Qed.

Lemma highestRank_Permutation (a b : list Education.t) :
  Permutation a b -> highestRank a = highestRank b.
Proof.
  induction 1 as [| x l l' _ IH | x y l | l l' l'' _ IH1 _ IH2].
  - reflexivity.
  - rewrite !highestRank_cons. lia.
  - rewrite !highestRank_cons. lia.
  - congruence.
Qed.

(** The education level is the highest level any degree of the list
    stands for ([high_school] for the empty list): it does not depend on
    the order of the entries, never falls when entries are added, and is
    what the feature extractor's copy of the function computes. *)
Theorem educationLevel_is_highest_degree (education more : list Education.t) :
  levelHierarchy (ResumeEvaluator.determineEducationLevel education) = highestRank education
  /\ (forall reordered,
        Permutation education reordered ->
        ResumeEvaluator.determineEducationLevel reordered
        = ResumeEvaluator.determineEducationLevel education)
  /\ levelHierarchy (ResumeEvaluator.determineEducationLevel education)
     <= levelHierarchy (ResumeEvaluator.determineEducationLevel (education ++ more))
  /\ FeatureExtractor.determineEducationLevel education
     = ResumeEvaluator.determineEducationLevel education.
Proof.
  split; [apply determineEducationLevel_rank|]. split; [|split; [|reflexivity]].
  - intros reordered Hp. apply levelHierarchy_injective.
    rewrite !determineEducationLevel_rank. symmetry. apply highestRank_Permutation, Hp.
  - rewrite !determineEducationLevel_rank, highestRank_app. lia.
Qed.

(** The education category passes exactly when the highest degree of the
    profile ranks at least as high as the required minimum degree; so it
    always passes when [high_school] is required, and a profile that
    passes still passes with more education entries. *)
Theorem education_pass_iff_rank (candidateData : ParsedResume)
        (jobRequirements : JobRequirements) :
  let category :=
    ResumeEvaluator.evaluateEducation
      (ResumeEvaluator.extractEvaluationFeatures candidateData) jobRequirements in
  let required := levelHierarchy (minimumDegree (requiredEducation jobRequirements)) in
  (ResumeEvaluator.pass category = true <-> required <= highestRank (education candidateData))
  /\ (minimumDegree (requiredEducation jobRequirements) = high_school ->
      ResumeEvaluator.pass category = true /\ 15 <= ResumeEvaluator.score category)
  /\ (forall more : list Education.t,
        ResumeEvaluator.pass category = true ->
        required <= highestRank (education candidateData ++ more)).
Proof.
  intros category required.
  assert (Hpass : ResumeEvaluator.pass category = true
                  <-> required <= highestRank (education candidateData)).
  { unfold category, ResumeEvaluator.evaluateEducation,
      ResumeEvaluator.extractEvaluationFeatures.
    cbn [ResumeEvaluator.pass ResumeEvaluator.Features.educationLevel].
    rewrite <- determineEducationLevel_rank. fold required.
    pose proof (levelHierarchy_range
                  (ResumeEvaluator.determineEducationLevel (education candidateData))) as H1.
    pose proof (levelHierarchy_range (minimumDegree (requiredEducation jobRequirements)))
      as H2.
    fold required in H2. unfold orZero.
    destruct (Z.eqb_spec
                (levelHierarchy
                   (ResumeEvaluator.determineEducationLevel (education candidateData))) 0);
      [lia|].
    destruct (Z.eqb_spec required 0); [lia|].
    rewrite Z.geb_le. reflexivity. }
  split; [exact Hpass | split].
  - intros Hhs.
    assert (Hp : ResumeEvaluator.pass category = true).
    { apply Hpass. unfold required. rewrite Hhs. simpl.
      rewrite <- determineEducationLevel_rank. apply levelHierarchy_range. }
    split; [exact Hp|].
    revert Hp. unfold category, ResumeEvaluator.evaluateEducation.
    cbn [ResumeEvaluator.pass ResumeEvaluator.score]. intros ->.
    destruct (ResumeEvaluator.Features.hasRelevantEducation _); simpl; lia.
  - intros more Hp. apply Hpass in Hp. rewrite highestRank_app. lia.
Qed.

End EducationProperties.

(** A requirement of [high_school] is met by the designer, who lists no
    education at all. *)
Lemma education_pass_iff_rank_witness :
  ResumeEvaluator.pass
    (ResumeEvaluator.evaluateEducation
       (@ResumeEvaluator.extractEvaluationFeatures asciiOps sampleDesigner)
       (mkJobRequirements 0 [] [] (mkRequiredEducation high_school None) None None)) = true.
Proof.
  apply (@education_pass_iff_rank asciiOps sampleDesigner
           (mkJobRequirements 0 [] [] (mkRequiredEducation high_school None) None None)).
  reflexivity.
Defined.

(** Reordering two degrees leaves the level as it is. *)
Lemma educationLevel_is_highest_degree_witness :
  @ResumeEvaluator.determineEducationLevel asciiOps
    [Education.mk (js "PhD in Physics") (js "A") None None None;
     Education.mk (js "Bachelor of Arts") (js "B") None None None]
  = @ResumeEvaluator.determineEducationLevel asciiOps
      [Education.mk (js "Bachelor of Arts") (js "B") None None None;
       Education.mk (js "PhD in Physics") (js "A") None None None].
Proof.
  exact (proj1 (proj2 (@educationLevel_is_highest_degree asciiOps
                         [Education.mk (js "Bachelor of Arts") (js "B") None None None;
                          Education.mk (js "PhD in Physics") (js "A") None None None] []))
               _ (perm_swap _ _ _)).
Defined.

(** ** The evaluator: skills, the two lists of strings, the report *)

Section ScoringProperties.
Context {ops : StringOps}.
Import ResumeEvaluator.
Local Open Scope Z_scope.

Lemma analyzeSkillMatch_percentage (skills : list Skill.t) :
  percentage (analyzeSkillMatch skills)
  = 4 * Z.of_nat (List.length (matched (analyzeSkillMatch skills))).
Proof.
  unfold analyzeSkillMatch. cbn [percentage matched].
  change (List.length allSkills) with 25%nat.
  rewrite Math_round_percent by lia.
  set (k := Z.of_nat (List.length _)).
  replace (200 * k + Z.of_nat 25) with (25 + k * 4 * (2 * Z.of_nat 25)) by lia.
  rewrite Z.div_add by lia. change (25 / (2 * Z.of_nat 25)) with 0. lia.
Qed.

(** The skill-match percentage of the evaluator is four times the number
    of entries of its 25-entry vocabulary that the candidate holds, so the
    15 bonus points of the skills category take 13 of them; the 25 points
    for a required skill are counted apart. *)
Theorem skills_bonus_takes_13 (candidateData : ParsedResume)
        (jobRequirements : JobRequirements) :
  let features := extractEvaluationFeatures candidateData in
  let held := List.length (matched (Features.skillMatch features)) in
  percentage (Features.skillMatch features) = 4 * Z.of_nat held
  /\ (held <= 25)%nat
  /\ (forall skill, In skill (matched (Features.skillMatch features))
                    <-> In skill allSkills
                        /\ In (toLowerCase skill) (Features.candidateSkillNames features))
  /\ score (evaluateSkills features jobRequirements)
     = (if hasRequiredSkills (skills candidateData) then 25 else 0)
       + (if (13 <=? held)%nat then 15 else 0).
Proof.
  intros features held.
  assert (Hpct : percentage (Features.skillMatch features) = 4 * Z.of_nat held)
    by apply analyzeSkillMatch_percentage.
  split; [exact Hpct|]. split; [|split].
  - unfold held, features, extractEvaluationFeatures, analyzeSkillMatch.
    cbn [Features.skillMatch matched].
    change 25%nat with (List.length allSkills). apply filter_length_bound.
  - intros skill. unfold features, extractEvaluationFeatures, analyzeSkillMatch.
    cbn [Features.skillMatch matched Features.candidateSkillNames].
    rewrite filter_In, Array_includes_spec. reflexivity.
  - unfold evaluateSkills. cbn [score]. rewrite Hpct.
    change (Features.hasRequiredSkills features)
      with (hasRequiredSkills (skills candidateData)).
    destruct (hasRequiredSkills (skills candidateData));
      destruct (Nat.leb_spec 13 held); destruct (Z.geb_spec (4 * Z.of_nat held) 50);
      simpl; lia.
Qed.

Lemma performEvaluation_errors (f : Features.t) (r : JobRequirements) :
  errors (performEvaluation f r) = [].
Proof.
  unfold performEvaluation.
  destruct (pass (evaluateExperience f r)), (pass (evaluateSkills f r)),
    (pass (evaluateEducation f r)), (pass (evaluateCertifications f r));
    try reflexivity;
    destruct (negb (noCertificationsRequired r)); reflexivity.
Qed.

(** Every category leaves exactly one string, a reason when it passes and
    a missing requirement when it fails: the two lists of a screening
    result hold four strings between them. *)
Theorem reasons_and_missing_count_four (candidateData : ParsedResume)
        (jobRequirements : JobRequirements) :
  let result := evaluateAgainstCriteria candidateData jobRequirements in
  exists missing,
    missingRequirements result = Some missing
    /\ (List.length (matchReasons result) + List.length missing = 4)%nat
    /\ errorMessages result = Some [].
Proof.
  intros result. exists (ResumeEvaluator.missing
                           (performEvaluation (extractEvaluationFeatures candidateData)
                                              jobRequirements)).
  split; [reflexivity|].
  split; [|unfold result, evaluateAgainstCriteria; cbn [errorMessages];
           rewrite performEvaluation_errors; reflexivity].
  unfold result, evaluateAgainstCriteria. cbn [matchReasons].
  rewrite performEvaluation_reasons, performEvaluation_missing.
  set (f := extractEvaluationFeatures candidateData).
  assert (Hc : pass (evaluateCertifications f jobRequirements) = false ->
               negb (noCertificationsRequired jobRequirements) = true).
  { unfold evaluateCertifications.
    destruct (noCertificationsRequired jobRequirements); [discriminate | reflexivity]. }
  destruct (pass (evaluateExperience f jobRequirements)),
    (pass (evaluateSkills f jobRequirements)),
    (pass (evaluateEducation f jobRequirements)),
    (pass (evaluateCertifications f jobRequirements));
    try rewrite (Hc eq_refl); reflexivity.
Qed.

Lemma screeningResult_pass_iff (candidateData : ParsedResume)
      (jobRequirements : JobRequirements) :
  screeningResult (evaluateAgainstCriteria candidateData jobRequirements) = pass_
  <-> 70 <= earnedPoints candidateData jobRequirements.
Proof.
  unfold evaluateAgainstCriteria. cbn [screeningResult].
  rewrite performEvaluation_pass, performEvaluation_confidence.
  fold (earnedPoints candidateData jobRequirements).
  set (points := earnedPoints candidateData jobRequirements).
  destruct (Qle_bool (7 # 10) (inject_Z points / inject_Z 100)) eqn:E.
  - apply Qle_bool_iff in E. unfold Qle, Qdiv, Qmult, Qinv, inject_Z in E.
    simpl in E. split; [intros _; lia | reflexivity].
  - split; [discriminate|]. intros H. exfalso.
    assert (Ht : Qle_bool (7 # 10) (inject_Z points / inject_Z 100) = true).
    { apply Qle_bool_iff. unfold Qle, Qdiv, Qmult, Qinv, inject_Z. simpl. lia. }
    congruence.
Qed.

(** A candidate who earns nothing in the skills category fails, whatever
    the other categories give: at most 60 points are left.  A candidate
    without skills is one. *)
Theorem no_skill_points_fails (candidateData : ParsedResume)
        (jobRequirements : JobRequirements) :
  let features := extractEvaluationFeatures candidateData in
  (skills candidateData = [] -> score (evaluateSkills features jobRequirements) = 0)
  /\ (score (evaluateSkills features jobRequirements) = 0 ->
      earnedPoints candidateData jobRequirements <= 60
      /\ screeningResult (evaluateAgainstCriteria candidateData jobRequirements) = fail_).
Proof.
  intros features. split.
  - intros Hs. unfold features, evaluateSkills, extractEvaluationFeatures.
    cbn [score Features.hasRequiredSkills Features.skillMatch]. rewrite Hs. reflexivity.
  - intros H0.
    assert (Hle : earnedPoints candidateData jobRequirements <= 60).
    { unfold earnedPoints. fold features. rewrite H0.
      pose proof (evaluateExperience_range features jobRequirements).
      pose proof (evaluateEducation_range features jobRequirements).
      pose proof (evaluateCertifications_range features jobRequirements). lia. }
    split; [exact Hle|].
    destruct (screeningResult (evaluateAgainstCriteria candidateData jobRequirements))
      eqn:E; [|reflexivity].
    apply screeningResult_pass_iff in E. lia.
Qed.

End ScoringProperties.

(** ** The feature extractor's fixed requirements, completeness, the report *)

Section ExtractorProperties.
Context {ops : StringOps}.
Local Open Scope Z_scope.

(** The checks of the feature extractor do not read the job: experience
    is met from 426 months on (the total in years is compared with 36; the
    months and their running totals being safe integers), education from a
    bachelor's degree on, certifications by a candidate without any or with
    one whose name contains a listed name, and the skills check is the
    evaluator's. *)
Theorem extractor_checks_are_fixed (parsedResume : ParsedResume) :
  let features := FeatureExtractor.extractFeatures parsedResume in
  (safeMonths (workExperience parsedResume) = true ->
   (ExtractedFeatures.meetsExperienceRequirement features = true
    <-> 426 <= sumDurations (workExperience parsedResume)))
  /\ (ExtractedFeatures.meetsEducationRequirement features = true
      <-> levelHierarchy bachelor <= highestRank (education parsedResume))
  /\ (ExtractedFeatures.hasRequiredCertifications features = true
      <-> certifications parsedResume = []
          \/ exists cert listed,
               In cert (certifications parsedResume)
               /\ In listed FeatureExtractor.requiredCerts
               /\ isSubstring (toLowerCase (Certification.name cert)) (toLowerCase listed))
  /\ ExtractedFeatures.hasRequiredSkills features
     = ResumeEvaluator.hasRequiredSkills (skills parsedResume).
Proof.
  intros features. split; [|split; [|split]].
  - intros _. unfold features, FeatureExtractor.extractFeatures,
      FeatureExtractor.checkExperienceRequirement.
    cbn [ExtractedFeatures.meetsExperienceRequirement].
    change (FeatureExtractor.calculateTotalExperience (workExperience parsedResume))
      with (ResumeEvaluator.calculateTotalExperience (workExperience parsedResume)).
    rewrite calculateTotalExperience_div, Z.geb_le.
    set (m := sumDurations (workExperience parsedResume)).
    change (3 * 12) with 36. split; intros H.
    + destruct (Z_lt_le_dec m 426) as [Hlt|]; [|assumption].
      assert ((2 * m + 12) / 24 < 36) by (apply Z.div_lt_upper_bound; lia). lia.
    + apply Z.div_le_lower_bound; lia.
  - unfold features, FeatureExtractor.extractFeatures,
      FeatureExtractor.checkEducationRequirement.
    cbn [ExtractedFeatures.meetsEducationRequirement].
    change (FeatureExtractor.determineEducationLevel (education parsedResume))
      with (ResumeEvaluator.determineEducationLevel (education parsedResume)).
    rewrite <- determineEducationLevel_rank.
    pose proof (levelHierarchy_range
                  (ResumeEvaluator.determineEducationLevel (education parsedResume))) as H1.
    unfold orZero.
    destruct (Z.eqb_spec
                (levelHierarchy
                   (ResumeEvaluator.determineEducationLevel (education parsedResume))) 0);
      [lia|].
    simpl (levelHierarchy bachelor). simpl (3 =? 0). cbv iota.
    rewrite Z.geb_le. reflexivity.
  - unfold features, FeatureExtractor.extractFeatures,
      FeatureExtractor.checkCertificationRequirement.
    cbn [ExtractedFeatures.hasRequiredCertifications].
    destruct (certifications parsedResume) as [|c cs] eqn:Ec.
    + split; [intros _; left; reflexivity | reflexivity].
    + cbn [List.length Nat.eqb]. rewrite existsb_exists. split.
      * intros [listed [Hl H]]. apply existsb_exists in H.
        destruct H as [name [Hn H]]. apply in_map_iff in Hn.
        destruct Hn as [cert [<- Hc]]. apply String_includes_spec in H.
        right. exists cert, listed. auto.
      * intros [H | [cert [listed [Hc [Hl H]]]]]; [discriminate|].
        exists listed. split; [exact Hl|]. apply existsb_exists.
        exists (toLowerCase (Certification.name cert)). split.
        -- apply in_map_iff. exists cert. auto.
        -- apply String_includes_spec. exact H.
  - reflexivity.
Qed.

(** The completeness score is 10 for a name other than 'Unknown', 5 each
    for an e-mail address and a telephone number, and 30, 20, 20 and 10
    for a non-empty work history, education, skills and certifications:
    it never exceeds 100, so the cap at 100 changes nothing; it is 100
    exactly for a profile that has all seven; the extractor and the
    evaluator compute the same number. *)
Theorem completeness_is_capped_sum (parsedResume : ParsedResume) :
  let completeness := ResumeEvaluator.calculateCompleteness parsedResume in
  completeness
  = (if jsstring_eqb (fullName parsedResume) (js "Unknown") then 0 else 10)
    + (if nonEmpty (email parsedResume) then 5 else 0)
    + (if nonEmpty (phone parsedResume) then 5 else 0)
    + (match workExperience parsedResume with [] => 0 | _ => 30 end)
    + (match education parsedResume with [] => 0 | _ => 20 end)
    + (match skills parsedResume with [] => 0 | _ => 20 end)
    + (match certifications parsedResume with [] => 0 | _ => 10 end)
  /\ 0 <= completeness <= 100
  /\ (completeness = 100
      <-> fullName parsedResume <> js "Unknown"
          /\ email parsedResume <> [] /\ phone parsedResume <> []
          /\ workExperience parsedResume <> [] /\ education parsedResume <> []
          /\ skills parsedResume <> [] /\ certifications parsedResume <> [])
  /\ FeatureExtractor.calculateCompleteness parsedResume = completeness
  /\ ResumeEvaluator.Features.resumeCompleteness
       (ResumeEvaluator.extractEvaluationFeatures parsedResume) = completeness.
Proof.
  intros completeness.
  assert (Hsum : completeness
    = (if jsstring_eqb (fullName parsedResume) (js "Unknown") then 0 else 10)
      + (if nonEmpty (email parsedResume) then 5 else 0)
      + (if nonEmpty (phone parsedResume) then 5 else 0)
      + (match workExperience parsedResume with [] => 0 | _ => 30 end)
      + (match education parsedResume with [] => 0 | _ => 20 end)
      + (match skills parsedResume with [] => 0 | _ => 20 end)
      + (match certifications parsedResume with [] => 0 | _ => 10 end)).
  { unfold completeness, ResumeEvaluator.calculateCompleteness.
    destruct (jsstring_eqb (fullName parsedResume) (js "Unknown")),
      (email parsedResume), (phone parsedResume), (workExperience parsedResume),
      (education parsedResume), (skills parsedResume), (certifications parsedResume);
      reflexivity. }
  split; [exact Hsum|]. split; [|split; [|split]].
  - rewrite Hsum.
    destruct (jsstring_eqb (fullName parsedResume) (js "Unknown")),
      (email parsedResume), (phone parsedResume), (workExperience parsedResume),
      (education parsedResume), (skills parsedResume), (certifications parsedResume);
      simpl; lia.
  - rewrite Hsum.
    destruct (jsstring_eqb (fullName parsedResume) (js "Unknown")) eqn:En.
    + apply jsstring_eqb_eq in En. split; [|tauto].
      destruct (email parsedResume), (phone parsedResume), (workExperience parsedResume),
        (education parsedResume), (skills parsedResume), (certifications parsedResume);
        simpl; lia.
    + assert (Hn : fullName parsedResume <> js "Unknown").
      { intros E. apply jsstring_eqb_eq in E. congruence. }
      destruct (email parsedResume), (phone parsedResume), (workExperience parsedResume),
        (education parsedResume), (skills parsedResume), (certifications parsedResume);
        simpl; split; try lia; try tauto; try (intros _; repeat split; congruence).
  - reflexivity.
  - reflexivity.
Qed.

End ExtractorProperties.

Section ReportProperties.
Context {ops : StringOps}.
Import ResumeEvaluator.
Local Open Scope Z_scope.

(** The detailed report agrees with the screening result for the same
    candidate and job: its score and its confidence are the points earned
    out of 100, it says 'PASS' exactly when the screening result is
    'pass', that is, from 70 points on, and it lists the same reasons and
    the same missing requirements. *)
Theorem report_agrees_with_screening (candidateData : ParsedResume)
        (jobRequirements : JobRequirements) :
  let report := generateDetailedReport candidateData jobRequirements in
  let result := evaluateAgainstCriteria candidateData jobRequirements in
  let summary := DetailedReport.evaluation report in
  DetailedReport.score summary = earnedPoints candidateData jobRequirements
  /\ DetailedReport.confidence summary = DetailedReport.score summary
  /\ 0 <= DetailedReport.score summary <= 100
  /\ (DetailedReport.result summary = js "PASS" <-> screeningResult result = pass_)
  /\ (DetailedReport.result summary = js "PASS" <-> 70 <= DetailedReport.score summary)
  /\ (DetailedReport.result summary = js "PASS"
      \/ DetailedReport.result summary = js "FAIL")
  /\ DetailedReport.reasons summary = matchReasons result
  /\ Some (DetailedReport.missing summary) = missingRequirements result.
Proof.
  intros report result summary.
  assert (Hs : DetailedReport.score summary = earnedPoints candidateData jobRequirements).
  { unfold summary, report, generateDetailedReport.
    cbn [DetailedReport.evaluation DetailedReport.score].
    rewrite performEvaluation_confidence.
    fold (earnedPoints candidateData jobRequirements).
    rewrite Math_round_percent by lia.
    set (points := earnedPoints candidateData jobRequirements).
    replace (200 * points + 100) with (100 + points * (2 * 100)) by lia.
    rewrite Z.div_add by lia. reflexivity. }
  assert (Hr : DetailedReport.result summary = js "PASS" <-> screeningResult result = pass_).
  { unfold summary, report, result, generateDetailedReport, evaluateAgainstCriteria.
    cbn [DetailedReport.evaluation DetailedReport.result screeningResult].
    destruct (ev_pass _); split; (reflexivity || discriminate). }
  split; [exact Hs|]. split; [reflexivity|].
  split; [rewrite Hs; apply earnedPoints_range|].
  split; [exact Hr|].
  split; [rewrite Hr, Hs; apply screeningResult_pass_iff|].
  split; [|split; reflexivity].
  unfold summary, report, generateDetailedReport.
  cbn [DetailedReport.evaluation DetailedReport.result].
  destruct (ev_pass _); [left | right]; reflexivity.
Qed.

(** A profile whose four lists are empty, as every profile parsed from raw
    text is, fails whatever the job asks: it earns 20 points if the job
    asks for no experience, 15 if it asks for no degree beyond high
    school and 10 if it asks for no certification, 45 at most; the skills
    it is said to miss are all the skills the job requires; its
    completeness is at most 20. *)
Theorem empty_lists_always_fail (candidateData : ParsedResume)
        (jobRequirements : JobRequirements) :
  education candidateData = [] ->
  workExperience candidateData = [] ->
  skills candidateData = [] ->
  certifications candidateData = [] ->
  let result := evaluateAgainstCriteria candidateData jobRequirements in
  earnedPoints candidateData jobRequirements
  = (if minimumYearsOfExperience jobRequirements <=? 0 then 20 else 0)
    + (match minimumDegree (requiredEducation jobRequirements) with
       | high_school => 15
       | _ => 0
       end)
    + (if noCertificationsRequired jobRequirements then 10 else 0)
  /\ earnedPoints candidateData jobRequirements <= 45
  /\ screeningResult result = fail_
  /\ (exists missing,
        missingRequirements result = Some missing
        /\ In (js "Missing required skills: "
               ++ join (js ", ") (requiredSkills jobRequirements)) missing)
  /\ calculateCompleteness candidateData <= 20.
Proof.
  intros He Hw Hs Hc result.
  assert (Hp : earnedPoints candidateData jobRequirements
    = (if minimumYearsOfExperience jobRequirements <=? 0 then 20 else 0)
      + (match minimumDegree (requiredEducation jobRequirements) with
         | high_school => 15
         | _ => 0
         end)
      + (if noCertificationsRequired jobRequirements then 10 else 0)).
  { unfold earnedPoints, extractEvaluationFeatures, evaluateExperience, evaluateSkills,
      evaluateEducation, evaluateCertifications.
    cbn [score Features.totalExperience Features.hasRelevantExperience Features.skillMatch
         Features.hasRequiredSkills Features.educationLevel Features.hasRelevantEducation
         Features.hasCertifications].
    rewrite He, Hw, Hs, Hc.
    change (calculateTotalExperience []) with 0.
    replace (0 >=? minimumYearsOfExperience jobRequirements)
      with (minimumYearsOfExperience jobRequirements <=? 0)
      by (rewrite Z.geb_leb; reflexivity).
    destruct (minimumYearsOfExperience jobRequirements <=? 0),
      (minimumDegree (requiredEducation jobRequirements)),
      (noCertificationsRequired jobRequirements); reflexivity. }
  assert (Hle : earnedPoints candidateData jobRequirements <= 45).
  { rewrite Hp.
    destruct (minimumYearsOfExperience jobRequirements <=? 0),
      (minimumDegree (requiredEducation jobRequirements)),
      (noCertificationsRequired jobRequirements); simpl; lia. }
  assert (Hsk : pass (evaluateSkills (extractEvaluationFeatures candidateData)
                                     jobRequirements) = false).
  { unfold evaluateSkills, extractEvaluationFeatures.
    cbn [pass Features.hasRequiredSkills]. rewrite Hs. reflexivity. }
  split; [exact Hp|]. split; [exact Hle|]. split; [|split].
  - destruct (screeningResult result) eqn:E; [|reflexivity].
    apply screeningResult_pass_iff in E. lia.
  - eexists. split; [reflexivity|].
    rewrite performEvaluation_missing, Hsk.
    apply in_or_app. right. apply in_or_app. left. left.
    unfold extractEvaluationFeatures. cbn [Features.candidateSkillNames].
    rewrite Hs. cbn [map]. f_equal. f_equal.
    induction (requiredSkills jobRequirements) as [|s l IH]; [reflexivity|].
    cbn [filter]. unfold Array_includes at 1. cbn [existsb negb]. f_equal. exact IH.
  - unfold calculateCompleteness. rewrite He, Hw, Hs, Hc.
    destruct (jsstring_eqb (fullName candidateData) (js "Unknown")),
      (nonEmpty (email candidateData)), (nonEmpty (phone candidateData)); simpl; lia.
Qed.

End ReportProperties.

Lemma empty_lists_always_fail_witness :
  (education unknownProfile = [] /\ workExperience unknownProfile = []
   /\ skills unknownProfile = [] /\ certifications unknownProfile = [])
  /\ (@earnedPoints asciiOps unknownProfile sampleRequirements <= 45)%Z
  /\ screeningResult
       (@ResumeEvaluator.evaluateAgainstCriteria asciiOps unknownProfile sampleRequirements)
     = fail_.
Proof.
  pose proof (@empty_lists_always_fail asciiOps unknownProfile sampleRequirements
                eq_refl eq_refl eq_refl eq_refl) as H.
  split; [repeat split|]. split; [exact (proj1 (proj2 H)) | exact (proj1 (proj2 (proj2 H)))].
Defined.

Lemma no_skill_points_fails_witness :
  ResumeEvaluator.score
    (ResumeEvaluator.evaluateSkills
       (@ResumeEvaluator.extractEvaluationFeatures asciiOps sampleDesigner)
       sampleRequirements) = 0%Z
  /\ screeningResult
       (@ResumeEvaluator.evaluateAgainstCriteria asciiOps sampleDesigner sampleRequirements)
     = fail_.
Proof.
  split; [reflexivity|].
  exact (proj2 (proj2 (@no_skill_points_fails asciiOps sampleDesigner sampleRequirements)
                      eq_refl)).
Defined.

(** ** The orchestrator: the error log, the report, validation *)

Section AgentLogProperties.
Import R1Agent.
Variable now : Z.

(** The log entries a failed stage leaves behind, given the message the
    stage threw with and the annotation of the method that caught it. *)
Lemma runR1_cases (this : R1Agent.t) (resumeInput : ResumeInput.t)
      (jobRequirements : JobRequirements) :
  runR1 now resumeInput jobRequirements this
  = let failed stage message :=
      (Ok (createErrorResult message),
       set_errors this
         [ProcessingError.mk stage message now;
          ProcessingError.mk ProcessingError.evaluation
                             (js "R1 screening failed: " ++ message) now]) in
    match parser this (ResumeInput.content resumeInput) with
    | Throw error =>
        failed ProcessingError.parsing
               (js "Failed to parse resume: "
                ++ messageOr error (js "Unknown parsing error"))
    | Ok parsedResume =>
        match featureExtractor_extractFeatures this parsedResume with
        | Throw error =>
            failed ProcessingError.extraction
                   (js "Failed to extract features: "
                    ++ messageOr error (js "Unknown extraction error"))
        | Ok _ =>
            match evaluator_evaluateAgainstCriteria this parsedResume jobRequirements with
            | Throw error =>
                failed ProcessingError.evaluation
                       (js "Failed to evaluate candidate: "
                        ++ messageOr error (js "Unknown evaluation error"))
            | Ok screeningResult => (Ok screeningResult, set_errors this [])
            end
        end
    end.
Proof.
  unfold runR1, tryCatch, andThen, parseResume, extractFeatures, evaluateAgainstCriteria,
    tryCatch, andThen, logError, logScreeningActivity, throw, ret.
  cbn [parser featureExtractor_extractFeatures evaluator_evaluateAgainstCriteria
       set_errors errors].
  assert (Hp : (match ResumeInput.type resumeInput with
                | ResumeInput.raw =>
                    (parser this (ResumeInput.content resumeInput), set_errors this [])
                | ResumeInput.structured =>
                    (parser this (ResumeInput.content resumeInput), set_errors this [])
                end)
               = (parser this (ResumeInput.content resumeInput), set_errors this []))
    by (destruct (ResumeInput.type resumeInput); reflexivity).
  unfold set_errors in Hp |- *. cbn [parser] in Hp |- *. rewrite Hp. clear Hp.
  destruct (parser this (ResumeInput.content resumeInput)) as [parsedResume | e1];
    [|reflexivity].
  cbn [parser featureExtractor_extractFeatures evaluator_evaluateAgainstCriteria errors].
  destruct (featureExtractor_extractFeatures this parsedResume) as [features | e2];
    [|reflexivity].
  cbn [parser featureExtractor_extractFeatures evaluator_evaluateAgainstCriteria errors].
  destruct (evaluator_evaluateAgainstCriteria this parsedResume jobRequirements);
    reflexivity.
Qed.

(** [runR1] starts from an empty error log whatever the log held before,
    and leaves the collaborators as they were.  When the three stages
    return, the evaluator's result is returned and the log stays empty.
    When the parser, the extractor or the evaluator throws, the result is
    the error result of the stage's message ('Failed to parse resume: ',
    'Failed to extract features: ' or 'Failed to evaluate candidate: '
    before the message of what was thrown) and the log holds exactly two
    entries: the stage's, and an 'evaluation' entry that repeats its
    message after 'R1 screening failed: '. *)
Theorem runR1_resets_and_logs (this : R1Agent.t) (earlier : list ProcessingError.t)
        (resumeInput : ResumeInput.t) (jobRequirements : JobRequirements) :
  let run := runR1 now resumeInput jobRequirements this in
  let content := ResumeInput.content resumeInput in
  let failedWith stage message :=
    fst run = Ok (createErrorResult message)
    /\ errorMessages (createErrorResult message) = Some [message]
    /\ map ProcessingError.type (errors (snd run)) = [stage; ProcessingError.evaluation]
    /\ map ProcessingError.message (errors (snd run))
       = [message; js "R1 screening failed: " ++ message] in
  runR1 now resumeInput jobRequirements (set_errors this earlier) = run
  /\ set_errors (snd run) (errors this) = this
  /\ (forall parsedResume features result,
        parser this content = Ok parsedResume ->
        featureExtractor_extractFeatures this parsedResume = Ok features ->
        evaluator_evaluateAgainstCriteria this parsedResume jobRequirements = Ok result ->
        fst run = Ok result /\ errors (snd run) = [])
  /\ (forall error,
        parser this content = Throw error ->
        failedWith ProcessingError.parsing
                   (js "Failed to parse resume: "
                    ++ messageOr error (js "Unknown parsing error")))
  /\ (forall parsedResume error,
        parser this content = Ok parsedResume ->
        featureExtractor_extractFeatures this parsedResume = Throw error ->
        failedWith ProcessingError.extraction
                   (js "Failed to extract features: "
                    ++ messageOr error (js "Unknown extraction error")))
  /\ (forall parsedResume features error,
        parser this content = Ok parsedResume ->
        featureExtractor_extractFeatures this parsedResume = Ok features ->
        evaluator_evaluateAgainstCriteria this parsedResume jobRequirements = Throw error ->
        failedWith ProcessingError.evaluation
                   (js "Failed to evaluate candidate: "
                    ++ messageOr error (js "Unknown evaluation error"))).
Proof.
  intros run content failedWith. unfold failedWith, content.
  split; [|split; [|split; [|split; [|split]]]].
  - unfold run. rewrite !runR1_cases. reflexivity.
  - unfold run. rewrite runR1_cases. cbv zeta.
    destruct this as [p f e l]. cbn [parser featureExtractor_extractFeatures
                                     evaluator_evaluateAgainstCriteria errors].
    destruct (p (ResumeInput.content resumeInput)) as [parsedResume|]; [|reflexivity].
    destruct (f parsedResume); [|reflexivity].
    destruct (e parsedResume jobRequirements); reflexivity.
  - intros parsedResume features result H1 H2 H3.
    unfold run. rewrite runR1_cases. cbv zeta. rewrite H1, H2, H3.
    split; reflexivity.
  - intros error H1. unfold run. rewrite runR1_cases. cbv zeta. rewrite H1.
    repeat split; reflexivity.
  - intros parsedResume error H1 H2. unfold run. rewrite runR1_cases. cbv zeta.
    rewrite H1, H2. repeat split; reflexivity.
  - intros parsedResume features error H1 H2 H3. unfold run. rewrite runR1_cases.
    cbv zeta. rewrite H1, H2, H3. repeat split; reflexivity.
Qed.

End AgentLogProperties.

Section AgentReportProperties.
Import R1Agent.
Variable now : Z.
Context {DetailedFeatures : Type}.
Variable evaluator_generateDetailedReport :
  ParsedResume -> JobRequirements -> result ResumeEvaluator.DetailedReport.t.
Variable featureExtractor_extractDetailedFeatures : ParsedResume -> result DetailedFeatures.

(** Unlike [runR1], the agent's [generateDetailedReport] throws again what
    it caught, and it adds to the error log instead of starting a new one.
    A report is returned only when the parser, the evaluator and the two
    report builders all returned; the agent is then as it was and the
    report carries its log.  When it throws, one or two entries have been
    added to the log, the last of them an 'evaluation' entry 'Detailed
    report generation failed: ' with the message of what is thrown; a
    parser that throws costs two entries. *)
Theorem agent_report_rethrows (this : R1Agent.t) (resumeInput : ResumeInput.t)
        (jobRequirements : JobRequirements) :
  let run := generateDetailedReport now evaluator_generateDetailedReport
               featureExtractor_extractDetailedFeatures resumeInput jobRequirements this in
  (forall report,
     fst run = Ok report ->
     snd run = this
     /\ processingErrors report = errors this
     /\ exists parsedResume,
          parser this (ResumeInput.content resumeInput) = Ok parsedResume
          /\ evaluator_evaluateAgainstCriteria this parsedResume jobRequirements
             = Ok (report_screeningResult report)
          /\ evaluator_generateDetailedReport parsedResume jobRequirements
             = Ok (detailedReport report)
          /\ featureExtractor_extractDetailedFeatures parsedResume
             = Ok (extractedFeatures report))
  /\ (forall error,
        fst run = Throw error ->
        exists logged,
          errors (snd run)
          = errors this
            ++ logged
            ++ [ProcessingError.mk ProcessingError.evaluation
                  (js "Detailed report generation failed: "
                   ++ messageOr error (js "Unknown error")) now]
          /\ (List.length logged <= 1)%nat)
  /\ (forall error,
        parser this (ResumeInput.content resumeInput) = Throw error ->
        let message :=
          js "Failed to parse resume: " ++ messageOr error (js "Unknown parsing error") in
        fst run = Throw (ErrorObject "Error" message)
        /\ map ProcessingError.message (errors (snd run))
           = map ProcessingError.message (errors this)
             ++ [message; js "Detailed report generation failed: " ++ message]).
Proof.
  intros run.
  assert (Hrun : run
    = generateDetailedReport now evaluator_generateDetailedReport
        featureExtractor_extractDetailedFeatures resumeInput jobRequirements this)
    by reflexivity.
  unfold generateDetailedReport, tryCatch, andThen, parseResume, extractFeatures,
    evaluateAgainstCriteria, tryCatch, andThen, logError, throw, ret in Hrun.
  assert (Hp : (match ResumeInput.type resumeInput with
                | ResumeInput.raw => (parser this (ResumeInput.content resumeInput), this)
                | ResumeInput.structured =>
                    (parser this (ResumeInput.content resumeInput), this)
                end)
               = (parser this (ResumeInput.content resumeInput), this))
    by (destruct (ResumeInput.type resumeInput); reflexivity).
  rewrite Hp in Hrun. clear Hp.
  destruct this as [p f e l].
  cbn [parser featureExtractor_extractFeatures evaluator_evaluateAgainstCriteria
       set_errors errors] in *.
  destruct (p (ResumeInput.content resumeInput)) as [parsedResume | e1] eqn:H1.
  - cbn [parser featureExtractor_extractFeatures evaluator_evaluateAgainstCriteria
         set_errors errors] in Hrun.
    destruct (f parsedResume) as [features | e2] eqn:H2;
      cbn [parser featureExtractor_extractFeatures evaluator_evaluateAgainstCriteria
           set_errors errors] in Hrun.
    + destruct (e parsedResume jobRequirements) as [screeningResult | e3] eqn:H3;
        cbn [parser featureExtractor_extractFeatures evaluator_evaluateAgainstCriteria
             set_errors errors] in Hrun.
      * destruct (evaluator_generateDetailedReport parsedResume jobRequirements)
          as [detailed | e4] eqn:H4;
          cbn [set_errors errors parser featureExtractor_extractFeatures
               evaluator_evaluateAgainstCriteria] in Hrun.
        -- destruct (featureExtractor_extractDetailedFeatures parsedResume)
             as [detailedFeatures | e5] eqn:H5;
             cbn [set_errors errors parser featureExtractor_extractFeatures
                  evaluator_evaluateAgainstCriteria] in Hrun; rewrite Hrun;
             cbn [fst snd errors].
           ++ split; [|split]; [|intros error H; discriminate|intros error H; discriminate].
              intros report [= <-]. cbn [processingErrors report_screeningResult
                                         detailedReport extractedFeatures].
              split; [reflexivity|]. split; [reflexivity|]. exists parsedResume. auto.
           ++ split; [|split]; [intros report H; discriminate| |intros error H; discriminate].
              intros error [= <-]. exists []. split; [reflexivity | simpl; lia].
        -- rewrite Hrun. cbn [fst snd errors].
           split; [|split]; [intros report H; discriminate| |intros error H; discriminate].
           intros error [= <-]. exists []. split; [reflexivity | simpl; lia].
      * rewrite Hrun. cbn [fst snd errors].
        split; [|split]; [intros report H; discriminate| |intros error H; discriminate].
        intros error [= <-]. eexists [_]. cbn [messageOr]. rewrite <- app_assoc.
        split; [reflexivity | simpl; lia].
    + rewrite Hrun. cbn [fst snd errors].
      split; [|split]; [intros report H; discriminate| |intros error H; discriminate].
      intros error [= <-]. eexists [_]. cbn [messageOr]. rewrite <- app_assoc.
      split; [reflexivity | simpl; lia].
  - cbn [parser featureExtractor_extractFeatures evaluator_evaluateAgainstCriteria
         set_errors errors] in Hrun.
    rewrite Hrun. cbn [fst snd errors].
    split; [|split]; [intros report H; discriminate| |].
    + intros error [= <-]. eexists [_]. cbn [messageOr]. rewrite <- app_assoc.
      split; [reflexivity | simpl; lia].
    + intros error [= <-]. cbv zeta. split; [reflexivity|].
      cbn [errors set_errors]. rewrite !map_app, <- app_assoc. reflexivity.
Qed.

End AgentReportProperties.

Section ValidationProperties.
Context {ops : StringOps}.
Local Open Scope Z_scope.

(** [validateJobRequirements] accepts exactly the jobs that ask for at
    least one year of experience and name at least one required skill.  A
    job that asks for no experience is rejected, because 0 is falsy,
    although the evaluator gives the experience category to every
    candidate of such a job whose durations are not negative. *)
Theorem validateJobRequirements_rejects_zero_years (requirements : JobRequirements) :
  (R1Agent.validateJobRequirements requirements = true
   <-> 0 < minimumYearsOfExperience requirements /\ requiredSkills requirements <> [])
  /\ (minimumYearsOfExperience requirements = 0 ->
      R1Agent.validateJobRequirements requirements = false
      /\ forall candidateData,
           (forall exp, In exp (workExperience candidateData) ->
                        0 <= WorkExperience.duration exp) ->
           ResumeEvaluator.pass
             (ResumeEvaluator.evaluateExperience
                (ResumeEvaluator.extractEvaluationFeatures candidateData) requirements)
           = true).
Proof.
  assert (Hv : R1Agent.validateJobRequirements requirements = true
               <-> 0 < minimumYearsOfExperience requirements
                   /\ requiredSkills requirements <> []).
  { unfold R1Agent.validateJobRequirements.
    destruct (Z.eqb_spec (minimumYearsOfExperience requirements) 0) as [H0|H0];
      destruct (Z.ltb_spec (minimumYearsOfExperience requirements) 0) as [Hn|Hn];
      destruct (requiredSkills requirements) as [|s l];
      destruct (minimumDegree (requiredEducation requirements));
      cbn; split; try discriminate; try (intros [? ?]; lia || congruence);
      try (intros _; split; [lia | discriminate]). }
  split; [exact Hv|]. intros H0. split.
  - apply not_true_is_false. intros E. apply Hv in E. lia.
  - intros candidateData Hnn.
    unfold ResumeEvaluator.evaluateExperience, ResumeEvaluator.extractEvaluationFeatures.
    cbn [ResumeEvaluator.pass ResumeEvaluator.Features.totalExperience].
    rewrite H0, Z.geb_le, calculateTotalExperience_div.
    apply sumDurations_nonneg in Hnn. apply Z.div_pos; lia.
Qed.

End ValidationProperties.

Lemma validateJobRequirements_rejects_zero_years_witness :
  minimumYearsOfExperience
    (mkJobRequirements 0 [js "JavaScript"] [] (mkRequiredEducation high_school None)
                       None None) = 0%Z
  /\ R1Agent.validateJobRequirements
       (mkJobRequirements 0 [js "JavaScript"] [] (mkRequiredEducation high_school None)
                          None None) = false
  /\ ResumeEvaluator.pass
       (ResumeEvaluator.evaluateExperience
          (@ResumeEvaluator.extractEvaluationFeatures asciiOps unknownProfile)
          (mkJobRequirements 0 [js "JavaScript"] [] (mkRequiredEducation high_school None)
                             None None)) = true.
Proof.
  pose proof (proj2 (@validateJobRequirements_rejects_zero_years asciiOps
                       (mkJobRequirements 0 [js "JavaScript"] []
                                          (mkRequiredEducation high_school None) None None))
                    eq_refl) as H.
  split; [reflexivity|]. split; [exact (proj1 H)|].
  apply (proj2 H unknownProfile). intros exp [].
Defined.

(** ** The parser: the normal form of [normalizeText] *)

Section NormalFormProperties.
Import ResumeParser.

Lemma isWhiteSpace_SPACE (c : N) : (c =? SPACE)%N = true -> isWhiteSpace c = true.
Proof. intros H. apply N.eqb_eq in H. subst c. reflexivity. Qed.

Lemma replaceRuns_spaced (inRun : bool) (s : jsstring) :
  spacedFrom inRun (replaceRunsFrom isWhiteSpace SPACE inRun s) = true.
Proof.
  revert inRun. induction s as [|c s IH]; intros inRun; [reflexivity|].
  cbn [replaceRunsFrom]. destruct (isWhiteSpace c) eqn:Hc.
  - destruct inRun; [apply IH|].
    cbn [spacedFrom]. rewrite N.eqb_refl. cbn [negb andb]. apply IH.
  - cbn [spacedFrom]. destruct (c =? SPACE)%N eqn:Hs.
    + apply isWhiteSpace_SPACE in Hs. congruence.
    + rewrite Hc. cbn [negb andb]. apply IH.
Qed.

Lemma replaceRuns_ink (inRun : bool) (s : jsstring) :
  inkOf (replaceRunsFrom isWhiteSpace SPACE inRun s) = inkOf s.
Proof.
  revert inRun. induction s as [|c s IH]; intros inRun; [reflexivity|].
  cbn [replaceRunsFrom]. unfold inkOf in *. cbn [filter].
  destruct (isWhiteSpace c) eqn:Hc; cbn [negb].
  - destruct inRun; [apply IH|]. cbn [filter].
    change (isWhiteSpace SPACE) with true. cbn [negb]. apply IH.
  - cbn [filter]. rewrite Hc. cbn [negb]. f_equal. apply IH.
Qed.

Lemma spacedFrom_weaken (s : jsstring) : spacedFrom true s = true -> spacedFrom false s = true.
Proof.
  destruct s as [|c s]; [reflexivity|]. cbn [spacedFrom].
  destruct (c =? SPACE)%N; [discriminate | tauto].
Qed.

Lemma trimStart_spaced (s : jsstring) :
  spacedFrom false s = true -> spacedFrom true (trimStart s) = true.
Proof.
  destruct s as [|c s]; [reflexivity|]. cbn [spacedFrom trimStart].
  destruct (c =? SPACE)%N eqn:Hs.
  - rewrite (isWhiteSpace_SPACE _ Hs). cbn [negb andb]. intros H.
    destruct s as [|d s]; [reflexivity|]. cbn [spacedFrom trimStart] in *.
    destruct (d =? SPACE)%N eqn:Hd; [discriminate|].
    apply andb_prop in H. destruct H as [Hw H].
    apply negb_true_iff in Hw. rewrite Hw. cbn [spacedFrom]. rewrite Hd, Hw, H. reflexivity.
  - intros H. apply andb_prop in H. destruct H as [Hw H].
    apply negb_true_iff in Hw. rewrite Hw. cbn [spacedFrom]. rewrite Hs, Hw, H. reflexivity.
Qed.

Lemma trimStart_ink (s : jsstring) : inkOf (trimStart s) = inkOf s.
Proof.
  induction s as [|c s IH]; [reflexivity|]. cbn [trimStart].
  destruct (isWhiteSpace c) eqn:Hc; [|reflexivity].
  rewrite IH. unfold inkOf. cbn [filter]. rewrite Hc. reflexivity.
Qed.

Lemma trimStart_all (l : jsstring) : forallb isWhiteSpace l = true -> trimStart l = [].
Proof.
  induction l as [|d l IH]; [reflexivity|]. cbn [forallb trimStart]. intros H.
  apply andb_prop in H. destruct H as [Hd Hl]. rewrite Hd. exact (IH Hl).
Qed.

Lemma trimStart_snoc (l : jsstring) (c : N) :
  trimStart (l ++ [c])
  = if forallb isWhiteSpace l then (if isWhiteSpace c then [] else [c])
    else trimStart l ++ [c].
Proof.
  induction l as [|d l IH]; cbn [app trimStart forallb].
  - destruct (isWhiteSpace c); reflexivity.
  - destruct (isWhiteSpace d); cbn [andb]; [exact IH | reflexivity].
Qed.

(** [trimEnd], read from the front. *)
Lemma trimEnd_cons (c : N) (s : jsstring) :
  trimEnd (c :: s)
  = if forallb isWhiteSpace s && isWhiteSpace c then [] else c :: trimEnd s.
Proof.
  unfold trimEnd. cbn [rev]. rewrite trimStart_snoc.
  assert (Hrev : forallb isWhiteSpace (rev s) = forallb isWhiteSpace s).
  { induction s as [|d s IH]; [reflexivity|]. cbn [rev forallb].
    rewrite forallb_app, IH. cbn [forallb]. rewrite andb_true_r. apply andb_comm. }
  rewrite Hrev. destruct (forallb isWhiteSpace s) eqn:Hall; cbn [andb].
  - destruct (isWhiteSpace c); [reflexivity|].
    rewrite trimStart_all by exact Hrev. reflexivity.
  - rewrite rev_app_distr. reflexivity.
Qed.

Lemma trimEnd_ink (s : jsstring) : inkOf (trimEnd s) = inkOf s.
Proof.
  induction s as [|c s IH]; [reflexivity|]. rewrite trimEnd_cons.
  destruct (forallb isWhiteSpace s) eqn:Hall; cbn [andb].
  - destruct (isWhiteSpace c) eqn:Hc.
    + unfold inkOf. cbn [filter]. rewrite Hc. cbn [negb].
      clear IH. induction s as [|d s IH]; [reflexivity|].
      cbn [forallb filter] in *. apply andb_prop in Hall. destruct Hall as [Hd Hs].
      rewrite Hd. cbn [negb]. exact (IH Hs).
    + unfold inkOf in *. cbn [filter]. rewrite Hc, IH. reflexivity.
  - unfold inkOf in *. cbn [filter]. rewrite IH. reflexivity.
Qed.

Lemma trimEnd_all (s : jsstring) : forallb isWhiteSpace s = true -> trimEnd s = [].
Proof.
  destruct s as [|c s]; [reflexivity|]. cbn [forallb]. intros H.
  apply andb_prop in H. destruct H as [Hc Hs]. rewrite trimEnd_cons, Hc, Hs. reflexivity.
Qed.

Lemma trimEnd_singleSpaced (afterSpace : bool) (s : jsstring) :
  spacedFrom afterSpace s = true -> forallb isWhiteSpace s = false ->
  singleSpacedFrom afterSpace (trimEnd s) = true.
Proof.
  revert afterSpace. induction s as [|c s IH]; intros b H Hall; [discriminate|].
  rewrite trimEnd_cons. cbn [spacedFrom forallb] in H, Hall.
  destruct (c =? SPACE)%N eqn:Hs.
  - rewrite (isWhiteSpace_SPACE _ Hs) in *. cbn [andb] in Hall. rewrite Hall. cbn [andb].
    apply andb_prop in H. destruct H as [Hb H].
    cbn [singleSpacedFrom]. rewrite Hs, Hb. cbn [andb]. apply IH; assumption.
  - apply andb_prop in H. destruct H as [Hw H]. apply negb_true_iff in Hw.
    rewrite Hw, andb_false_r. cbn [singleSpacedFrom]. rewrite Hs, Hw. cbn [negb andb].
    destruct (forallb isWhiteSpace s) eqn:Ha.
    + rewrite trimEnd_all by exact Ha. reflexivity.
    + apply IH; [exact H | reflexivity].
Qed.

Lemma singleSpacedFrom_spaced (afterSpace : bool) (s : jsstring) :
  singleSpacedFrom afterSpace s = true -> spacedFrom afterSpace s = true.
Proof.
  revert afterSpace. induction s as [|c s IH]; intros b H; [reflexivity|].
  cbn [singleSpacedFrom spacedFrom] in *.
  destruct (c =? SPACE)%N; apply andb_prop in H; destruct H as [H1 H2];
    rewrite H1, (IH _ H2); reflexivity.
Qed.

Lemma replaceRuns_fixed (afterSpace inRun : bool) (s : jsstring) :
  spacedFrom afterSpace s = true -> (inRun = true -> afterSpace = true) ->
  replaceRunsFrom isWhiteSpace SPACE inRun s = s.
Proof.
  revert afterSpace inRun. induction s as [|c s IH]; intros b inRun H Hb; [reflexivity|].
  cbn [spacedFrom replaceRunsFrom] in *. destruct (c =? SPACE)%N eqn:Hs.
  - rewrite (isWhiteSpace_SPACE _ Hs). apply andb_prop in H. destruct H as [Hn H].
    apply negb_true_iff in Hn. subst b.
    destruct inRun; [specialize (Hb eq_refl); discriminate|].
    apply N.eqb_eq in Hs. subst c. f_equal. apply (IH true); auto.
  - apply andb_prop in H. destruct H as [Hw H]. apply negb_true_iff in Hw. rewrite Hw.
    f_equal. apply (IH false); [exact H | discriminate].
Qed.

Lemma spaced_no_newline (afterSpace : bool) (s : jsstring) :
  spacedFrom afterSpace s = true -> ~ In NEWLINE s.
Proof.
  revert afterSpace. induction s as [|c s IH]; intros b H; [simpl; tauto|].
  cbn [spacedFrom] in H. intros [Hc | Hin].
  - subst c. simpl in H. discriminate.
  - destruct (c =? SPACE)%N; apply andb_prop in H; destruct H as [_ H];
      exact (IH _ H Hin).
Qed.

Lemma trimStart_fixed (s : jsstring) : spacedFrom true s = true -> trimStart s = s.
Proof.
  destruct s as [|c s]; [reflexivity|]. cbn [spacedFrom trimStart].
  destruct (c =? SPACE)%N; [discriminate|]. intros H.
  apply andb_prop in H. destruct H as [Hw _]. apply negb_true_iff in Hw.
  rewrite Hw. reflexivity.
Qed.

Lemma trimEnd_fixed (afterSpace : bool) (s : jsstring) :
  singleSpacedFrom afterSpace s = true -> trimEnd s = s.
Proof.
  revert afterSpace. induction s as [|c s IH]; intros b H; [reflexivity|].
  rewrite trimEnd_cons. cbn [singleSpacedFrom] in H. destruct (c =? SPACE)%N eqn:Hs.
  - apply andb_prop in H. destruct H as [_ H].
    assert (Ha : forallb isWhiteSpace s = false).
    { destruct s as [|d s]; [discriminate|]. cbn [singleSpacedFrom forallb] in *.
      destruct (d =? SPACE)%N; [discriminate|].
      apply andb_prop in H. destruct H as [Hw _]. apply negb_true_iff in Hw.
      rewrite Hw. reflexivity. }
    rewrite Ha. cbn [andb]. f_equal. exact (IH _ H).
  - apply andb_prop in H. destruct H as [Hw H]. apply negb_true_iff in Hw.
    rewrite Hw, andb_false_r. f_equal. exact (IH _ H).
Qed.

Lemma singleSpaced_fixed (s : jsstring) : singleSpaced s = true -> normalizeText s = s.
Proof.
  intros H. destruct s as [|c s]; [reflexivity|]. cbn [singleSpaced] in H.
  pose proof (@singleSpacedFrom_spaced _ _ H) as Hsp.
  unfold normalizeText, replaceRuns, trim.
  rewrite (@replaceRuns_fixed true false _ Hsp) by discriminate.
  rewrite replaceRuns_newline_id by exact (@spaced_no_newline _ _ Hsp).
  rewrite trimStart_fixed by exact Hsp. exact (@trimEnd_fixed _ _ H).
Qed.

Lemma normalizeText_singleSpaced (text : jsstring) :
  singleSpaced (normalizeText text) = true.
Proof.
  unfold normalizeText, replaceRuns, trim.
  rewrite replaceRuns_newline_id by apply replaceRuns_whitespace_no_newline.
  pose proof (@trimStart_spaced _ (replaceRuns_spaced false text)) as Hsp.
  set (u := trimStart (replaceRunsFrom isWhiteSpace SPACE false text)) in *.
  destruct (forallb isWhiteSpace u) eqn:Ha.
  - rewrite trimEnd_all by exact Ha. reflexivity.
  - pose proof (@trimEnd_singleSpaced _ _ Hsp Ha) as H.
    destruct (trimEnd u); [reflexivity | exact H].
Qed.

(** [normalizeText] brings every text to a normal form in which white
    space occurs only as single spaces between other characters, and
    changes nothing else: the other characters are kept, in order; a text
    already in that form is returned as it is, so normalizing twice is
    normalizing once; a text of white space only becomes the empty
    string. *)
Theorem normalizeText_normal_form (text : jsstring) :
  singleSpaced (normalizeText text) = true
  /\ inkOf (normalizeText text) = inkOf text
  /\ normalizeText (normalizeText text) = normalizeText text
  /\ (forall s, singleSpaced s = true -> normalizeText s = s)
  /\ (inkOf text = [] <-> normalizeText text = []).
Proof.
  assert (Hink : inkOf (normalizeText text) = inkOf text).
  { unfold normalizeText, replaceRuns, trim.
    rewrite replaceRuns_newline_id by apply replaceRuns_whitespace_no_newline.
    rewrite trimEnd_ink, trimStart_ink. apply replaceRuns_ink. }
  split; [apply normalizeText_singleSpaced|]. split; [exact Hink|].
  split; [apply singleSpaced_fixed, normalizeText_singleSpaced|].
  split; [exact singleSpaced_fixed|].
  split.
  - intros H. rewrite <- Hink in H. pose proof (normalizeText_singleSpaced text) as Hs.
    destruct (normalizeText text) as [|c s]; [reflexivity|].
    cbn [singleSpaced singleSpacedFrom] in Hs. unfold inkOf in H. cbn [filter] in H.
    destruct (c =? SPACE)%N; [discriminate|].
    apply andb_prop in Hs. destruct Hs as [Hw _]. rewrite Hw in H. discriminate.
  - intros H. rewrite <- Hink, H. reflexivity.
Qed.

End NormalFormProperties.

(** ** The Excel processor *)

Section ExcelProperties.
Context {ops : StringOps} {conversions : Conversions}.
Import ExcelProcessor.

(** On header cells that are strings or empty, [createColumnMap] returns,
    and a field's column is the last header filed under it. *)
Lemma createColumnMap_from_column (headers : list (option JSValue)) (index : nat)
      (columnMap : ColumnMap) :
  headersAreStrings headers = true ->
  exists columnMap',
    createColumnMap_from headers index columnMap = Ok columnMap'
    /\ forall field,
         column columnMap' field
         = match lastHeaderFor field headers with
           | Some k => Some (index + k)%nat
           | None => column columnMap field
           end.
Proof.
  revert index columnMap.
  induction headers as [|cell headers IH]; intros index columnMap Hs.
  - exists columnMap. split; reflexivity.
  - cbn [headersAreStrings forallb] in Hs. apply andb_prop in Hs. destruct Hs as [Hc Hs].
    destruct cell as [[| | | |header| |]|]; try discriminate Hc;
      cbn [createColumnMap_from headerField bind lastHeaderFor].
    + destruct (IH (S index)
                   (match fieldOfHeader header with
                    | Some field => (field, index) :: columnMap
                    | None => columnMap
                    end) Hs) as [columnMap' [E Hcol]].
      exists columnMap'. split; [exact E|]. intros field. rewrite Hcol.
      destruct (lastHeaderFor field headers) as [k|]; [f_equal; lia|].
      destruct (fieldOfHeader header) as [field'|]; [|reflexivity].
      cbn [column]. destruct (String.eqb field field'); [f_equal; lia | reflexivity].
    + destruct (IH (S index) columnMap Hs) as [columnMap' [E Hcol]].
      exists columnMap'. split; [exact E|]. intros field. rewrite Hcol.
      destruct (lastHeaderFor field headers) as [k|]; [f_equal; lia | reflexivity].
Qed.

(** A header cell that is no string makes [createColumnMap] throw a
    [TypeError]. *)
Lemma createColumnMap_from_throws (headers : list (option JSValue)) (index : nat)
      (columnMap : ColumnMap) :
  headersAreStrings headers = false ->
  exists message,
    createColumnMap_from headers index columnMap = Throw (ErrorObject "TypeError" message).
Proof.
  revert index columnMap.
  induction headers as [|cell headers IH]; intros index columnMap Hs; [discriminate Hs|].
  cbn [headersAreStrings forallb] in Hs.
  destruct cell as [[| | | |header| |]|];
    cbn [createColumnMap_from headerField bind];
    try (eexists; reflexivity); apply IH; exact Hs.
Qed.

(** What a row does to the array of errors: a job and no error, or no job
    and one error pushed, or an exception and no error. *)
Lemma parseJobDescriptionRow_outcome (row : list JSValue) (columnMap : ColumnMap)
      (rowNumber : nat) (errors : list jsstring) :
  (exists job, parseJobDescriptionRow row columnMap rowNumber errors = (Ok (Some job), errors))
  \/ (exists message,
        parseJobDescriptionRow row columnMap rowNumber errors
        = (Ok None, errors ++ [ROW rowNumber ++ message]))
  \/ (exists error, parseJobDescriptionRow row columnMap rowNumber errors
                    = (Throw error, errors)).
Proof.
  unfold parseJobDescriptionRow.
  destruct (noColumn (column columnMap "title") || noColumn (column columnMap "company")
            || noColumn (column columnMap "description")).
  { right. left. eauto. }
  destruct (getCellValue row (column columnMap "title")) as [title|e]; cbn [bind];
    [|right; right; eauto].
  destruct (getCellValue row (column columnMap "company")) as [company|e]; cbn [bind];
    [|right; right; eauto].
  destruct (getCellValue row (column columnMap "description")) as [description|e];
    cbn [bind]; [|right; right; eauto].
  destruct (negb (nonEmpty title) || negb (nonEmpty company) || negb (nonEmpty description)).
  { right. left. eauto. }
  repeat match goal with
         | |- context [bind ?c _] =>
             destruct c; cbn [bind]; [|right; right; eauto]
         end.
  left. eauto.
Qed.

Lemma parseRows_count (columnMap : ColumnMap) (dataRows : list (list JSValue)) (i : nat)
      (jobs : list ExcelJobDescription.t) (errors : list jsstring) :
  (List.length (fst (parseRows columnMap dataRows i jobs errors))
   + List.length (snd (parseRows columnMap dataRows i jobs errors))
   = List.length jobs + List.length errors + List.length dataRows)%nat.
Proof.
  revert i jobs errors. induction dataRows as [|row dataRows IH]; intros i jobs errors.
  - cbn. lia.
  - cbn [parseRows List.length].
    destruct (parseJobDescriptionRow_outcome row columnMap (i + 2) errors)
      as [[job H] | [[message H] | [error H]]]; rewrite H, IH;
      rewrite ?length_app; cbn [List.length]; lia.
Qed.

(** [processExcelFile] accounts for every data row of a sheet whose header
    cells are strings or empty: each row gives either a job description or
    one error message, so the jobs and the errors together are as many as
    the rows, and [processedRows] counts the jobs.  A file that cannot be
    read, has no sheet, has no header row, or has a header cell that is no
    string (a number, a boolean, a date) gives no job, no row whatever
    rows it has, and the one message 'Failed to process Excel file: ...'. *)
Theorem excel_rows_accounted (workbook : Workbook) :
  let result := processExcelFile workbook in
  ExcelProcessingResult.processedRows result
  = List.length (ExcelProcessingResult.jobDescriptions result)
  /\ (ExcelProcessingResult.processedRows result
      <= ExcelProcessingResult.totalRows result)%nat
  /\ (forall headers dataRows,
        workbook = Worksheet (Some headers) dataRows ->
        headersAreStrings headers = true ->
        ExcelProcessingResult.totalRows result = List.length dataRows
        /\ (List.length (ExcelProcessingResult.jobDescriptions result)
            + List.length (ExcelProcessingResult.errors result)
            = List.length dataRows)%nat)
  /\ ((forall headers dataRows,
         workbook = Worksheet (Some headers) dataRows ->
         headersAreStrings headers = false) ->
      ExcelProcessingResult.jobDescriptions result = []
      /\ ExcelProcessingResult.totalRows result = 0%nat
      /\ exists message,
           ExcelProcessingResult.errors result
           = [js "Failed to process Excel file: " ++ message]).
Proof.
  intros result. unfold result, processExcelFile.
  destruct workbook as [error | | [headers|] dataRows];
    cbn [parseJobDescriptions createColumnMap ExcelProcessingResult.processedRows
         ExcelProcessingResult.jobDescriptions ExcelProcessingResult.totalRows
         ExcelProcessingResult.errors List.length app].
  1, 2, 4: (split; [reflexivity|]; split; [lia|]; split; [intros h d H; discriminate|];
            intros _; split; [reflexivity|]; split; [reflexivity|]; eauto).
  unfold parseJobDescriptions. cbn [createColumnMap].
  destruct (headersAreStrings headers) eqn:Hs.
  - destruct (@createColumnMap_from_column headers 0 [] Hs) as [columnMap [E _]].
    rewrite E.
    pose proof (parseRows_count columnMap dataRows 0 [] []) as Hc.
    destruct (parseRows columnMap dataRows 0 [] []) as [jobs errors].
    cbn [fst snd List.length ExcelProcessingResult.processedRows
         ExcelProcessingResult.jobDescriptions ExcelProcessingResult.totalRows
         ExcelProcessingResult.errors] in *.
    split; [reflexivity|]. split; [lia|]. split.
    + intros h d [= <- <-] _. split; [reflexivity | lia].
    + intros H. specialize (H headers dataRows eq_refl). congruence.
  - destruct (@createColumnMap_from_throws headers 0 [] Hs) as [message E].
    rewrite E.
    cbn [ExcelProcessingResult.processedRows ExcelProcessingResult.jobDescriptions
         ExcelProcessingResult.totalRows ExcelProcessingResult.errors List.length app].
    split; [reflexivity|]. split; [lia|]. split.
    + intros h d [= <- <-] H. congruence.
    + intros _. split; [reflexivity|]. split; [reflexivity|]. eauto.
Qed.

Lemma parseRows_noColumn (columnMap : ColumnMap) (dataRows : list (list JSValue)) (i : nat)
      (jobs : list ExcelJobDescription.t) (errors : list jsstring) :
  noColumn (column columnMap "title") || noColumn (column columnMap "company")
  || noColumn (column columnMap "description") = true ->
  parseRows columnMap dataRows i jobs errors
  = (jobs, errors ++ map (fun k => missingRequiredFields (k + 2))
                         (seq i (List.length dataRows))).
Proof.
  intros Hno. revert i errors. induction dataRows as [|row dataRows IH]; intros i errors.
  - cbn. rewrite app_nil_r. reflexivity.
  - cbn [parseRows]. unfold parseJobDescriptionRow at 1. rewrite Hno, IH.
    cbn [List.length seq map]. rewrite <- app_assoc. reflexivity.
Qed.

Lemma validateExcelStructure_isValid (headers : list (option JSValue))
      (dataRows : list (list JSValue)) :
  isValid (validateExcelStructure (Worksheet (Some headers) dataRows)) = true
  <-> headersAreStrings headers = true
      /\ lastHeaderFor "title" headers <> None
      /\ lastHeaderFor "company" headers <> None
      /\ lastHeaderFor "description" headers <> None.
Proof.
  unfold validateExcelStructure. destruct headers as [|cell headers].
  - cbn. split; [discriminate | intros [_ [H _]]; congruence].
  - cbn [List.length Nat.eqb createColumnMap].
    destruct (headersAreStrings (cell :: headers)) eqn:Hs.
    + destruct (@createColumnMap_from_column (cell :: headers) 0 [] Hs)
        as [columnMap [E Hcol]].
      rewrite E. cbn [requiredColumns filter]. rewrite !Hcol. cbn [column].
      destruct (lastHeaderFor "title" (cell :: headers)),
        (lastHeaderFor "company" (cell :: headers)),
        (lastHeaderFor "description" (cell :: headers));
        cbn; split; try discriminate; try (intros [_ [? [? ?]]]; congruence);
        intros _; repeat split; discriminate.
    + destruct (@createColumnMap_from_throws (cell :: headers) 0 [] Hs) as [message E].
      rewrite E. cbn [isValid]. split; [discriminate | intros [H _]; discriminate H].
Qed.

(** On header cells that are strings or empty, a field's column is the
    last header filed under it.  A sheet is valid exactly when its header
    cells are such and title, company and description each have a column;
    but a row is read only when each of the three has a column other than
    the first (column 0 counts as no column): in a sheet whose first column
    is the last one filed under title, company or description, every row is
    rejected with 'Missing required fields', valid though the sheet is.  A
    header cell that is no string makes the sheet invalid and the file fail
    as a whole, with a 'Failed to ...' message each. *)
Theorem first_column_is_never_found (headers : list (option JSValue))
        (dataRows : list (list JSValue)) :
  let workbook := Worksheet (Some headers) dataRows in
  let result := processExcelFile workbook in
  (isValid (validateExcelStructure workbook) = true
   <-> headersAreStrings headers = true
       /\ lastHeaderFor "title" headers <> None
       /\ lastHeaderFor "company" headers <> None
       /\ lastHeaderFor "description" headers <> None)
  /\ (headersAreStrings headers = true ->
      exists columnMap,
        createColumnMap (Some headers) = Ok columnMap
        /\ forall field, column columnMap field = lastHeaderFor field headers)
  /\ (headersAreStrings headers = true ->
      lastHeaderFor "title" headers = Some 0%nat
      \/ lastHeaderFor "company" headers = Some 0%nat
      \/ lastHeaderFor "description" headers = Some 0%nat ->
      ExcelProcessingResult.jobDescriptions result = []
      /\ ExcelProcessingResult.errors result
         = map (fun i => missingRequiredFields (i + 2)) (seq 0 (List.length dataRows))
      /\ (isValid (validateExcelStructure workbook) = true ->
          R1AgentEnhanced.processExcelFile workbook = result))
  /\ (headersAreStrings headers = false ->
      headers <> []
      /\ exists message,
           validation_errors (validateExcelStructure workbook)
           = [js "Failed to validate Excel file: " ++ message]
           /\ ExcelProcessingResult.errors result
              = [js "Failed to process Excel file: " ++ message]
           /\ ExcelProcessingResult.jobDescriptions result = []).
Proof.
  intros workbook result.
  assert (Hcol : headersAreStrings headers = true ->
                 exists columnMap,
                   createColumnMap (Some headers) = Ok columnMap
                   /\ forall field, column columnMap field = lastHeaderFor field headers).
  { intros Hs. destruct (@createColumnMap_from_column headers 0 [] Hs)
      as [columnMap [E H]].
    exists columnMap. split; [exact E|]. intros field. rewrite H.
    destruct (lastHeaderFor field headers); reflexivity. }
  split; [apply validateExcelStructure_isValid|]. split; [exact Hcol|]. split.
  - intros Hs Hfirst. destruct (Hcol Hs) as [columnMap [E H]].
    assert (Hno : noColumn (column columnMap "title")
                  || noColumn (column columnMap "company")
                  || noColumn (column columnMap "description") = true).
    { rewrite !H. destruct Hfirst as [-> | [-> | ->]]; cbn [noColumn];
        rewrite ?orb_true_r; reflexivity. }
    unfold result, workbook, processExcelFile, parseJobDescriptions.
    rewrite E, (@parseRows_noColumn _ _ _ _ _ Hno).
    cbn [ExcelProcessingResult.jobDescriptions ExcelProcessingResult.errors app].
    split; [reflexivity|]. split; [reflexivity|].
    intros Hv. unfold R1AgentEnhanced.processExcelFile. rewrite Hv. cbn [negb].
    unfold processExcelFile, parseJobDescriptions.
    rewrite E, (@parseRows_noColumn _ _ _ _ _ Hno). reflexivity.
  - intros Hs. split; [intros ->; discriminate Hs|].
    destruct (@createColumnMap_from_throws headers 0 [] Hs) as [message E].
    exists message. unfold result, workbook, validateExcelStructure, processExcelFile,
      parseJobDescriptions.
    cbn [createColumnMap]. rewrite E.
    destruct headers as [|cell headers]; [discriminate Hs|].
    cbn [List.length Nat.eqb validation_errors ExcelProcessingResult.errors
         ExcelProcessingResult.jobDescriptions app R1Agent.messageOr].
    repeat split; reflexivity.
Qed.

End ExcelProperties.

Lemma first_column_is_never_found_witness :
  (headersAreStrings sampleHeaders = true
   /\ @lastHeaderFor asciiOps "title" sampleHeaders = Some 0%nat
   /\ ExcelProcessor.isValid
        (@ExcelProcessor.validateExcelStructure asciiOps
           (Worksheet (Some sampleHeaders) [sampleRow])) = true
   /\ ExcelProcessingResult.jobDescriptions
        (@ExcelProcessor.processExcelFile asciiOps sampleConversions
           (Worksheet (Some sampleHeaders) [sampleRow])) = []
   /\ ExcelProcessingResult.errors
        (@ExcelProcessor.processExcelFile asciiOps sampleConversions
           (Worksheet (Some sampleHeaders) [sampleRow]))
      = [js "Row 2: Missing required fields (title, company, or description)"])
  /\ (headersAreStrings sampleHeadersWithYear = false
      /\ @lastHeaderFor asciiOps "title" sampleHeadersWithYear = Some 1%nat
      /\ ExcelProcessor.isValid
           (@ExcelProcessor.validateExcelStructure asciiOps
              (Worksheet (Some sampleHeadersWithYear) [sampleRowWithRef])) = false
      /\ exists message,
           message = js "header.toLowerCase is not a function"
           /\ ExcelProcessor.validation_errors
                (@ExcelProcessor.validateExcelStructure asciiOps
                   (Worksheet (Some sampleHeadersWithYear) [sampleRowWithRef]))
              = [js "Failed to validate Excel file: " ++ message]
           /\ ExcelProcessingResult.errors
                (@ExcelProcessor.processExcelFile asciiOps sampleConversions
                   (Worksheet (Some sampleHeadersWithYear) [sampleRowWithRef]))
              = [js "Failed to process Excel file: " ++ message]).
Proof.
  pose proof (@first_column_is_never_found asciiOps sampleConversions sampleHeaders
                [sampleRow]) as H.
  pose proof (@first_column_is_never_found asciiOps sampleConversions
                sampleHeadersWithYear [sampleRowWithRef]) as H'.
  cbv zeta in H, H'. split.
  - destruct (proj1 (proj2 (proj2 H)) eq_refl (or_introl eq_refl)) as [H1 [H2 _]].
    split; [reflexivity|]. split; [reflexivity|].
    split; [apply (proj1 H); repeat split; discriminate|].
    split; [exact H1 | exact H2].
  - destruct (proj2 (proj2 (proj2 H')) eq_refl) as [_ [message [H1 [H2 _]]]].
    split; [reflexivity|]. split; [reflexivity|]. split; [reflexivity|].
    exists (js "header.toLowerCase is not a function").
    split; [reflexivity|]. split; reflexivity.
Defined.

(** ** The Excel processor: what a job description read from a row holds *)

Section ExcelRowProperties.
Context {ops : StringOps} {conversions : Conversions}.
Import ResumeParser ExcelProcessor.

Lemma trimStart_clean (s : jsstring) :
  match trimStart s with [] => True | c :: _ => isWhiteSpace c = false end.
Proof.
  induction s as [|c s IH]; [exact I|]. cbn [trimStart].
  destruct (isWhiteSpace c) eqn:Hc; [exact IH | exact Hc].
Qed.

Lemma trimEnd_clean (s : jsstring) :
  match s with [] => True | c :: _ => isWhiteSpace c = false end ->
  match trimEnd s with [] => True | c :: _ => isWhiteSpace c = false end.
Proof.
  destruct s as [|c s]; [intros _; exact I|]. intros Hc.
  rewrite trimEnd_cons, Hc, andb_false_r. exact Hc.
Qed.

Lemma trimStart_of_clean (s : jsstring) :
  match s with [] => True | c :: _ => isWhiteSpace c = false end -> trimStart s = s.
Proof.
  destruct s as [|c s]; [reflexivity|]. intros Hc. cbn [trimStart]. rewrite Hc. reflexivity.
Qed.

Lemma trimStart_idempotent (s : jsstring) : trimStart (trimStart s) = trimStart s.
Proof. apply trimStart_of_clean, trimStart_clean. Qed.

Lemma trim_idempotent (s : jsstring) : trim (trim s) = trim s.
Proof.
  unfold trim.
  rewrite (trimStart_of_clean (trimEnd (trimStart s)))
    by apply trimEnd_clean, trimStart_clean.
  unfold trimEnd. rewrite rev_involutive, trimStart_idempotent. reflexivity.
Qed.

Lemma getCellValue_trimmed (row : list JSValue) (index : option nat) (value : jsstring) :
  getCellValue row index = Ok value -> trim value = value.
Proof.
  unfold getCellValue. destruct index as [index|]; [|intros [= <-]; reflexivity].
  destruct (List.length row <=? index)%nat; [intros [= <-]; reflexivity|].
  destruct (truthy (nth index row VUndefined)); [|intros [= <-]; reflexivity].
  destruct (String_ (nth index row VUndefined)) as [text|]; cbn [bind]; [|discriminate].
  intros [= <-]. apply trim_idempotent.
Qed.

Lemma takeDigits_digits (s : jsstring) : forallb isDigit (takeDigits s) = true.
Proof.
  induction s as [|c s IH]; [reflexivity|]. cbn [takeDigits].
  destruct (isDigit c) eqn:Hc; [|reflexivity]. cbn [forallb]. rewrite Hc, IH. reflexivity.
Qed.

Lemma firstDigits_digits (s digits : jsstring) :
  firstDigits s = Some digits -> forallb isDigit digits = true /\ digits <> [].
Proof.
  revert digits. induction s as [|c s IH]; intros digits; [discriminate|].
  cbn [firstDigits]. destruct (isDigit c) eqn:Hc; [|apply IH]. intros [= <-]. split.
  - exact (takeDigits_digits (c :: s)).
  - rewrite Hc. discriminate.
Qed.

Lemma parseInt10_nonneg (digits : jsstring) :
  forallb isDigit digits = true -> (0 <= parseInt10 digits)%Z.
Proof.
  unfold parseInt10.
  assert (H : forall value, (0 <= value)%Z -> forallb isDigit digits = true ->
                            (0 <= fold_left (fun value c => 10 * value + (Z.of_N c - 48))
                                            digits value)%Z).
  { induction digits as [|c digits IH]; intros value Hv Hd; [exact Hv|].
    cbn [fold_left forallb] in *. apply andb_prop in Hd. destruct Hd as [Hc Hd].
    apply IH; [|exact Hd]. unfold isDigit in Hc. apply andb_prop in Hc.
    destruct Hc as [Hlo _]. apply N.leb_le in Hlo. lia. }
  intros Hd. apply (H 0%Z); [lia | exact Hd].
Qed.

Lemma splitOn_pieces (isSep : N -> bool) (s piece : jsstring) (c : N) :
  In piece (splitOn isSep s) -> In c piece -> isSep c = false.
Proof.
  revert piece. induction s as [|d s IH]; intros piece Hp Hc.
  - destruct Hp as [<- | []]. destruct Hc.
  - cbn [splitOn] in Hp. destruct (isSep d) eqn:Hd.
    + destruct Hp as [<- | Hp]; [destruct Hc | exact (IH _ Hp Hc)].
    + destruct (splitOn isSep s) as [|first pieces] eqn:Hs.
      * destruct Hp as [<- | []]. destruct Hc as [<- | []]. exact Hd.
      * destruct Hp as [<- | Hp].
        -- destruct Hc as [<- | Hc]; [exact Hd|]. apply (IH first); [left; reflexivity|exact Hc].
        -- apply (IH piece); [right; exact Hp | exact Hc].
Qed.

Lemma parseSkills_entries (row : list JSValue) (index : option nat)
      (skills : list jsstring) (skill : jsstring) :
  parseSkills row index = Ok (Some skills) -> In skill skills ->
  skill <> [] /\ trim skill = skill /\ forall c, In c skill -> isSeparator c = false.
Proof.
  unfold parseSkills. destruct index as [index|]; [|discriminate].
  destruct (getCellValue row (Some index)) as [value|]; cbn [bind]; [|discriminate].
  destruct (negb (nonEmpty value)); [discriminate|]. intros [= <-] Hin.
  apply filter_In in Hin. destruct Hin as [Hin Hlen]. apply in_map_iff in Hin.
  destruct Hin as [piece [<- Hpiece]]. split; [|split].
  - destruct (trim piece); [discriminate Hlen | discriminate].
  - apply trim_idempotent.
  - intros c Hc. apply trim_incl in Hc. exact (@splitOn_pieces _ _ _ _ Hpiece Hc).
Qed.

Lemma parseExperience_nonneg (row : list JSValue) (index : option nat) (years : Z) :
  parseExperience row index = Ok (Some years) -> (0 <= years)%Z.
Proof.
  unfold parseExperience. destruct index as [index|]; [|discriminate].
  destruct (getCellValue row (Some index)) as [value|]; cbn [bind]; [|discriminate].
  destruct (negb (nonEmpty value)); [discriminate|].
  destruct (firstDigits value) as [digits|] eqn:Hd; [|discriminate].
  intros [= <-]. apply parseInt10_nonneg. exact (proj1 (@firstDigits_digits _ _ Hd)).
Qed.

(** A job description read from a row leaves the errors as they were.  Its
    title, company and description are not empty and carry no white space
    at either end, and each comes from a column other than the first; its
    id is made of them and of the row number; its minimum experience, if
    any, is not negative; each of its required and preferred skills is not
    empty, carries no white space at either end and contains neither a
    comma nor a semicolon. *)
Theorem job_from_row_is_well_formed (row : list JSValue) (columnMap : ColumnMap)
        (rowNumber : nat) (errors errors' : list jsstring) (job : ExcelJobDescription.t) :
  parseJobDescriptionRow row columnMap rowNumber errors = (Ok (Some job), errors') ->
  errors' = errors
  /\ (forall field, In field requiredColumns ->
                    exists index, column columnMap field = Some (S index))
  /\ (forall text,
        In text [ExcelJobDescription.title job; ExcelJobDescription.company job;
                 ExcelJobDescription.description job] ->
        text <> [] /\ trim text = text)
  /\ ExcelJobDescription.id job
     = generateJobId (ExcelJobDescription.title job) (ExcelJobDescription.company job)
                     rowNumber
  /\ (forall years, ExcelJobDescription.minimumExperience job = Some years ->
                    (0 <= years)%Z)
  /\ (forall skills skill,
        ExcelJobDescription.requiredSkills job = Some skills
        \/ ExcelJobDescription.preferredSkills job = Some skills ->
        In skill skills ->
        skill <> [] /\ trim skill = skill
        /\ forall c, In c skill -> isSeparator c = false).
Proof.
  unfold parseJobDescriptionRow.
  destruct (noColumn (column columnMap "title")) eqn:Ct; [discriminate|].
  destruct (noColumn (column columnMap "company")) eqn:Cc; [discriminate|].
  destruct (noColumn (column columnMap "description")) eqn:Cd; [discriminate|].
  cbn [orb].
  destruct (getCellValue row (column columnMap "title")) as [title|] eqn:Ht;
    cbn [bind]; [|discriminate].
  destruct (getCellValue row (column columnMap "company")) as [company|] eqn:Hc;
    cbn [bind]; [|discriminate].
  destruct (getCellValue row (column columnMap "description")) as [description|] eqn:Hd;
    cbn [bind]; [|discriminate].
  destruct (nonEmpty title) eqn:Nt; [|discriminate].
  destruct (nonEmpty company) eqn:Nc; [|discriminate].
  destruct (nonEmpty description) eqn:Nd; [|discriminate].
  cbn [negb orb].
  destruct (getCellValue row (column columnMap "requirements")); cbn [bind]; [|discriminate].
  destruct (getCellValue row (column columnMap "department")); cbn [bind]; [|discriminate].
  destruct (getCellValue row (column columnMap "location")); cbn [bind]; [|discriminate].
  destruct (getCellValue row (column columnMap "education")); cbn [bind]; [|discriminate].
  destruct (getCellValue row (column columnMap "salary")); cbn [bind]; [|discriminate].
  destruct (getCellValue row (column columnMap "employmentType")); cbn [bind];
    [|discriminate].
  destruct (parseExperience row (column columnMap "minimumExperience")) as [experience|]
    eqn:He; cbn [bind]; [|discriminate].
  destruct (parseSkills row (column columnMap "requiredSkills")) as [required|] eqn:Hr;
    cbn [bind]; [|discriminate].
  destruct (parseSkills row (column columnMap "preferredSkills")) as [preferred|] eqn:Hp;
    cbn [bind]; [|discriminate].
  intros [= <- <-].
  cbn [ExcelJobDescription.title ExcelJobDescription.company
       ExcelJobDescription.description ExcelJobDescription.id
       ExcelJobDescription.minimumExperience ExcelJobDescription.requiredSkills
       ExcelJobDescription.preferredSkills].
  rewrite (@getCellValue_trimmed _ _ _ Ht), (@getCellValue_trimmed _ _ _ Hc),
    (@getCellValue_trimmed _ _ _ Hd).
  split; [reflexivity|]. split; [|split; [|split; [|split]]].
  - intros field [<- | [<- | [<- | []]]].
    + destruct (column columnMap "title") as [[|index]|]; try discriminate; eauto.
    + destruct (column columnMap "company") as [[|index]|]; try discriminate; eauto.
    + destruct (column columnMap "description") as [[|index]|]; try discriminate; eauto.
  - intros text [<- | [<- | [<- | []]]].
    + split; [destruct title; discriminate | exact (@getCellValue_trimmed _ _ _ Ht)].
    + split; [destruct company; discriminate | exact (@getCellValue_trimmed _ _ _ Hc)].
    + split; [destruct description; discriminate | exact (@getCellValue_trimmed _ _ _ Hd)].
  - reflexivity.
  - intros years ->. exact (@parseExperience_nonneg _ _ _ He).
  - intros skills skill [-> | ->] Hin.
    + exact (@parseSkills_entries _ _ _ _ Hr Hin).
    + exact (@parseSkills_entries _ _ _ _ Hp Hin).
Qed.

End ExcelRowProperties.

Lemma job_from_row_is_well_formed_witness :
  @ExcelProcessor.createColumnMap asciiOps (Some sampleHeadersWithRef) = Ok sampleColumnMap
  /\ exists job,
       @ExcelProcessor.parseJobDescriptionRow asciiOps sampleConversions sampleRowWithRef
         sampleColumnMap 2 []
       = (Ok (Some job), [])
       /\ ExcelJobDescription.minimumExperience job = Some 3%Z
       /\ ExcelJobDescription.requiredSkills job = Some [js "Go"; js "Rust"]
       /\ ExcelJobDescription.id job = js "acme-engineer-2"
       /\ forall years,
            ExcelJobDescription.minimumExperience job = Some years -> (0 <= years)%Z.
Proof.
  split; [reflexivity|].
  eexists. split; [vm_compute; reflexivity|].
  split; [reflexivity|]. split; [reflexivity|]. split; [reflexivity|].
  refine (proj1 (proj2 (proj2 (proj2 (proj2
            (@job_from_row_is_well_formed asciiOps sampleConversions sampleRowWithRef
               sampleColumnMap 2 [] [] _ _)))))).
  vm_compute. reflexivity.
Defined.

(** ** The enhanced agent *)

Section EnhancedProperties.
Context {ops : StringOps} {host : Host} {conversions : Conversions}.
Import R1AgentEnhanced.

Lemma parseResume_ResumeInput_object (resumeInput : ResumeInput.t) :
  ResumeParser.parseResume (ResumeInput_object resumeInput) = Ok unknownProfileObject.
Proof. destruct resumeInput as [[|] content]; reflexivity. Qed.

Lemma skills_empty_fails (candidateData : ParsedResume) (jobRequirements : JobRequirements) :
  skills candidateData = [] ->
  screeningResult (ResumeEvaluator.evaluateAgainstCriteria candidateData jobRequirements)
  = fail_.
Proof.
  intros Hs.
  destruct (screeningResult
              (ResumeEvaluator.evaluateAgainstCriteria candidateData jobRequirements)) eqn:E;
    [|reflexivity].
  apply screeningResult_pass_iff in E. exfalso. revert E. unfold earnedPoints.
  set (f := ResumeEvaluator.extractEvaluationFeatures candidateData).
  pose proof (evaluateExperience_range f jobRequirements).
  pose proof (evaluateEducation_range f jobRequirements).
  pose proof (evaluateCertifications_range f jobRequirements).
  assert (Hzero : ResumeEvaluator.score (ResumeEvaluator.evaluateSkills f jobRequirements)
                  = 0%Z).
  { unfold f, ResumeEvaluator.evaluateSkills, ResumeEvaluator.extractEvaluationFeatures.
    cbn [ResumeEvaluator.score ResumeEvaluator.Features.hasRequiredSkills
         ResumeEvaluator.Features.skillMatch].
    rewrite Hs. reflexivity. }
  lia.
Qed.

Lemma fold_screenOne (candidateProfile : ParsedResume)
      (jobDescriptions : list ExcelJobDescription.t)
      (screeningResults : list Screened.t) (screeningHistory : History) :
  fst (fold_left (screenOne candidateProfile) jobDescriptions
                 (screeningResults, screeningHistory))
  = screeningResults
    ++ map (fun jobDescription =>
              Screened.mk jobDescription
                (ResumeEvaluator.evaluateAgainstCriteria
                   candidateProfile (convertExcelJobToRequirements jobDescription)))
           jobDescriptions.
Proof.
  revert screeningResults screeningHistory.
  induction jobDescriptions as [|job jobs IH]; intros screeningResults screeningHistory.
  - cbn. rewrite app_nil_r. reflexivity.
  - cbn [fold_left map]. unfold screenOne at 2. rewrite IH, <- app_assoc. reflexivity.
Qed.

(** [screenResumeAgainstMultipleJobs] hands the whole input object,
    [{type, content}], to [parseResume], which reads it as a structured
    resume and finds none of the properties it looks for.  So whatever the
    content, the profile is the 'Unknown' one with empty lists, the call
    returns, there is one result for each job, in order, every result is
    'fail', and the summary counts no passed job and no best match. *)
Theorem enhanced_screening_fails_every_job (resumeInput : ResumeInput.t)
        (jobDescriptions : list ExcelJobDescription.t) (screeningHistory : History) :
  ResumeParser.parseResume (ResumeInput_object resumeInput) = Ok unknownProfileObject
  /\ Typed.ParsedResume_of unknownProfileObject = Some unknownProfile
  /\ exists screening,
       fst (screenResumeAgainstMultipleJobs resumeInput jobDescriptions screeningHistory)
       = Ok (Some screening)
       /\ Screening.candidateProfile screening = unknownProfile
       /\ map Screened.jobDescription (Screening.screeningResults screening)
          = jobDescriptions
       /\ (forall screened, In screened (Screening.screeningResults screening) ->
                            screeningResult (Screened.result screened) = fail_)
       /\ Summary.totalJobs (Screening.summary screening) = List.length jobDescriptions
       /\ Summary.passedJobs (Screening.summary screening) = 0%nat
       /\ Summary.failedJobs (Screening.summary screening) = List.length jobDescriptions
       /\ Summary.bestMatches (Screening.summary screening) = [].
Proof.
  split; [apply parseResume_ResumeInput_object|]. split; [reflexivity|].
  unfold screenResumeAgainstMultipleJobs. rewrite parseResume_ResumeInput_object.
  change (Typed.ParsedResume_of unknownProfileObject) with (Some unknownProfile).
  cbv iota.
  pose proof (fold_screenOne unknownProfile jobDescriptions [] screeningHistory) as Hf.
  destruct (fold_left (screenOne unknownProfile) jobDescriptions ([], screeningHistory))
    as [screeningResults history'].
  cbn [fst app] in Hf. subst screeningResults.
  eexists. split; [reflexivity|].
  cbn [Screening.candidateProfile Screening.screeningResults Screening.summary].
  set (results := map _ jobDescriptions).
  assert (Hfail : forall screened, In screened results ->
                                   screeningResult (Screened.result screened) = fail_).
  { intros screened Hin. apply in_map_iff in Hin. destruct Hin as [job [<- _]].
    cbn [Screened.result]. apply skills_empty_fails. reflexivity. }
  assert (Hnone : filter (fun r => isPass (Screened.result r)) results = []).
  { clearbody results. induction results as [|r results IH]; [reflexivity|].
    cbn [filter]. unfold isPass at 1. rewrite (Hfail r (or_introl eq_refl)).
    apply IH. intros s Hs. apply Hfail. right. exact Hs. }
  assert (Hall : filter (fun r => isFail (Screened.result r)) results = results).
  { clear Hnone. clearbody results. induction results as [|r results IH]; [reflexivity|].
    cbn [filter]. unfold isFail at 1. rewrite (Hfail r (or_introl eq_refl)).
    cbv iota. f_equal. apply IH. intros s Hs. apply Hfail. right. exact Hs. }
  split; [reflexivity|]. split.
  { unfold results. rewrite map_map.
    rewrite (map_ext _ (fun job => job)) by reflexivity. apply map_id. }
  split; [exact Hfail|].
  unfold summarize.
  cbn [Summary.totalJobs Summary.passedJobs Summary.failedJobs Summary.bestMatches].
  rewrite Hnone, Hall. split; [reflexivity|]. split; [reflexivity|].
  split; [unfold results; apply length_map | reflexivity].
Qed.

End EnhancedProperties.

(** ** The enhanced agent: the summary *)

Section SummaryProperties.
Context {ops : StringOps}.
Import R1AgentEnhanced.

Lemma insertByConfidence_In (r x : Screened.t) (sorted : list Screened.t) :
  In x (insertByConfidence r sorted) <-> x = r \/ In x sorted.
Proof.
  induction sorted as [|r' sorted IH]; cbn [insertByConfidence].
  - simpl. intuition congruence.
  - destruct (Qle_bool _ _); simpl in *; [intuition congruence|].
    rewrite IH. intuition congruence.
Qed.

Lemma sortByConfidence_In (x : Screened.t) (results : list Screened.t) :
  In x (sortByConfidence results) <-> In x results.
Proof.
  induction results as [|r results IH]; [reflexivity|].
  cbn [sortByConfidence fold_right]. fold (sortByConfidence results).
  rewrite insertByConfidence_In, IH. simpl. intuition congruence.
Qed.

Lemma insertByConfidence_length (r : Screened.t) (sorted : list Screened.t) :
  List.length (insertByConfidence r sorted) = S (List.length sorted).
Proof.
  induction sorted as [|r' sorted IH]; [reflexivity|]. cbn [insertByConfidence].
  destruct (Qle_bool _ _); cbn [List.length]; [reflexivity | rewrite IH; reflexivity].
Qed.

Lemma sortByConfidence_length (results : list Screened.t) :
  List.length (sortByConfidence results) = List.length results.
Proof.
  induction results as [|r results IH]; [reflexivity|].
  cbn [sortByConfidence fold_right]. fold (sortByConfidence results).
  rewrite insertByConfidence_length, IH. reflexivity.
Qed.

Lemma insertByConfidence_Sorted (r : Screened.t) (sorted : list Screened.t) :
  Sorted (fun a b => (confidenceScore (Screened.result b)
                      <= confidenceScore (Screened.result a))%Q) sorted ->
  Sorted (fun a b => (confidenceScore (Screened.result b)
                      <= confidenceScore (Screened.result a))%Q)
         (insertByConfidence r sorted).
Proof.
  induction sorted as [|r' sorted IH]; intros Hs; cbn [insertByConfidence].
  - constructor; constructor.
  - destruct (Qle_bool (confidenceScore (Screened.result r'))
                       (confidenceScore (Screened.result r))) eqn:E.
    + apply Qle_bool_iff in E. constructor; [exact Hs | constructor; exact E].
    + assert (Hlt : (confidenceScore (Screened.result r)
                     <= confidenceScore (Screened.result r'))%Q).
      { apply Qlt_le_weak, Qnot_le_lt. intros H. apply Qle_bool_iff in H. congruence. }
      inversion Hs as [|? ? Hs' Hd]; subst. constructor; [exact (IH Hs')|].
      destruct sorted as [|r'' sorted]; cbn [insertByConfidence].
      * constructor. exact Hlt.
      * destruct (Qle_bool (confidenceScore (Screened.result r''))
                           (confidenceScore (Screened.result r)));
          constructor; [exact Hlt|].
        inversion Hd; subst. assumption.
Qed.

Lemma sortByConfidence_Sorted (results : list Screened.t) :
  Sorted (fun a b => (confidenceScore (Screened.result b)
                      <= confidenceScore (Screened.result a))%Q)
         (sortByConfidence results).
Proof.
  induction results as [|r results IH]; [constructor|].
  cbn [sortByConfidence fold_right]. apply insertByConfidence_Sorted. exact IH.
Qed.

Lemma Sorted_firstn {A : Type} (R : A -> A -> Prop) (n : nat) (l : list A) :
  Sorted R l -> Sorted R (firstn n l).
Proof.
  revert l. induction n as [|n IH]; intros l Hs; [constructor|].
  destruct l as [|a l]; [constructor|]. cbn [firstn].
  inversion Hs as [|? ? Hs' Hd]; subst. constructor; [exact (IH _ Hs')|].
  destruct n; [constructor|]. destruct l as [|b l]; [constructor|].
  cbn [firstn]. constructor. inversion Hd; subst. assumption.
Qed.

Lemma firstn_subset {A : Type} (n : nat) (l : list A) (x : A) :
  In x (firstn n l) -> In x l.
Proof.
  revert l. induction n as [|n IH]; intros l H; [destruct H|].
  destruct l as [|a l]; [destruct H|]. cbn [firstn] in H.
  destruct H as [<- | H]; [left; reflexivity | right; exact (IH _ H)].
Qed.

Lemma Sorted_map {A B : Type} (R : A -> A -> Prop) (R' : B -> B -> Prop) (f : A -> B)
      (l : list A) :
  (forall a b, R a b -> R' (f a) (f b)) -> Sorted R l -> Sorted R' (map f l).
Proof.
  intros Hf. induction l as [|a l IH]; intros Hs; [constructor|]. cbn [map].
  inversion Hs as [|? ? Hs' Hd]; subst. constructor; [exact (IH Hs')|].
  destruct l as [|b l]; [constructor|]. cbn [map]. constructor. apply Hf.
  inversion Hd; subst. assumption.
Qed.

Lemma filter_pass_fail_length (results : list Screened.t) :
  (List.length (filter (fun r => isPass (Screened.result r)) results)
   + List.length (filter (fun r => isFail (Screened.result r)) results)
   = List.length results)%nat.
Proof.
  induction results as [|r results IH]; [reflexivity|]. cbn [filter].
  unfold isPass at 1, isFail at 1.
  destruct (screeningResult (Screened.result r)); cbn [List.length]; lia.
Qed.

(** The summary of a list of screening results: the passed and the failed
    jobs together are all the results; the best matches are at most three,
    and three when at least three jobs passed; they are in the order of
    falling confidence; each is a passed result, with its job, its
    confidence as score and its match reasons. *)
Theorem summary_counts_and_best_matches (jobDescriptions : list ExcelJobDescription.t)
        (screeningResults : list Screened.t) :
  let summary := summarize jobDescriptions screeningResults in
  (Summary.passedJobs summary + Summary.failedJobs summary
   = List.length screeningResults)%nat
  /\ List.length (Summary.bestMatches summary) = Nat.min 3 (Summary.passedJobs summary)
  /\ Sorted (fun a b => (BestMatch.score b <= BestMatch.score a)%Q)
            (Summary.bestMatches summary)
  /\ (forall best, In best (Summary.bestMatches summary) ->
        exists screened,
          In screened screeningResults
          /\ screeningResult (Screened.result screened) = pass_
          /\ BestMatch.job best = Screened.jobDescription screened
          /\ BestMatch.score best = confidenceScore (Screened.result screened)
          /\ BestMatch.reasons best = matchReasons (Screened.result screened)).
Proof.
  intros summary. unfold summary, summarize.
  cbn [Summary.passedJobs Summary.failedJobs Summary.bestMatches].
  split; [apply filter_pass_fail_length|]. split; [|split].
  - rewrite length_map, length_firstn, sortByConfidence_length. reflexivity.
  - apply (Sorted_map (R := fun a b => (confidenceScore (Screened.result b)
                                        <= confidenceScore (Screened.result a))%Q)).
    + intros a b H. exact H.
    + apply Sorted_firstn, sortByConfidence_Sorted.
  - intros best Hin. apply in_map_iff in Hin. destruct Hin as [screened [<- Hin]].
    apply firstn_subset, sortByConfidence_In, filter_In in Hin. destruct Hin as [Hin Hp].
    exists screened. split; [exact Hin|]. split; [|repeat split].
    unfold isPass in Hp. destruct (screeningResult (Screened.result screened));
      [reflexivity | discriminate].
Qed.

End SummaryProperties.

(** ** The enhanced agent: requirements made from a job description *)

Section ConversionProperties.
Context {ops : StringOps}.
Import R1AgentEnhanced.
Local Open Scope Z_scope.

Lemma parseEducationLevel_le_classifyDegree (text : jsstring) :
  levelHierarchy (parseEducationLevel text) <= levelHierarchy (classifyDegree text).
Proof.
  unfold parseEducationLevel, classifyDegree.
  repeat match goal with
         | |- context [String_includes ?a ?b] =>
             destruct (String_includes a b); cbn [orb andb]
         end; cbn [levelHierarchy]; lia.
Qed.

Lemma highestRank_In (edu : Education.t) (education : list Education.t) :
  In edu education ->
  levelHierarchy (classifyDegree (Education.degree edu)) <= highestRank education.
Proof.
  induction education as [|e education IH]; intros H; [destruct H|].
  rewrite highestRank_cons. destruct H as [-> | H]; [lia | specialize (IH H); lia].
Qed.

Lemma evaluateEducation_pass_iff (candidateData : ParsedResume)
      (jobRequirements : JobRequirements) :
  ResumeEvaluator.pass
    (ResumeEvaluator.evaluateEducation
       (ResumeEvaluator.extractEvaluationFeatures candidateData) jobRequirements) = true
  <-> levelHierarchy (minimumDegree (requiredEducation jobRequirements))
      <= highestRank (education candidateData).
Proof.
  unfold ResumeEvaluator.evaluateEducation, ResumeEvaluator.extractEvaluationFeatures.
  cbn [ResumeEvaluator.pass ResumeEvaluator.Features.educationLevel].
  rewrite <- determineEducationLevel_rank.
  pose proof (levelHierarchy_range
                (ResumeEvaluator.determineEducationLevel (education candidateData))) as H1.
  pose proof (levelHierarchy_range (minimumDegree (requiredEducation jobRequirements)))
    as H2.
  unfold orZero.
  destruct (Z.eqb_spec
              (levelHierarchy
                 (ResumeEvaluator.determineEducationLevel (education candidateData))) 0);
    [lia|].
  destruct (Z.eqb_spec (levelHierarchy (minimumDegree (requiredEducation jobRequirements)))
                       0); [lia|].
  rewrite Z.geb_le. reflexivity.
Qed.

Lemma validateJobRequirements_iff (requirements : JobRequirements) :
  R1Agent.validateJobRequirements requirements = true
  <-> 0 < minimumYearsOfExperience requirements /\ requiredSkills requirements <> [].
Proof.
  unfold R1Agent.validateJobRequirements.
  destruct (Z.eqb_spec (minimumYearsOfExperience requirements) 0) as [H0|H0];
    destruct (Z.ltb_spec (minimumYearsOfExperience requirements) 0) as [Hn|Hn];
    destruct (requiredSkills requirements) as [|s l];
    destruct (minimumDegree (requiredEducation requirements));
    cbn; split; try discriminate; try (intros [? ?]; lia || congruence);
    try (intros _; split; [lia | discriminate]).
Qed.

(** The requirements made from a job description of a sheet never ask for
    a certification, so every candidate gets the 10 points of that
    category.  The education text of the job is read with fewer keywords
    than a candidate's degree, so it never ranks higher than the same text
    would as a degree: a candidate one of whose degrees reads as the job's
    education text meets the education requirement.  The requirements
    pass [validateJobRequirements] exactly when the job has a minimum
    experience above 0 and a required skill. *)
Theorem converted_requirements (jobDescription : ExcelJobDescription.t) :
  let requirements := convertExcelJobToRequirements jobDescription in
  (forall features,
     ResumeEvaluator.evaluateCertifications features requirements
     = ResumeEvaluator.mkCategoryScore true 10)
  /\ (forall text,
        ExcelJobDescription.education jobDescription = Some text ->
        levelHierarchy (minimumDegree (requiredEducation requirements))
        <= levelHierarchy (classifyDegree text))
  /\ (forall candidateData edu,
        In edu (education candidateData) ->
        ExcelJobDescription.education jobDescription = Some (Education.degree edu) ->
        ResumeEvaluator.pass
          (ResumeEvaluator.evaluateEducation
             (ResumeEvaluator.extractEvaluationFeatures candidateData) requirements)
        = true)
  /\ (R1Agent.validateJobRequirements requirements = true
      <-> (exists years,
             ExcelJobDescription.minimumExperience jobDescription = Some years
             /\ 0 < years)
          /\ exists skill skills,
               ExcelJobDescription.requiredSkills jobDescription = Some (skill :: skills)).
Proof.
  intros requirements.
  assert (Hedu : forall text,
            ExcelJobDescription.education jobDescription = Some text ->
            levelHierarchy (minimumDegree (requiredEducation requirements))
            <= levelHierarchy (classifyDegree text)).
  { intros text Ht. unfold requirements, convertExcelJobToRequirements.
    cbn [requiredEducation minimumDegree]. rewrite Ht.
    apply parseEducationLevel_le_classifyDegree. }
  split; [reflexivity|]. split; [exact Hedu|]. split.
  - intros candidateData edu Hin Ht. apply evaluateEducation_pass_iff.
    pose proof (Hedu _ Ht). pose proof (highestRank_In _ _ Hin). lia.
  - rewrite validateJobRequirements_iff.
    unfold requirements, convertExcelJobToRequirements.
    cbn [minimumYearsOfExperience requiredSkills]. split.
    + intros [Hy Hs]. split.
      * destruct (ExcelJobDescription.minimumExperience jobDescription) as [years|];
          [eauto | lia].
      * destruct (ExcelJobDescription.requiredSkills jobDescription) as [[|skill skills]|];
          [congruence | eauto | congruence].
    + intros [[years [-> Hy]] [skill [skills ->]]]. split; [exact Hy | discriminate].
Qed.

End ConversionProperties.

(** ** The orchestrator: status *)

Section AgentStatusProperties.
Import R1Agent.
Variable now : Z.

(** The status read after [runR1]: when the three stages returned, the
    result is the evaluator's, no error is counted and there is no last
    error; when the parser, the extractor or the evaluator threw, two
    errors are counted, the last of them the 'evaluation' entry 'R1
    screening failed: ...' whose text ends with the one error message of
    the result.  [clearErrors] empties the log and changes nothing else. *)
Theorem agent_status_after_run (this : R1Agent.t) (resumeInput : ResumeInput.t)
        (jobRequirements : JobRequirements) :
  let run := runR1 now resumeInput jobRequirements this in
  let content := ResumeInput.content resumeInput in
  exists result status,
    fst run = Ok result
    /\ getAgentStatus now (snd run) = (Ok status, snd run)
    /\ (forall parsedResume features screeningResult,
          parser this content = Ok parsedResume ->
          featureExtractor_extractFeatures this parsedResume = Ok features ->
          evaluator_evaluateAgainstCriteria this parsedResume jobRequirements
          = Ok screeningResult ->
          result = screeningResult
          /\ errorCount status = 0%nat /\ lastError status = None)
    /\ ((exists error, parser this content = Throw error)
        \/ (exists parsedResume,
              parser this content = Ok parsedResume
              /\ ((exists error,
                     featureExtractor_extractFeatures this parsedResume = Throw error)
                  \/ (exists error,
                        evaluator_evaluateAgainstCriteria this parsedResume
                                                          jobRequirements
                        = Throw error))) ->
        errorCount status = 2%nat
        /\ exists message,
             errorMessages result = Some [message]
             /\ option_map ProcessingError.type (lastError status)
                = Some ProcessingError.evaluation
             /\ option_map ProcessingError.message (lastError status)
                = Some (js "R1 screening failed: " ++ message))
    /\ clearErrors (snd run) = (Ok tt, set_errors this [])
    /\ fst (getErrors (snd (clearErrors (snd run)))) = Ok [].
Proof.
  intros run content. unfold run, content. rewrite runR1_cases. cbv zeta.
  destruct (parser this (ResumeInput.content resumeInput)) as [parsedResume | e1] eqn:H1.
  - destruct (featureExtractor_extractFeatures this parsedResume) as [features | e2] eqn:H2.
    + destruct (evaluator_evaluateAgainstCriteria this parsedResume jobRequirements)
        as [screeningResult | e3] eqn:H3.
      * do 2 eexists. split; [reflexivity|]. split; [reflexivity|].
        split; [|split; [|split; reflexivity]].
        -- intros p f r Hp Hf Hr. injection Hp as <-. rewrite H3 in Hr.
           injection Hr as <-. repeat split.
        -- intros [[error H] | [p [Hp [[error H] | [error H]]]]]; try discriminate H;
             injection Hp as <-; [rewrite H2 in H | rewrite H3 in H]; discriminate H.
      * do 2 eexists. split; [reflexivity|]. split; [reflexivity|].
        split; [|split; [|split; reflexivity]].
        -- intros p f r Hp Hf Hr. injection Hp as <-. rewrite H3 in Hr. discriminate Hr.
        -- intros _. split; [reflexivity|]. eexists. repeat split; reflexivity.
    + do 2 eexists. split; [reflexivity|]. split; [reflexivity|].
      split; [|split; [|split; reflexivity]].
      * intros p f r Hp Hf Hr. injection Hp as <-. rewrite H2 in Hf. discriminate Hf.
      * intros _. split; [reflexivity|]. eexists. repeat split; reflexivity.
  - do 2 eexists. split; [reflexivity|]. split; [reflexivity|].
    split; [|split; [|split; reflexivity]].
    + intros p f r Hp. discriminate Hp.
    + intros _. split; [reflexivity|]. eexists. repeat split; reflexivity.
Qed.

End AgentStatusProperties.

(** ** The Excel processor: job ids *)

Section JobIdProperties.
Context {ops : StringOps} {conversions : Conversions}.
Import ExcelProcessor.

Lemma js_injective (a b : string) : js a = js b -> a = b.
Proof.
  unfold js. intros H.
  rewrite <- (string_of_list_ascii_of_string a), <- (string_of_list_ascii_of_string b).
  f_equal. revert H. generalize (list_ascii_of_string b) as lb.
  induction (list_ascii_of_string a) as [|x la IH]; intros [|y lb] H; try discriminate.
  - reflexivity.
  - cbn [map] in H. injection H as Hxy Hl. f_equal; [|exact (IH _ Hl)].
    rewrite <- (ascii_N_embedding x), <- (ascii_N_embedding y), Hxy. reflexivity.
Qed.

Lemma Number_toString_injective (a b : Z) : Number_toString a = Number_toString b -> a = b.
Proof.
  unfold Number_toString. intros H. apply js_injective in H.
  assert (Hn : forall z, Z.to_int z <> Decimal.Pos Decimal.Nil
                         /\ Z.to_int z <> Decimal.Neg Decimal.Nil).
  { intros [|p|p]; cbn [Z.to_int]; split; try discriminate;
      intros [= E]; exact (DecimalPos.Unsigned.to_uint_nonnil p E). }
  apply DecimalZ.to_int_inj.
  assert (E : Some (Z.to_int a) = Some (Z.to_int b)).
  { rewrite <- (NilZero.isi (Z.to_int a)) by apply Hn.
    rewrite <- (NilZero.isi (Z.to_int b)) by apply Hn. rewrite H. reflexivity. }
  injection E as E. exact E.
Qed.

Lemma string_of_uint_digits (d : Decimal.uint) :
  forallb isDigit (js (NilEmpty.string_of_uint d)) = true.
Proof.
  induction d; cbn [NilEmpty.string_of_uint]; try reflexivity;
    unfold js in *; cbn [list_ascii_of_string map forallb]; rewrite IHd; reflexivity.
Qed.

Lemma Number_toString_digits (n : nat) :
  forallb isDigit (Number_toString (Z.of_nat n)) = true.
Proof.
  unfold Number_toString. destruct (Z.of_nat n) as [|p|p] eqn:E; [reflexivity| |lia].
  cbn [Z.to_int NilZero.string_of_int]. unfold NilZero.string_of_uint.
  destruct (Pos.to_uint p) eqn:Hp; try (rewrite <- Hp; apply string_of_uint_digits).
  reflexivity.
Qed.

(** Two texts that end in a dash and a run of digits are equal only if
    the runs are. *)
Lemma dash_suffix_injective (a b d1 d2 : jsstring) :
  forallb isDigit d1 = true -> forallb isDigit d2 = true ->
  a ++ js "-" ++ d1 = b ++ js "-" ++ d2 -> d1 = d2.
Proof.
  intros H1 H2 H.
  assert (Hrev : forall (x y x' y' : jsstring),
             forallb isDigit x = true -> forallb isDigit x' = true ->
             x ++ 45%N :: y = x' ++ 45%N :: y' -> x = x').
  { induction x as [|c x IH]; intros y [|c' x'] y' Hx Hx' E.
    - reflexivity.
    - cbn in E. injection E as E _. subst c'. discriminate Hx'.
    - cbn in E. injection E as E _. subst c. discriminate Hx.
    - cbn [app] in E. injection E as Ec E. subst c'. f_equal.
      cbn [forallb] in Hx, Hx'. apply andb_prop in Hx, Hx'.
      exact (IH y x' y' (proj2 Hx) (proj2 Hx') E). }
  apply (f_equal (@rev N)) in H. rewrite !rev_app_distr in H.
  change (js "-") with [45%N] in H. cbn [rev app] in H. rewrite <- !app_assoc in H.
  cbn [app] in H.
  assert (Hd : forall d, forallb isDigit d = true -> forallb isDigit (rev d) = true).
  { intros d Hd. apply forallb_forall. intros c Hc. apply in_rev in Hc.
    exact (proj1 (forallb_forall _ _) Hd c Hc). }
  pose proof (Hrev _ _ _ _ (Hd _ H1) (Hd _ H2) H) as E.
  rewrite <- (rev_involutive d1), <- (rev_involutive d2), E. reflexivity.
Qed.

Lemma generateJobId_injective (title company title' company' : jsstring)
      (rowNumber rowNumber' : nat) :
  generateJobId title company rowNumber = generateJobId title' company' rowNumber' ->
  rowNumber = rowNumber'.
Proof.
  unfold generateJobId. intros H.
  assert (Hre : forall a b c : jsstring,
             a ++ js "-" ++ b ++ js "-" ++ c = (a ++ js "-" ++ b) ++ js "-" ++ c)
    by (intros; rewrite <- !app_assoc; reflexivity).
  rewrite !Hre in H.
  apply dash_suffix_injective in H; try apply Number_toString_digits.
  apply Number_toString_injective in H. lia.
Qed.

Lemma parseJobDescriptionRow_id (row : list JSValue) (columnMap : ColumnMap)
      (rowNumber : nat) (errors errors' : list jsstring) (job : ExcelJobDescription.t) :
  parseJobDescriptionRow row columnMap rowNumber errors = (Ok (Some job), errors') ->
  exists title company, ExcelJobDescription.id job = generateJobId title company rowNumber.
Proof.
  unfold parseJobDescriptionRow.
  destruct (noColumn (column columnMap "title") || noColumn (column columnMap "company")
            || noColumn (column columnMap "description")); [discriminate|].
  destruct (getCellValue row (column columnMap "title")) as [title|]; cbn [bind];
    [|discriminate].
  destruct (getCellValue row (column columnMap "company")) as [company|]; cbn [bind];
    [|discriminate].
  destruct (getCellValue row (column columnMap "description")) as [description|];
    cbn [bind]; [|discriminate].
  destruct (negb (nonEmpty title) || negb (nonEmpty company) || negb (nonEmpty description));
    [discriminate|].
  repeat match goal with
         | |- context [bind ?c _] => destruct c; cbn [bind]; [|discriminate]
         end.
  intros [= <- _]. cbn [ExcelJobDescription.id]. eauto.
Qed.

Lemma NoDup_snoc {A : Type} (l : list A) (x : A) :
  NoDup l -> ~ In x l -> NoDup (l ++ [x]).
Proof.
  induction l as [|a l IH]; intros Hn Hx; cbn [app].
  - constructor; [intros [] | constructor].
  - inversion Hn as [|? ? Ha Hl]; subst. constructor.
    + intros H. apply in_app_or in H. destruct H as [H | [H | []]]; [exact (Ha H)|].
      apply Hx. left. symmetry. exact H.
    + apply IH; [exact Hl|]. intros H. apply Hx. right. exact H.
Qed.

Lemma parseRows_ids (columnMap : ColumnMap) (dataRows : list (list JSValue)) (i : nat)
      (jobs : list ExcelJobDescription.t) (errors : list jsstring) :
  (forall job, In job jobs ->
               exists title company n,
                 ExcelJobDescription.id job = generateJobId title company n
                 /\ (2 <= n < i + 2)%nat) ->
  NoDup (map ExcelJobDescription.id jobs) ->
  (forall job, In job (fst (parseRows columnMap dataRows i jobs errors)) ->
               exists title company n,
                 ExcelJobDescription.id job = generateJobId title company n
                 /\ (2 <= n < i + List.length dataRows + 2)%nat)
  /\ NoDup (map ExcelJobDescription.id (fst (parseRows columnMap dataRows i jobs errors))).
Proof.
  revert i jobs errors. induction dataRows as [|row dataRows IH]; intros i jobs errors Hid Hn.
  - cbn [parseRows fst List.length]. split; [|exact Hn].
    intros job Hin. destruct (Hid job Hin) as [t [c [n [E Hr]]]]. exists t, c, n.
    split; [exact E | lia].
  - cbn [parseRows List.length].
    assert (Hweak : forall job, In job jobs ->
                                exists title company n,
                                  ExcelJobDescription.id job = generateJobId title company n
                                  /\ (2 <= n < S i + 2)%nat).
    { intros job Hin. destruct (Hid job Hin) as [t [c [n [E Hr]]]]. exists t, c, n.
      split; [exact E | lia]. }
    destruct (parseJobDescriptionRow row columnMap (i + 2) errors) as [[[job|]|e] errors']
      eqn:Hrow.
    + destruct (parseJobDescriptionRow_id _ _ _ _ Hrow) as [t [c E]].
      destruct (IH (S i) (jobs ++ [job]) errors') as [H1 H2].
      * intros job' Hin. apply in_app_or in Hin. destruct Hin as [Hin | [<- | []]].
        -- exact (Hweak job' Hin).
        -- exists t, c, (i + 2)%nat. split; [exact E | lia].
      * rewrite map_app. cbn [map]. apply NoDup_snoc; [exact Hn|].
        intros Hin. apply in_map_iff in Hin. destruct Hin as [job' [E' Hin]].
        destruct (Hid job' Hin) as [t' [c' [n [En Hr]]]].
        rewrite E, En in E'. apply generateJobId_injective in E'. lia.
      * split; [|exact H2]. intros job' Hin. destruct (H1 job' Hin) as [t' [c' [n [En Hr]]]].
        exists t', c', n. split; [exact En | lia].
    + destruct (IH (S i) jobs errors' Hweak Hn) as [H1 H2].
      split; [|exact H2]. intros job' Hin. destruct (H1 job' Hin) as [t' [c' [n [En Hr]]]].
      exists t', c', n. split; [exact En | lia].
    + destruct (IH (S i) jobs
                   (errors' ++ [ROW (i + 2)
                                ++ R1Agent.messageOr e (js "Failed to parse row")])
                   Hweak Hn) as [H1 H2].
      split; [|exact H2]. intros job' Hin. destruct (H1 job' Hin) as [t' [c' [n [En Hr]]]].
      exists t', c', n. split; [exact En | lia].
Qed.

(** The ids of the job descriptions read from one sheet are pairwise
    different: each ends in the number of its row, and the rows have
    different numbers, from 2 on. *)
Theorem job_ids_are_distinct (workbook : Workbook) :
  let jobDescriptions := ExcelProcessingResult.jobDescriptions (processExcelFile workbook) in
  NoDup (map ExcelJobDescription.id jobDescriptions)
  /\ (forall job, In job jobDescriptions ->
                  exists title company rowNumber,
                    ExcelJobDescription.id job = generateJobId title company rowNumber
                    /\ (2 <= rowNumber)%nat)
  /\ (forall title company title' company' rowNumber rowNumber',
        generateJobId title company rowNumber = generateJobId title' company' rowNumber' ->
        rowNumber = rowNumber').
Proof.
  intros jobDescriptions. split; [|split].
  3: exact generateJobId_injective.
  all: unfold jobDescriptions, processExcelFile;
    destruct workbook as [error | | [headers|] dataRows];
    cbn [parseJobDescriptions createColumnMap ExcelProcessingResult.jobDescriptions map];
    try (constructor; fail); try (intros job []; fail).
  all: unfold parseJobDescriptions; cbn [createColumnMap];
    destruct (createColumnMap_from headers 0 []) as [columnMap | error];
    cbn [ExcelProcessingResult.jobDescriptions map];
    try (constructor; fail); try (intros job []; fail).
  all: pose proof (parseRows_ids columnMap dataRows 0 [] []
                     (fun job (H : In job []) => match H with end) (NoDup_nil _)) as [H1 H2];
    destruct (parseRows columnMap dataRows 0 [] [])
      as [jobs errors]; cbn [fst ExcelProcessingResult.jobDescriptions] in *.
  - exact H2.
  - intros job Hin. destruct (H1 job Hin) as [t [c [n [E Hr]]]]. exists t, c, n.
    split; [exact E | lia].
Qed.

End JobIdProperties.

(** ** The enhanced agent: the screening history *)

Section HistoryProperties.
Context {ops : StringOps} {host : Host} {conversions : Conversions}.
Import R1AgentEnhanced.

Lemma Map_get_set_same (key : jsstring) (value : ScreeningResult) (map : History) :
  Map_get key (Map_set key value map) = Some value.
Proof.
  induction map as [|[k v] map IH]; cbn [Map_set Map_get].
  - destruct (jsstring_eqb key key) eqn:E; [reflexivity|].
    assert (jsstring_eqb key key = true) by (apply jsstring_eqb_eq; reflexivity). congruence.
  - destruct (jsstring_eqb k key) eqn:E; cbn [Map_get]; rewrite E; [reflexivity | exact IH].
Qed.

Lemma Map_get_set_other (key key' : jsstring) (value : ScreeningResult) (map : History) :
  key <> key' -> Map_get key (Map_set key' value map) = Map_get key map.
Proof.
  intros Hne. induction map as [|[k v] map IH]; cbn [Map_set Map_get].
  - destruct (jsstring_eqb key' key) eqn:E; [|reflexivity].
    apply jsstring_eqb_eq in E. congruence.
  - destruct (jsstring_eqb k key') eqn:E; cbn [Map_get].
    + apply jsstring_eqb_eq in E. subst k.
      destruct (jsstring_eqb key' key) eqn:E'; [|reflexivity].
      apply jsstring_eqb_eq in E'. congruence.
    + destruct (jsstring_eqb k key); [reflexivity | exact IH].
Qed.

Lemma generateResultId_injective (candidateName jobId jobId' : jsstring) :
  generateResultId candidateName jobId = generateResultId candidateName jobId' ->
  jobId = jobId'.
Proof.
  unfold generateResultId. intros H. apply app_inv_head in H. apply app_inv_head in H.
  exact H.
Qed.

Lemma screenOne_history (candidateProfile : ParsedResume)
      (jobDescriptions : list ExcelJobDescription.t)
      (screeningResults : list Screened.t) (screeningHistory : History) (jobId : jsstring) :
  ~ In jobId (map ExcelJobDescription.id jobDescriptions) ->
  Map_get (generateResultId (fullName candidateProfile) jobId)
          (snd (fold_left (screenOne candidateProfile) jobDescriptions
                          (screeningResults, screeningHistory)))
  = Map_get (generateResultId (fullName candidateProfile) jobId) screeningHistory.
Proof.
  revert screeningResults screeningHistory.
  induction jobDescriptions as [|job jobs IH]; intros screeningResults screeningHistory Hn.
  - reflexivity.
  - cbn [fold_left]. unfold screenOne at 2. rewrite IH.
    + apply Map_get_set_other. intros E. apply generateResultId_injective in E.
      apply Hn. left. symmetry. exact E.
    + intros H. apply Hn. right. exact H.
Qed.

(** After a screening the history holds, under the key made of the
    profile's name and the job's id, the result for each job, provided the
    jobs have different ids (as the jobs of one sheet do).  Since the
    profile is always the 'Unknown' one, the key names the job only, and
    the whole outcome, history included, is the same for every resume. *)
Theorem history_holds_each_result (resumeInput : ResumeInput.t)
        (jobDescriptions : list ExcelJobDescription.t) (screeningHistory : History) :
  NoDup (map ExcelJobDescription.id jobDescriptions) ->
  let history' :=
    snd (screenResumeAgainstMultipleJobs resumeInput jobDescriptions screeningHistory) in
  (forall job,
     In job jobDescriptions ->
     getScreeningResult (js "Unknown") (ExcelJobDescription.id job) history'
     = Some (ResumeEvaluator.evaluateAgainstCriteria
               unknownProfile (convertExcelJobToRequirements job)))
  /\ (forall jobId,
        ~ In jobId (map ExcelJobDescription.id jobDescriptions) ->
        getScreeningResult (js "Unknown") jobId history'
        = getScreeningResult (js "Unknown") jobId screeningHistory)
  /\ (forall otherInput,
        screenResumeAgainstMultipleJobs otherInput jobDescriptions screeningHistory
        = screenResumeAgainstMultipleJobs resumeInput jobDescriptions screeningHistory).
Proof.
  intros Hnd history'.
  assert (Hh : history'
               = snd (fold_left (screenOne unknownProfile) jobDescriptions
                                ([], screeningHistory))).
  { unfold history', screenResumeAgainstMultipleJobs.
    rewrite parseResume_ResumeInput_object.
    change (Typed.ParsedResume_of unknownProfileObject) with (Some unknownProfile).
    cbv iota.
    destruct (fold_left (screenOne unknownProfile) jobDescriptions ([], screeningHistory));
      reflexivity. }
  split; [|split].
  - rewrite Hh. clear Hh history'. unfold getScreeningResult.
    generalize (@nil Screened.t) as screeningResults. revert screeningHistory.
    induction jobDescriptions as [|job' jobs IH];
      intros screeningHistory screeningResults job Hin; [destruct Hin|].
    cbn [map] in Hnd. inversion Hnd as [|? ? Hnotin Hnd']; subst.
    cbn [fold_left]. unfold screenOne at 2. destruct Hin as [-> | Hin].
    + rewrite (screenOne_history unknownProfile jobs _ _ _ Hnotin).
      apply Map_get_set_same.
    + exact (IH Hnd' _ _ job Hin).
  - intros jobId Hn. rewrite Hh. unfold getScreeningResult.
    exact (screenOne_history unknownProfile jobDescriptions _ _ _ Hn).
  - intros otherInput. unfold screenResumeAgainstMultipleJobs.
    rewrite !parseResume_ResumeInput_object. reflexivity.
Qed.

End HistoryProperties.

Lemma history_holds_each_result_witness :
  NoDup (map ExcelJobDescription.id [sampleJob])
  /\ forall (ops : StringOps) (host : Host),
       R1AgentEnhanced.getScreeningResult (js "Unknown") (ExcelJobDescription.id sampleJob)
         (snd (R1AgentEnhanced.screenResumeAgainstMultipleJobs sampleResumeInput
                 [sampleJob] []))
       = Some (ResumeEvaluator.evaluateAgainstCriteria
                 unknownProfile (R1AgentEnhanced.convertExcelJobToRequirements sampleJob)).
Proof.
  assert (Hnd : NoDup (map ExcelJobDescription.id [sampleJob]))
    by (constructor; [intros [] | constructor]).
  split; [exact Hnd|]. intros ops host.
  exact (proj1 (@history_holds_each_result ops host sampleResumeInput [sampleJob] [] Hnd)
               sampleJob (or_introl eq_refl)).
Defined.

(** ** The parser: sections of a text that has lines *)

Section SectionProperties.
Context {ops : StringOps}.
Import ResumeParser.

Lemma scanLines_spec (keywords : list jsstring) (lines : list jsstring) (inSection : bool)
      (sectionContent : list jsstring) :
  exists collected,
    scanLines keywords lines inSection sectionContent = sectionContent ++ collected
    /\ (forall line, In line collected ->
                     In line lines /\ mentions keywords line = false
                     /\ mentions sectionHeadings line = false)
    /\ (inSection = false ->
        (forall line, In line lines -> mentions keywords line = false) ->
        collected = [])
    /\ (inSection = false -> collected <> [] ->
        exists header, In header lines /\ mentions keywords header = true).
Proof.
  revert inSection sectionContent.
  induction lines as [|line lines IH]; intros inSection sectionContent.
  - exists []. cbn [scanLines]. rewrite app_nil_r. split; [reflexivity|].
    split; [intros line []|]. split; [reflexivity | congruence].
  - cbn [scanLines]. fold (mentions keywords line).
    destruct (mentions keywords line) eqn:Hk.
    + destruct (IH true sectionContent) as [collected [E [Hc _]]].
      exists collected. split; [exact E|]. split; [|split].
      * intros l Hl. destruct (Hc l Hl) as [H1 H2]. split; [right; exact H1 | exact H2].
      * intros _ Hnone. rewrite (Hnone line (or_introl eq_refl)) in Hk. discriminate.
      * intros _ _. exists line. split; [left; reflexivity | exact Hk].
    + assert (Hh : String_includes (toLowerCase line) (js "experience")
                   || String_includes (toLowerCase line) (js "education")
                   || String_includes (toLowerCase line) (js "skills")
                   || String_includes (toLowerCase line) (js "certifications")
                   = mentions sectionHeadings line).
      { unfold mentions, sectionHeadings. cbn [existsb].
        destruct (String_includes (toLowerCase line) (js "experience")),
          (String_includes (toLowerCase line) (js "education")),
          (String_includes (toLowerCase line) (js "skills")),
          (String_includes (toLowerCase line) (js "certifications")); reflexivity. }
      rewrite Hh. destruct inSection; cbn [andb].
      * destruct (mentions sectionHeadings line) eqn:Hs.
        -- exists []. rewrite app_nil_r. split; [reflexivity|].
           split; [intros l []|]. split; [reflexivity | congruence].
        -- destruct (IH true (sectionContent ++ [line])) as [collected [E [Hc _]]].
           exists (line :: collected). rewrite E, <- app_assoc. split; [reflexivity|].
           split; [|split; discriminate].
           intros l [<- | Hl]; [split; [left; reflexivity | split; assumption]|].
           destruct (Hc l Hl) as [H1 H2]. split; [right; exact H1 | exact H2].
      * destruct (IH false sectionContent) as [collected [E [Hc [Hn Hhead]]]].
        exists collected. split; [exact E|]. split; [|split].
        -- intros l Hl. destruct (Hc l Hl) as [H1 H2]. split; [right; exact H1 | exact H2].
        -- intros _ Hnone. apply Hn; [reflexivity|]. intros l Hl. apply Hnone. right.
           exact Hl.
        -- intros _ Hne. destruct (Hhead eq_refl Hne) as [header [H1 H2]].
           exists header. split; [right; exact H1 | exact H2].
Qed.

(** On a text that has lines, the section [extractSection] returns is made
    of lines of the text, joined by newlines: lines that follow a line
    mentioning a keyword, and that mention neither a keyword nor one of
    the words 'experience', 'education', 'skills', 'certifications'.  A
    text none of whose lines mentions a keyword has no section. *)
Theorem extractSection_collects_lines (text : jsstring) (keywords : list jsstring)
        (section : jsstring) :
  extractSection text keywords = Some section ->
  exists collected,
    collected <> []
    /\ section = join [NEWLINE] collected
    /\ (forall line, In line collected ->
                     In line (split NEWLINE text)
                     /\ mentions keywords line = false
                     /\ mentions sectionHeadings line = false)
    /\ (exists header, In header (split NEWLINE text) /\ mentions keywords header = true)
    /\ (forall other,
          (forall line, In line (split NEWLINE other) -> mentions keywords line = false) ->
          extractSection other keywords = None).
Proof.
  unfold extractSection. intros H.
  destruct (scanLines_spec keywords (split NEWLINE text) false [])
    as [collected [E [Hc [_ Hhead]]]].
  rewrite E in H. cbn [app] in H.
  destruct collected as [|line collected]; [discriminate|].
  cbn [List.length Nat.ltb Nat.leb] in H. injection H as <-.
  exists (line :: collected). split; [discriminate|]. split; [reflexivity|].
  split; [exact Hc|]. split; [apply Hhead; [reflexivity | discriminate]|].
  intros other Hnone.
  destruct (scanLines_spec keywords (split NEWLINE other) false [])
    as [collected' [E' [_ [Hn _]]]].
  rewrite E', (Hn eq_refl Hnone). reflexivity.
Qed.

End SectionProperties.

Lemma extractSection_collects_lines_witness :
  @ResumeParser.extractSection asciiOps sampleSkillsText [js "skills"]
  = Some (js "Go" ++ [10%N] ++ js "Rust")
  /\ exists collected,
       collected <> []
       /\ js "Go" ++ [10%N] ++ js "Rust" = join [ResumeParser.NEWLINE] collected.
Proof.
  split; [reflexivity|].
  destruct (@extractSection_collects_lines asciiOps sampleSkillsText [js "skills"]
              (js "Go" ++ [10%N] ++ js "Rust") eq_refl) as [collected [H1 [H2 _]]].
  exists collected. split; assumption.
Defined.

(** ** The parser: what the structured path fills in *)

Section StructuredProperties.
Context {ops : StringOps} {host : Host}.
Import ResumeParser.
Local Open Scope string_scope.
Local Open Scope list_scope.

Lemma jsOr_truthy (a b : JSValue) : truthy b = true -> truthy (a ||| b) = true.
Proof. intros Hb. unfold jsOr. destruct (truthy a) eqn:Ha; assumption. Qed.

Lemma mapM_Ok {A B : Type} (f : A -> result B) (l : list A) (ys : list B) :
  mapM f l = Ok ys ->
  List.length ys = List.length l /\ forall y, In y ys -> exists x, In x l /\ f x = Ok y.
Proof.
  revert ys. induction l as [|x l IH]; intros ys H; cbn [mapM] in H.
  - injection H as <-. split; [reflexivity | intros y []].
  - destruct (f x) as [y|] eqn:Hx; cbn [bind] in H; [|discriminate].
    destruct (mapM f l) as [ys'|]; cbn [bind] in H; [|discriminate].
    injection H as <-. destruct (IH ys' eq_refl) as [Hlen Hin]. split.
    + cbn [List.length]. rewrite Hlen. reflexivity.
    + intros y' [<- | Hy]; [exists x; split; [left; reflexivity | exact Hx]|].
      destruct (Hin y' Hy) as [x' [H1 H2]]. exists x'. split; [right; exact H1 | exact H2].
Qed.

Lemma Array_map_entries (param : string) (v out : JSValue) (f : JSValue -> result JSValue)
      (keys : list string) :
  (forall x y key, f x = Ok y -> In key keys -> truthy (prop y key) = true) ->
  Array_map param v f = Ok out ->
  entriesHave keys out /\ arrayLength out = arrayLength v.
Proof.
  intros Hf H. unfold Array_map in H. destruct v; try discriminate.
  destruct (mapM f elems) as [ys|] eqn:Hm; cbn [bind] in H; [|discriminate].
  injection H as <-. destruct (@mapM_Ok _ _ _ _ _ Hm) as [Hlen Hin]. split; [|exact Hlen].
  exists ys. split; [reflexivity|]. intros entry key He Hk.
  destruct (Hin entry He) as [x [_ Hx]]. exact (Hf x entry key Hx Hk).
Qed.

(** The profile of the structured path has a truthy [fullName] and four
    arrays as long as the arrays it was given (empty for a list that is
    missing).  In them every degree has a [degree] and an [institution],
    every position a [title] and a [company], every skill a [category]
    and a [proficiency], every certification a [name] and an
    [issuingOrganization]: what the input lacks is filled in.  It has no
    [rawText]. *)
Theorem structured_profile_is_filled_in (data profile : JSValue) :
  parseStructuredResume data = Ok profile ->
  truthy (prop profile "fullName") = true
  /\ prop profile "rawText" = VUndefined
  /\ (entriesHave ["degree"; "institution"] (prop profile "education")
      /\ arrayLength (prop profile "education")
         = arrayLength (prop data "education" ||| VArr []))
  /\ (entriesHave ["title"; "company"] (prop profile "workExperience")
      /\ arrayLength (prop profile "workExperience")
         = arrayLength (prop data "experience" ||| prop data "workExperience" ||| VArr []))
  /\ (entriesHave ["category"; "proficiency"] (prop profile "skills")
      /\ arrayLength (prop profile "skills")
         = arrayLength (prop data "skills" ||| VArr []))
  /\ (entriesHave ["name"; "issuingOrganization"] (prop profile "certifications")
      /\ arrayLength (prop profile "certifications")
         = arrayLength (prop data "certifications" ||| VArr [])).
Proof.
  unfold parseStructuredResume, normalizeEducation, normalizeWorkExperience,
    normalizeSkills, normalizeCertifications.
  destruct (Array_map "education" _ normalizeEducation_entry) as [education|] eqn:He;
    cbn [bind]; [|discriminate].
  destruct (Array_map "experience" _ normalizeWorkExperience_entry) as [experience|] eqn:Hw;
    cbn [bind]; [|discriminate].
  destruct (Array_map "skills" _ normalizeSkills_entry) as [skills|] eqn:Hs;
    cbn [bind]; [|discriminate].
  destruct (Array_map "certifications" _ normalizeCertifications_entry)
    as [certifications|] eqn:Hc; cbn [bind]; [|discriminate].
  intros [= <-]. cbn [prop lookup String.eqb Ascii.eqb Bool.eqb].
  split; [apply jsOr_truthy; reflexivity|]. split; [reflexivity|].
  split; [|split; [|split]].
  - apply (fun Hf => @Array_map_entries _ _ _ _ _ Hf He). intros x y key Hx Hk.
    unfold normalizeEducation_entry in Hx. destruct (nullish x); [discriminate|].
    injection Hx as <-.
    destruct Hk as [<- | [<- | []]]; cbn [prop lookup String.eqb Ascii.eqb Bool.eqb];
      apply jsOr_truthy; reflexivity.
  - apply (fun Hf => @Array_map_entries _ _ _ _ _ Hf Hw). intros x y key Hx Hk.
    unfold normalizeWorkExperience_entry in Hx. destruct (nullish x); [discriminate|].
    destruct (if truthy (prop x "duration") then _ else _) as [duration|];
      cbn [bind] in Hx; [|discriminate].
    injection Hx as <-.
    destruct Hk as [<- | [<- | []]]; cbn [prop lookup String.eqb Ascii.eqb Bool.eqb];
      apply jsOr_truthy; reflexivity.
  - apply (fun Hf => @Array_map_entries _ _ _ _ _ Hf Hs). intros x y key Hx Hk.
    unfold normalizeSkills_entry in Hx.
    destruct (typeof x); try (destruct (nullish x); [discriminate|]);
      injection Hx as <-;
      destruct Hk as [<- | [<- | []]]; cbn [prop lookup String.eqb Ascii.eqb Bool.eqb];
      try reflexivity; apply jsOr_truthy; reflexivity.
  - apply (fun Hf => @Array_map_entries _ _ _ _ _ Hf Hc). intros x y key Hx Hk.
    unfold normalizeCertifications_entry in Hx. destruct (nullish x); [discriminate|].
    injection Hx as <-.
    destruct Hk as [<- | [<- | []]]; cbn [prop lookup String.eqb Ascii.eqb Bool.eqb];
      apply jsOr_truthy; reflexivity.
Qed.

End StructuredProperties.

Lemma structured_profile_is_filled_in_witness :
  structuredListsOk sampleStructuredInput = true
  /\ forall (ops : StringOps) (host : Host),
       exists profile,
         ResumeParser.parseStructuredResume sampleStructuredInput = Ok profile
         /\ truthy (prop profile "fullName") = true
         /\ arrayLength (prop profile "skills") = 2%nat.
Proof.
  split; [reflexivity|]. intros ops host. eexists. split; [reflexivity|].
  pose proof (@structured_profile_is_filled_in host sampleStructuredInput _ eq_refl)
    as [H1 [_ [_ [_ [[_ H2] _]]]]].
  split; [exact H1 | exact H2].
Defined.

(** ** The evaluator: a failure names what is missing *)

Section MissingProperties.
Context {ops : StringOps}.
Import ResumeEvaluator.
Local Open Scope Z_scope.

Lemma pass_scores (f : Features.t) (r : JobRequirements) :
  (pass (evaluateExperience f r) = true -> 20 <= score (evaluateExperience f r))
  /\ (pass (evaluateSkills f r) = true -> 25 <= score (evaluateSkills f r))
  /\ (pass (evaluateEducation f r) = true -> 15 <= score (evaluateEducation f r))
  /\ (pass (evaluateCertifications f r) = true -> 10 <= score (evaluateCertifications f r)).
Proof.
  unfold evaluateExperience, evaluateSkills, evaluateEducation, evaluateCertifications.
  cbn [pass score]. repeat split.
  - intros ->. destruct (Features.hasRelevantExperience f); simpl; lia.
  - intros ->. destruct (percentage (Features.skillMatch f) >=? 50); simpl; lia.
  - intros ->. destruct (Features.hasRelevantEducation f); simpl; lia.
  - destruct (noCertificationsRequired r); cbn [pass score]; [lia|]. intros ->. lia.
Qed.

Lemma all_categories_pass (candidateData : ParsedResume)
      (jobRequirements : JobRequirements) :
  let f := extractEvaluationFeatures candidateData in
  pass (evaluateExperience f jobRequirements) = true ->
  pass (evaluateSkills f jobRequirements) = true ->
  pass (evaluateEducation f jobRequirements) = true ->
  pass (evaluateCertifications f jobRequirements) = true ->
  screeningResult (evaluateAgainstCriteria candidateData jobRequirements) = pass_.
Proof.
  intros f P1 P2 P3 P4. apply screeningResult_pass_iff. unfold earnedPoints. fold f.
  destruct (pass_scores f jobRequirements) as [H1 [H2 [H3 H4]]].
  specialize (H1 P1). specialize (H2 P2). specialize (H3 P3). specialize (H4 P4). lia.
Qed.

Lemma certifications_fail_required (f : Features.t) (r : JobRequirements) :
  pass (evaluateCertifications f r) = false -> negb (noCertificationsRequired r) = true.
Proof.
  unfold evaluateCertifications.
  destruct (noCertificationsRequired r); [discriminate | reflexivity].
Qed.

Lemma fail_names_missing (candidateData : ParsedResume) (jobRequirements : JobRequirements) :
  screeningResult (evaluateAgainstCriteria candidateData jobRequirements) = fail_ ->
  exists first rest,
    missingRequirements (evaluateAgainstCriteria candidateData jobRequirements)
    = Some (first :: rest).
Proof.
  intros Hf. pose proof (all_categories_pass candidateData jobRequirements) as Hall.
  cbv zeta in Hall. unfold evaluateAgainstCriteria at 1. cbn [missingRequirements].
  rewrite performEvaluation_missing.
  set (f := extractEvaluationFeatures candidateData) in *.
  destruct (pass (evaluateExperience f jobRequirements)),
    (pass (evaluateSkills f jobRequirements)),
    (pass (evaluateEducation f jobRequirements)),
    (pass (evaluateCertifications f jobRequirements)) eqn:P4;
    try rewrite (certifications_fail_required _ _ P4); cbn [app];
    try (do 2 eexists; reflexivity).
  rewrite (Hall eq_refl eq_refl eq_refl eq_refl) in Hf. discriminate.
Qed.

(** A screening that fails names at least one missing requirement: a
    profile that passes all four categories has 70 points or more.  So an
    empty list of missing requirements means 'pass', with one reason for
    each category. *)
Theorem failed_screening_names_missing (candidateData : ParsedResume)
        (jobRequirements : JobRequirements) :
  let result := evaluateAgainstCriteria candidateData jobRequirements in
  (screeningResult result = fail_ ->
   exists first rest, missingRequirements result = Some (first :: rest))
  /\ (missingRequirements result = Some [] ->
      screeningResult result = pass_ /\ List.length (matchReasons result) = 4%nat)
  /\ exists missing,
       missingRequirements result = Some missing /\ (List.length missing <= 4)%nat.
Proof.
  intros result. split; [apply fail_names_missing|].
  pose proof (all_categories_pass candidateData jobRequirements) as Hall.
  cbv zeta in Hall. fold result in Hall.
  assert (Hm : missingRequirements result
               = Some (missing (performEvaluation
                                  (extractEvaluationFeatures candidateData)
                                  jobRequirements))) by reflexivity.
  assert (Hr : matchReasons result
               = reasons (performEvaluation (extractEvaluationFeatures candidateData)
                                            jobRequirements)) by reflexivity.
  rewrite Hm, Hr, performEvaluation_missing, performEvaluation_reasons.
  set (f := extractEvaluationFeatures candidateData) in *.
  destruct (pass (evaluateExperience f jobRequirements)),
    (pass (evaluateSkills f jobRequirements)),
    (pass (evaluateEducation f jobRequirements)),
    (pass (evaluateCertifications f jobRequirements)) eqn:P4;
    try rewrite (certifications_fail_required _ _ P4); cbn [app List.length];
    (split; [try discriminate
            | eexists; split; [reflexivity | cbn [List.length]; lia]]).
  intros _. split; [exact (Hall eq_refl eq_refl eq_refl eq_refl) | reflexivity].
Qed.

End MissingProperties.

(** ** The chatbot *)

Section ChatbotProperties.
Context {ops : StringOps}.
Import ChatbotService.
Local Open Scope Q_scope.

(** The mock answer is chosen by the wording of the question alone.  A
    question that contains 'why' and 'pass' is answered with 'The
    candidate was screened as PASS because ...' and confidence 0.85,
    whatever the screening result was; one that contains 'why' and 'fail'
    but not 'pass' with '... FAIL because ...' and 0.80.  Every answer
    has a confidence between 0.75 and 0.90 and three or four suggested
    questions. *)
Theorem answer_follows_the_wording (context : LLMContext.t) :
  let response := mockLLMResponse context in
  (String_includes (lastQuestion context) (js "why") = true ->
   String_includes (lastQuestion context) (js "pass") = true ->
   startsWith (ChatbotResponse.message response)
              (js "The candidate was screened as PASS because") = true
   /\ ChatbotResponse.confidence response = 85 # 100)
  /\ (String_includes (lastQuestion context) (js "why") = true ->
      String_includes (lastQuestion context) (js "pass") = false ->
      String_includes (lastQuestion context) (js "fail") = true ->
      startsWith (ChatbotResponse.message response)
                 (js "The candidate was screened as FAIL because") = true
      /\ ChatbotResponse.confidence response = 80 # 100)
  /\ (75 # 100 <= ChatbotResponse.confidence response <= 90 # 100)
  /\ (3 <= List.length (ChatbotResponse.suggestedQuestions response) <= 4)%nat.
Proof.
  intros response. unfold response, mockLLMResponse. fold (lastQuestion context).
  destruct (String_includes (lastQuestion context) (js "why")) eqn:Hwhy,
    (String_includes (lastQuestion context) (js "pass")) eqn:Hpass,
    (String_includes (lastQuestion context) (js "fail")) eqn:Hfail,
    (String_includes (lastQuestion context) (js "skill")) eqn:Hskill,
    (String_includes (lastQuestion context) (js "experience")) eqn:Hexp;
    cbn [andb ChatbotResponse.message ChatbotResponse.confidence
         ChatbotResponse.suggestedQuestions List.length];
    (split; [|split; [|split; [split; discriminate | lia]]]);
    try (intros; discriminate);
    intros; (split; [reflexivity | reflexivity]).
Qed.

End ChatbotProperties.

Lemma answer_follows_the_wording_witness :
  screeningResult sampleFailedResult = fail_
  /\ String_includes (@lastQuestion asciiOps sampleContext) (js "why") = true
  /\ String_includes (@lastQuestion asciiOps sampleContext) (js "pass") = true
  /\ startsWith
       (ChatbotService.ChatbotResponse.message
          (@ChatbotService.mockLLMResponse asciiOps sampleContext))
       (js "The candidate was screened as PASS because") = true.
Proof.
  split; [reflexivity|]. split; [reflexivity|]. split; [reflexivity|].
  exact (proj1 (proj1 (@answer_follows_the_wording asciiOps sampleContext)
                      eq_refl eq_refl)).
Defined.

(** ** The chatbot: sessions *)

Section ChatSessionProperties.
Context {ops : StringOps}.
Import ChatbotService.

Lemma sessions_get_set_same (key : jsstring) (value : ChatSession.t) (map : Sessions) :
  Map_get key (Map_set key value map) = Some value.
Proof.
  induction map as [|[k v] map IH]; cbn [Map_set Map_get].
  - destruct (jsstring_eqb key key) eqn:E; [reflexivity|].
    assert (jsstring_eqb key key = true) by (apply jsstring_eqb_eq; reflexivity). congruence.
  - destruct (jsstring_eqb k key) eqn:E; cbn [Map_get]; rewrite E; [reflexivity | exact IH].
Qed.

Lemma sessions_get_set_other (key key' : jsstring) (value : ChatSession.t)
      (map : Sessions) :
  key <> key' -> Map_get key (Map_set key' value map) = Map_get key map.
Proof.
  intros Hne. induction map as [|[k v] map IH]; cbn [Map_set Map_get].
  - destruct (jsstring_eqb key' key) eqn:E; [|reflexivity].
    apply jsstring_eqb_eq in E. congruence.
  - destruct (jsstring_eqb k key') eqn:E; cbn [Map_get].
    + apply jsstring_eqb_eq in E. subst k.
      destruct (jsstring_eqb key' key) eqn:E'; [|reflexivity].
      apply jsstring_eqb_eq in E'. congruence.
    + destruct (jsstring_eqb k key); [reflexivity | exact IH].
Qed.

(** [sendMessage] throws 'Chat session not found' for an id without a
    session and changes nothing.  Otherwise it returns the answer and the
    session has two more messages: the user's, with the text sent, and
    then the assistant's, with the text of the answer, which is the mock
    answer to the history that ends with the user's message; the profile,
    the job and the result of the session stay, and every other session
    is as before. *)
Theorem sendMessage_appends_two (host : Readings) (sessionId userMessage : jsstring)
        (sessions : Sessions) :
  let run := sendMessage host sessionId userMessage sessions in
  (getSession sessionId sessions = None ->
   run = (Throw (ErrorObject "Error" (js "Chat session not found")), sessions))
  /\ (forall session,
        getSession sessionId sessions = Some session ->
        exists response session' userMsg aiMsg,
          fst run = Ok response
          /\ getSession sessionId (snd run) = Some session'
          /\ ChatSession.messages session'
             = ChatSession.messages session ++ [userMsg; aiMsg]
          /\ ChatMessage.role userMsg = user
          /\ ChatMessage.content userMsg = userMessage
          /\ ChatMessage.role aiMsg = assistant
          /\ ChatMessage.content aiMsg = ChatbotResponse.message response
          /\ response
             = mockLLMResponse
                 (LLMContext.mk (ChatSession.candidateProfile session)
                                (ChatSession.jobDescription session)
                                (ChatSession.screeningResult session)
                                (ChatSession.messages session ++ [userMsg]))
          /\ ChatSession.candidateProfile session' = ChatSession.candidateProfile session
          /\ ChatSession.jobDescription session' = ChatSession.jobDescription session
          /\ ChatSession.screeningResult session' = ChatSession.screeningResult session
          /\ ChatSession.updatedAt session' = updatedTimestamp host)
  /\ (forall other, other <> sessionId ->
                    getSession other (snd run) = getSession other sessions).
Proof.
  intros run. unfold run, sendMessage, getSession.
  destruct (Map_get sessionId sessions) as [session|] eqn:Hs.
  - split; [discriminate|]. split.
    + intros s [= <-]. do 4 eexists. cbn [fst snd].
      split; [reflexivity|]. split; [apply sessions_get_set_same|].
      cbn [with_messages ChatSession.messages ChatSession.candidateProfile
           ChatSession.jobDescription ChatSession.screeningResult ChatSession.updatedAt].
      rewrite <- app_assoc. cbn [app].
      split; [reflexivity|]. cbn [ChatMessage.role ChatMessage.content].
      repeat split.
    + intros other Hne. cbn [snd]. apply sessions_get_set_other. exact Hne.
  - split; [reflexivity|]. split; [discriminate|]. reflexivity.
Qed.

(** The suggested questions of a session start with the same three; two
    more follow for a failed screening that names a missing requirement,
    one for a candidate with skills, one for a candidate with work
    experience: between three and seven in all, and none for an id
    without a session.  For a result of the evaluator the two questions
    about what is missing follow exactly when the screening failed. *)
Theorem suggested_questions_count (sessionId : jsstring) (sessions : Sessions) :
  let questions := getSuggestedQuestions sessionId sessions in
  (getSession sessionId sessions = None -> questions = [])
  /\ (forall session,
        getSession sessionId sessions = Some session ->
        let result := ChatSession.screeningResult session in
        let candidate := ChatSession.candidateProfile session in
        firstn 3 questions
        = [js "Why was this candidate screened as pass/fail?";
           js "What skills does the candidate have?";
           js "How does their experience match the job requirements?"]
        /\ (3 <= List.length questions <= 7)%nat
        /\ (In (js "What specific requirements are missing?") questions
            <-> screeningResult result = fail_
                /\ exists first rest, missingRequirements result = Some (first :: rest))
        /\ (forall candidateData jobRequirements,
              result = ResumeEvaluator.evaluateAgainstCriteria candidateData jobRequirements ->
              (In (js "What specific requirements are missing?") questions
               <-> screeningResult result = fail_))).
Proof.
  intros questions0. unfold questions0, getSuggestedQuestions, getSession. clear questions0.
  destruct (Map_get sessionId sessions) as [session|]; [|split; [reflexivity | discriminate]].
  split; [discriminate|]. intros s [= <-]. cbv zeta.
  set (result := ChatSession.screeningResult session).
  set (candidate := ChatSession.candidateProfile session).
  match goal with |- firstn 3 ?q = _ /\ _ => set (questions := q) end.
  assert (H : firstn 3 questions
              = [js "Why was this candidate screened as pass/fail?";
                 js "What skills does the candidate have?";
                 js "How does their experience match the job requirements?"]
              /\ (3 <= List.length questions <= 7)%nat
              /\ (In (js "What specific requirements are missing?") questions
                  <-> screeningResult result = fail_
                      /\ exists first rest,
                           missingRequirements result = Some (first :: rest))).
  { unfold questions. rewrite <- Array_includes_spec.
    destruct (screeningResult result), (missingRequirements result) as [[|first rest]|],
      (skills candidate), (workExperience candidate);
      cbn [andb Nat.ltb Nat.leb List.length app firstn];
      (split; [reflexivity | split; [lia|]]);
      match goal with
      | |- context [Array_includes ?l ?x] =>
          let b := eval vm_compute in (Array_includes l x) in
          change (Array_includes l x) with b
      end;
      split; try discriminate;
      try (intros [Hf [a [b Hm]]]; discriminate);
      try (intros _; split; [reflexivity | eauto]);
      try reflexivity. }
  destruct H as [H1 [H2 H3]]. split; [exact H1|]. split; [exact H2|]. split; [exact H3|].
  intros candidateData jobRequirements Hres. rewrite H3. split; [tauto|].
  intros Hf. split; [exact Hf|]. rewrite Hres in Hf |- *.
  exact (fail_names_missing candidateData jobRequirements Hf).
Qed.

End ChatSessionProperties.

(** ** The feature extractor: the detailed features *)

Section DetailedFeaturesProperties.
Context {ops : StringOps} {host : Host}.
Import DetailedFeatures.
Local Open Scope Z_scope.



End DetailedFeaturesProperties.

(** ** The properties above at sample data *)

Lemma normalizeText_normal_form_witness :
  singleSpaced (js "Jane Smith") = true
  /\ ResumeParser.normalizeText (js "Jane Smith") = js "Jane Smith".
Proof.
  split; [reflexivity|].
  exact (proj1 (proj2 (proj2 (proj2 (normalizeText_normal_form (js "Jane Smith")))))
               (js "Jane Smith") eq_refl).
Defined.

Lemma failed_screening_names_missing_witness :
  screeningResult sampleFailedResult = fail_
  /\ exists first rest, missingRequirements sampleFailedResult = Some (first :: rest).
Proof.
  split; [reflexivity|].
  exact (proj1 (@failed_screening_names_missing asciiOps sampleDesigner sampleRequirements)
               eq_refl).
Defined.

Lemma converted_requirements_witness :
  (exists years, ExcelJobDescription.minimumExperience sampleJob = Some years /\ (0 < years)%Z)
  /\ R1Agent.validateJobRequirements
       (@R1AgentEnhanced.convertExcelJobToRequirements asciiOps sampleJob) = true.
Proof.
  assert (H : exists years,
             ExcelJobDescription.minimumExperience sampleJob = Some years /\ (0 < years)%Z)
    by (exists 3%Z; split; [reflexivity | lia]).
  split; [exact H|].
  apply (proj2 (proj2 (proj2 (@converted_requirements asciiOps sampleJob)))).
  split; [exact H|]. exists (js "Go"), [js "Rust"]. reflexivity.
Defined.

(** Two rows under headers that are strings give a job and a message;
    with a column headed by a number, the row is not counted. *)
Lemma excel_rows_accounted_witness :
  (headersAreStrings sampleHeadersWithRef = true
   /\ ExcelProcessingResult.totalRows
        (@ExcelProcessor.processExcelFile asciiOps sampleConversions
           (Worksheet (Some sampleHeadersWithRef) [sampleRowWithRef; []])) = 2%nat
   /\ (List.length
         (ExcelProcessingResult.jobDescriptions
            (@ExcelProcessor.processExcelFile asciiOps sampleConversions
               (Worksheet (Some sampleHeadersWithRef) [sampleRowWithRef; []])))
       + List.length
           (ExcelProcessingResult.errors
              (@ExcelProcessor.processExcelFile asciiOps sampleConversions
                 (Worksheet (Some sampleHeadersWithRef) [sampleRowWithRef; []])))
       = 2)%nat)
  /\ (headersAreStrings sampleHeadersWithYear = false
      /\ ExcelProcessingResult.totalRows
           (@ExcelProcessor.processExcelFile asciiOps sampleConversions
              (Worksheet (Some sampleHeadersWithYear) [sampleRowWithRef])) = 0%nat
      /\ ExcelProcessingResult.jobDescriptions
           (@ExcelProcessor.processExcelFile asciiOps sampleConversions
              (Worksheet (Some sampleHeadersWithYear) [sampleRowWithRef])) = []).
Proof.
  split.
  - split; [reflexivity|].
    exact (proj1 (proj2 (proj2 (@excel_rows_accounted asciiOps sampleConversions
                                  (Worksheet (Some sampleHeadersWithRef)
                                             [sampleRowWithRef; []]))))
                 sampleHeadersWithRef [sampleRowWithRef; []] eq_refl eq_refl).
  - split; [reflexivity|].
    assert (H : forall headers dataRows,
               Worksheet (Some sampleHeadersWithYear) [sampleRowWithRef]
               = Worksheet (Some headers) dataRows ->
               headersAreStrings headers = false)
      by (intros headers dataRows [= <- _]; reflexivity).
    destruct (proj2 (proj2 (proj2 (@excel_rows_accounted asciiOps sampleConversions
                                     (Worksheet (Some sampleHeadersWithYear)
                                                [sampleRowWithRef])))) H)
      as [H1 [H2 _]].
    split; [exact H2 | exact H1].
Defined.

(** A question in the session of the designer: the session then holds the
    question and the answer; for an id without a session nothing changes. *)
Lemma sendMessage_appends_two_witness :
  @ChatbotService.createSession asciiOps 0 0 0 sampleDesigner sampleJob sampleFailedResult []
  = (js "designer-acme-engineer-2-0", sampleSessions)
  /\ ChatbotService.getSession (js "designer-acme-engineer-2-0") sampleSessions
     = Some sampleSession
  /\ (exists response session',
        fst (@ChatbotService.sendMessage asciiOps sampleReadings
               (js "designer-acme-engineer-2-0") (js "Why did the candidate not pass?")
               sampleSessions) = Ok response
        /\ ChatbotService.getSession (js "designer-acme-engineer-2-0")
             (snd (@ChatbotService.sendMessage asciiOps sampleReadings
                     (js "designer-acme-engineer-2-0")
                     (js "Why did the candidate not pass?") sampleSessions))
           = Some session'
        /\ map ChatbotService.ChatMessage.role (ChatbotService.ChatSession.messages session')
           = [ChatbotService.user; ChatbotService.assistant]
        /\ map ChatbotService.ChatMessage.content
               (ChatbotService.ChatSession.messages session')
           = [js "Why did the candidate not pass?";
              ChatbotService.ChatbotResponse.message response])
  /\ (ChatbotService.getSession (js "nobody-1") sampleSessions = None
      /\ @ChatbotService.sendMessage asciiOps sampleReadings (js "nobody-1") (js "Why?")
           sampleSessions
         = (Throw (ErrorObject "Error" (js "Chat session not found")), sampleSessions)).
Proof.
  split; [reflexivity|]. split; [reflexivity|]. split.
  - destruct (proj1 (proj2 (@sendMessage_appends_two asciiOps sampleReadings
                              (js "designer-acme-engineer-2-0")
                              (js "Why did the candidate not pass?") sampleSessions))
                    sampleSession eq_refl)
      as [response [session' [userMsg [aiMsg [H1 [H2 [H3 [H4 [H5 [H6 [H7 _]]]]]]]]]]].
    exists response, session'. split; [exact H1|]. split; [exact H2|].
    rewrite H3. cbn [ChatbotService.ChatSession.messages sampleSession app map].
    rewrite H4, H5, H6, H7. split; reflexivity.
  - split; [reflexivity|].
    exact (proj1 (@sendMessage_appends_two asciiOps sampleReadings (js "nobody-1")
                    (js "Why?") sampleSessions) eq_refl).
Defined.

(** The session of the designer, whose screening failed, is offered the
    seven questions; an id without a session none. *)
Lemma suggested_questions_count_witness :
  ChatbotService.getSession (js "designer-acme-engineer-2-0") sampleSessions
  = Some sampleSession
  /\ screeningResult sampleFailedResult = fail_
  /\ In (js "What specific requirements are missing?")
        (ChatbotService.getSuggestedQuestions (js "designer-acme-engineer-2-0")
                                              sampleSessions)
  /\ (3 <= List.length (ChatbotService.getSuggestedQuestions
                          (js "designer-acme-engineer-2-0") sampleSessions) <= 7)%nat
  /\ List.length (ChatbotService.getSuggestedQuestions
                    (js "designer-acme-engineer-2-0") sampleSessions) = 7%nat
  /\ (ChatbotService.getSession (js "nobody-1") sampleSessions = None
      /\ ChatbotService.getSuggestedQuestions (js "nobody-1") sampleSessions = []).
Proof.
  split; [reflexivity|]. split; [reflexivity|].
  destruct (proj2 (@suggested_questions_count asciiOps (js "designer-acme-engineer-2-0")
                     sampleSessions) sampleSession eq_refl) as [_ [H2 [_ H4]]].
  split; [exact (proj2 (H4 sampleDesigner sampleRequirements eq_refl) eq_refl)|].
  split; [exact H2|]. split; [reflexivity|]. split; [reflexivity|].
  exact (proj1 (@suggested_questions_count asciiOps (js "nobody-1") sampleSessions)
               eq_refl).
Defined.

(** The agent that reads the unit test's candidate returns the evaluator's
    result with an empty log; the agent whose parser throws returns the
    error result and logs the two entries. *)
Lemma runR1_resets_and_logs_witness :
  (fst (R1Agent.runR1 0 sampleResumeInput sampleRequirements sampleAgent)
   = Ok (@ResumeEvaluator.evaluateAgainstCriteria asciiOps sampleCandidate
                                                   sampleRequirements)
   /\ R1Agent.errors (snd (R1Agent.runR1 0 sampleResumeInput sampleRequirements
                                         sampleAgent)) = [])
  /\ map ProcessingError.message
         (R1Agent.errors (snd (R1Agent.runR1 0 sampleResumeInput sampleRequirements
                                             sampleFailingAgent)))
     = [js "Failed to parse resume: Invalid input format. Expected string or object.";
        js "R1 screening failed: Failed to parse resume: Invalid input format. Expected string or object."].
Proof.
  split.
  - exact (proj1 (proj2 (proj2 (runR1_resets_and_logs 0 sampleAgent []
                                  sampleResumeInput sampleRequirements)))
                 sampleCandidate (@FeatureExtractor.extractFeatures asciiOps sampleCandidate)
                 _ eq_refl eq_refl eq_refl).
  - exact (proj2 (proj2 (proj2 (proj1 (proj2 (proj2 (proj2
             (runR1_resets_and_logs 0 sampleFailingAgent [] sampleResumeInput
                                    sampleRequirements))))
             ResumeParser.INVALID_INPUT_FORMAT eq_refl)))).
Defined.

(** After the run of the agent whose parser throws, the status counts two
    errors; after the run of the agent that reads the candidate, none. *)
Lemma agent_status_after_run_witness :
  (exists status,
     R1Agent.getAgentStatus 0 (snd (R1Agent.runR1 0 sampleResumeInput sampleRequirements
                                                   sampleFailingAgent))
     = (Ok status,
        snd (R1Agent.runR1 0 sampleResumeInput sampleRequirements sampleFailingAgent))
     /\ R1Agent.errorCount status = 2%nat)
  /\ (exists status,
        R1Agent.getAgentStatus 0 (snd (R1Agent.runR1 0 sampleResumeInput sampleRequirements
                                                      sampleAgent))
        = (Ok status, snd (R1Agent.runR1 0 sampleResumeInput sampleRequirements sampleAgent))
        /\ R1Agent.errorCount status = 0%nat
        /\ R1Agent.lastError status = None).
Proof.
  split.
  - destruct (agent_status_after_run 0 sampleFailingAgent sampleResumeInput
                                     sampleRequirements)
      as [result [status [_ [H2 [_ [H4 _]]]]]].
    exists status. split; [exact H2|].
    apply H4. left. exists ResumeParser.INVALID_INPUT_FORMAT. reflexivity.
  - destruct (agent_status_after_run 0 sampleAgent sampleResumeInput sampleRequirements)
      as [result [status [_ [H2 [H3 _]]]]].
    exists status. split; [exact H2|].
    exact (proj2 (H3 sampleCandidate
                     (@FeatureExtractor.extractFeatures asciiOps sampleCandidate)
                     _ eq_refl eq_refl eq_refl)).
Defined.


(** Thirty-six months are three years, and yet below the 426 months from
    which the extractor's check is met. *)
Lemma extractor_checks_are_fixed_witness :
  safeMonths (workExperience sampleCandidate) = true
  /\ FeatureExtractor.calculateTotalExperience (workExperience sampleCandidate) = 3%Z
  /\ (ExtractedFeatures.meetsExperienceRequirement
        (@FeatureExtractor.extractFeatures asciiOps sampleCandidate) = true
      <-> (426 <= 36)%Z).
Proof.
  split; [reflexivity|]. split; [reflexivity|].
  exact (proj1 (@extractor_checks_are_fixed asciiOps sampleCandidate) eq_refl).
Defined.

Lemma agent_report_rethrows_witness :
  R1Agent.parser sampleFailingAgent (ResumeInput.content sampleResumeInput)
  = Throw ResumeParser.INVALID_INPUT_FORMAT
  /\ fst (R1Agent.generateDetailedReport 0
            (fun candidateData jobRequirements =>
               Ok (@ResumeEvaluator.generateDetailedReport asciiOps candidateData
                                                            jobRequirements))
            (fun _ => Ok tt) sampleResumeInput sampleRequirements sampleFailingAgent)
     = Throw (ErrorObject "Error"
                (js "Failed to parse resume: Invalid input format. Expected string or object.")).
Proof.
  split; [reflexivity|].
  exact (proj1 (proj2 (proj2 (@agent_report_rethrows 0 unit
                                (fun candidateData jobRequirements =>
                                   Ok (@ResumeEvaluator.generateDetailedReport
                                         asciiOps candidateData jobRequirements))
                                (fun _ => Ok tt) sampleFailingAgent sampleResumeInput
                                sampleRequirements))
                      ResumeParser.INVALID_INPUT_FORMAT eq_refl)).
Defined.
